(** * clk_idtxp: divider computation and register codec of the IDT XP
      programmable oscillator driver (src/clk_idtxp.c)

    The C integer types are modelled as [Z] with the wrap-around of each
    conversion written out ([u8], [u16], [u32], [u64]).  The target is a
    little-endian LP64 kernel: [unsigned long] is 64 bits wide and a
    [(u8* )] cast of a wider field addresses its low-order byte.  Integer
    division by zero is undefined in C; the model inherits [Z]'s
    convention ([x / 0 = 0]), and the theorems about computed dividers
    and about the classification of a rate change are stated on inputs
    whose divisors are positive. *)

From Stdlib Require Import ZArith List Bool Lia.
Import ListNotations.
Local Open Scope Z_scope.

(** ** Machine integers *)

Definition u8  (x : Z) : Z := x mod 2 ^ 8.
Definition u16 (x : Z) : Z := x mod 2 ^ 16.
Definition u32 (x : Z) : Z := x mod 2 ^ 32.
Definition u64 (x : Z) : Z := x mod 2 ^ 64.

(** [~x] on an [unsigned int]. *)
Definition not32 (x : Z) : Z := u32 (Z.lnot x).

(** Conversion of a 64-bit pattern to [signed long]. *)
Definition s64 (x : Z) : Z :=
  let y := u64 x in if y <? 2 ^ 63 then y else y - 2 ^ 64.

(** C truth value of a [bool] field, and the store of a byte into one. *)
Definition of_bool (b : bool) : Z := if b then 1 else 0.
Definition to_bool (v : Z) : bool := negb (v =? 0).

(** Stores through [(u8* )&x] for a 16-bit and a 32-bit field [x]
    (little-endian: the low-order byte is replaced, the others stay). *)
Definition store_low_byte (old v : Z) : Z :=
  Z.lor (Z.land old (Z.lnot 0xFF)) (u8 v).

(** ** Constants of the driver *)

Definition NUM_CONFIG_REGISTERS : Z := 256.
Definition NUM_FREQ_REGISTERS : Z := 6.
Definition NUM_MISCELLANEOUS_REGISTERS : Z := 8.

Definition IDTXP_REG_DIVO_7_0 : Z := 0x10.
Definition IDTXP_REG_HSPI2C_CMOS : Z := 0x50.
Definition IDTXP_REG_VCXO : Z := 0x52.
Definition IDTXP_REG_CONTROL : Z := 0x60.
Definition IDTXP_REG_FREQ_CHG : Z := 0x62.

Definition IDTXP_DIVO_8_MASK : Z := 0x80.
Definition IDTXP_DIVN_INT_6_0_MASK : Z := 0x7F.
Definition IDTXP_ICP_OFFSET_EN_MASK : Z := 0x40.
Definition IDTXP_DIVN_INT_8_7_MASK : Z := 0x30.
Definition IDTXP_ICP_VALUE_MASK : Z := 0x0E.
Definition IDTXP_PLL_MODE_MASK : Z := 0x01.
Definition IDTXP_HSPI2C_EN : Z := 0x10.
Definition IDTXP_CMOS_EN : Z := 0x08.
Definition IDTXP_DBLR_DIS_MASK : Z := 0x80.
Definition IDTXP_VDD_DEF_MASK : Z := 0x60.
Definition IDTXP_VCXO_BW_MASK : Z := 0x03.
Definition IDTXP_GSLOPE_MASK : Z := 0x80.
Definition IDTXP_GEXP_MASK : Z := 0x70.
Definition IDTXP_GSCALE_MASK : Z := 0x0F.
Definition IDTXP_OE_POL_EN : Z := 0x80.
Definition IDTXP_DRV_TYPE : Z := 0x70.
Definition IDTXP_OT_GM_MASK : Z := 0xC0.
Definition IDTXP_XO_CAP_MASK : Z := 0x3F.
Definition IDTXP_XO_AMPSLICE_MASK : Z := 0xF0.
Definition IDTXP_BYPASS_MASK : Z := 0x08.
Definition IDTXP_CAP_X2_MASK : Z := 0x07.
Definition IDTXP_OT_DIS_MASK : Z := 0x80.
Definition IDTXP_OT_RES_MASK : Z := 0x70.

Definition DIVO_MIN : Z := 4.
Definition DIVO_MAX : Z := 511.
Definition DIVN_MIN : Z := 41.
Definition DIVN_MAX : Z := 216.
Definition FVCO_MIN : Z := 6860000000.
Definition FVCO_MAX : Z := 8650000000.
Definition IDTXP_MIN_FREQ : Z := 16000000.
Definition IDTXP_MAX_FREQ : Z := 2100000000.

Definition EINVAL : Z := 22.
Definition EIO : Z := 5.
Definition ENOMEM : Z := 12.
Definition EOVERFLOW : Z := 75.

(** ** Bit-field codec: bit_to_shift, set_to_reg, get_from_reg *)

Definition bit_to_shift (mask : Z) : Z :=
  let c := 32 in
  let mask := Z.land mask (u32 (not32 mask + 1)) in
  let c := if mask =? 0 then c else c - 1 in
  let c := if Z.land mask 0x0000FFFF =? 0 then c else c - 16 in
  let c := if Z.land mask 0x00FF00FF =? 0 then c else c - 8 in
  let c := if Z.land mask 0x0F0F0F0F =? 0 then c else c - 4 in
  let c := if Z.land mask 0x33333333 =? 0 then c else c - 2 in
  let c := if Z.land mask 0x55555555 =? 0 then c else c - 1 in
  c.

(** [*reg = (( *reg) & ~mask) | (val << bit_to_shift(mask))], the result
    converted back to [u8]. *)
Definition set_to_reg (reg val mask : Z) : Z :=
  u8 (Z.lor (Z.land reg (not32 mask)) (Z.shiftl val (bit_to_shift mask))).

(** [*val = (reg & mask) >> bit_to_shift(mask)]. *)
Definition get_from_reg (reg mask : Z) : Z :=
  u8 (Z.shiftr (Z.land reg mask) (bit_to_shift mask)).

(** Number of bits selected by a byte mask. *)
Definition mask_width (m : Z) : Z :=
  fold_right (fun i acc => Z.b2z (Z.testbit m i) + acc) 0 [0;1;2;3;4;5;6;7].

(** A mask whose selected bits are adjacent: shifted down to its lowest
    set bit it has the shape 2^w - 1. *)
Definition contiguous_mask (m : Z) : bool :=
  let t := Z.shiftr m (bit_to_shift m) in
  negb (m =? 0) && (Z.land t (t + 1) =? 0).

(** [s] is the position of the lowest set bit of [m]. *)
Definition lowest_set_bit (m s : Z) : Prop :=
  0 <= s /\ Z.testbit m s = true /\
  forall j, 0 <= j < s -> Z.testbit m j = false.

(** The contract of §4.1 for one byte [b], mask [m] and value [v]. *)
Definition pack_unpack_ok (b m v : Z) : Prop :=
  let r := set_to_reg b v m in
  Z.land r (Z.lnot m) = Z.land b (Z.lnot m) /\
  (forall s, lowest_set_bit m s -> Z.land r m = Z.shiftl v s) /\
  get_from_reg r m = v.

(** ** The device structures

    [struct clk_xo_setting] and the data fields of [struct clk_idtxp]
    (the kernel handles [hw], [regmap], [i2c_client] and the debugfs
    entries are represented by the register port below). *)

Record clk_xo_setting : Type := {
  hsp_i2c_en : bool;
  cmos_en : bool;
  dblr_dis : bool;
  vdd_def : Z;
  vcxo_dis : bool;
  vcxo_bw : Z;
  vcxo_gslope : bool;
  vcxo_gexp : Z;
  vcxo_gscale : Z;
  oe_pol_en : bool;
  drv_type : Z;
  gm : Z;
  cap_x1 : Z;
  ampslice : Z;
  bypass : bool;
  cap_x2 : Z;
  ot_dis : bool;
  ot_res : Z
}.

Record clk_idtxp : Type := {
  has_settings : bool;
  settings : list Z;
  min_freq : Z;
  max_freq : Z;
  xo : clk_xo_setting;
  fxtal : Z;
  fvco : Z;
  divo : Z;
  divnint : Z;
  divnfrac : Z;
  req_freq : Z;
  act_freq : Z;
  icp_offst_en : bool;
  icp_value : Z;
  pll_mode : bool;
  divo_8 : Z;
  divnint_8_7 : Z;
  divnfrac_15_8 : Z;
  divnfrac_23_16 : Z
}.


(** Field assignments [x->f = v]. *)

Definition xo_set_hsp_i2c_en (v : bool) (x : clk_xo_setting) : clk_xo_setting :=
  {| hsp_i2c_en := v; cmos_en := cmos_en x; dblr_dis := dblr_dis x;
     vdd_def := vdd_def x; vcxo_dis := vcxo_dis x; vcxo_bw := vcxo_bw x;
     vcxo_gslope := vcxo_gslope x; vcxo_gexp := vcxo_gexp x;
     vcxo_gscale := vcxo_gscale x; oe_pol_en := oe_pol_en x;
     drv_type := drv_type x; gm := gm x; cap_x1 := cap_x1 x;
     ampslice := ampslice x; bypass := bypass x; cap_x2 := cap_x2 x;
     ot_dis := ot_dis x; ot_res := ot_res x |}.
Definition xo_set_cmos_en (v : bool) (x : clk_xo_setting) : clk_xo_setting :=
  {| hsp_i2c_en := hsp_i2c_en x; cmos_en := v; dblr_dis := dblr_dis x;
     vdd_def := vdd_def x; vcxo_dis := vcxo_dis x; vcxo_bw := vcxo_bw x;
     vcxo_gslope := vcxo_gslope x; vcxo_gexp := vcxo_gexp x;
     vcxo_gscale := vcxo_gscale x; oe_pol_en := oe_pol_en x;
     drv_type := drv_type x; gm := gm x; cap_x1 := cap_x1 x;
     ampslice := ampslice x; bypass := bypass x; cap_x2 := cap_x2 x;
     ot_dis := ot_dis x; ot_res := ot_res x |}.
Definition xo_set_dblr_dis (v : bool) (x : clk_xo_setting) : clk_xo_setting :=
  {| hsp_i2c_en := hsp_i2c_en x; cmos_en := cmos_en x; dblr_dis := v;
     vdd_def := vdd_def x; vcxo_dis := vcxo_dis x; vcxo_bw := vcxo_bw x;
     vcxo_gslope := vcxo_gslope x; vcxo_gexp := vcxo_gexp x;
     vcxo_gscale := vcxo_gscale x; oe_pol_en := oe_pol_en x;
     drv_type := drv_type x; gm := gm x; cap_x1 := cap_x1 x;
     ampslice := ampslice x; bypass := bypass x; cap_x2 := cap_x2 x;
     ot_dis := ot_dis x; ot_res := ot_res x |}.
Definition xo_set_vdd_def (v : Z) (x : clk_xo_setting) : clk_xo_setting :=
  {| hsp_i2c_en := hsp_i2c_en x; cmos_en := cmos_en x;
     dblr_dis := dblr_dis x; vdd_def := v; vcxo_dis := vcxo_dis x;
     vcxo_bw := vcxo_bw x; vcxo_gslope := vcxo_gslope x;
     vcxo_gexp := vcxo_gexp x; vcxo_gscale := vcxo_gscale x;
     oe_pol_en := oe_pol_en x; drv_type := drv_type x; gm := gm x;
     cap_x1 := cap_x1 x; ampslice := ampslice x; bypass := bypass x;
     cap_x2 := cap_x2 x; ot_dis := ot_dis x; ot_res := ot_res x |}.
Definition xo_set_vcxo_dis (v : bool) (x : clk_xo_setting) : clk_xo_setting :=
  {| hsp_i2c_en := hsp_i2c_en x; cmos_en := cmos_en x;
     dblr_dis := dblr_dis x; vdd_def := vdd_def x; vcxo_dis := v;
     vcxo_bw := vcxo_bw x; vcxo_gslope := vcxo_gslope x;
     vcxo_gexp := vcxo_gexp x; vcxo_gscale := vcxo_gscale x;
     oe_pol_en := oe_pol_en x; drv_type := drv_type x; gm := gm x;
     cap_x1 := cap_x1 x; ampslice := ampslice x; bypass := bypass x;
     cap_x2 := cap_x2 x; ot_dis := ot_dis x; ot_res := ot_res x |}.
Definition xo_set_vcxo_bw (v : Z) (x : clk_xo_setting) : clk_xo_setting :=
  {| hsp_i2c_en := hsp_i2c_en x; cmos_en := cmos_en x;
     dblr_dis := dblr_dis x; vdd_def := vdd_def x; vcxo_dis := vcxo_dis x;
     vcxo_bw := v; vcxo_gslope := vcxo_gslope x; vcxo_gexp := vcxo_gexp x;
     vcxo_gscale := vcxo_gscale x; oe_pol_en := oe_pol_en x;
     drv_type := drv_type x; gm := gm x; cap_x1 := cap_x1 x;
     ampslice := ampslice x; bypass := bypass x; cap_x2 := cap_x2 x;
     ot_dis := ot_dis x; ot_res := ot_res x |}.
Definition xo_set_vcxo_gslope (v : bool) (x : clk_xo_setting) : clk_xo_setting :=
  {| hsp_i2c_en := hsp_i2c_en x; cmos_en := cmos_en x;
     dblr_dis := dblr_dis x; vdd_def := vdd_def x; vcxo_dis := vcxo_dis x;
     vcxo_bw := vcxo_bw x; vcxo_gslope := v; vcxo_gexp := vcxo_gexp x;
     vcxo_gscale := vcxo_gscale x; oe_pol_en := oe_pol_en x;
     drv_type := drv_type x; gm := gm x; cap_x1 := cap_x1 x;
     ampslice := ampslice x; bypass := bypass x; cap_x2 := cap_x2 x;
     ot_dis := ot_dis x; ot_res := ot_res x |}.
Definition xo_set_vcxo_gexp (v : Z) (x : clk_xo_setting) : clk_xo_setting :=
  {| hsp_i2c_en := hsp_i2c_en x; cmos_en := cmos_en x;
     dblr_dis := dblr_dis x; vdd_def := vdd_def x; vcxo_dis := vcxo_dis x;
     vcxo_bw := vcxo_bw x; vcxo_gslope := vcxo_gslope x; vcxo_gexp := v;
     vcxo_gscale := vcxo_gscale x; oe_pol_en := oe_pol_en x;
     drv_type := drv_type x; gm := gm x; cap_x1 := cap_x1 x;
     ampslice := ampslice x; bypass := bypass x; cap_x2 := cap_x2 x;
     ot_dis := ot_dis x; ot_res := ot_res x |}.
Definition xo_set_vcxo_gscale (v : Z) (x : clk_xo_setting) : clk_xo_setting :=
  {| hsp_i2c_en := hsp_i2c_en x; cmos_en := cmos_en x;
     dblr_dis := dblr_dis x; vdd_def := vdd_def x; vcxo_dis := vcxo_dis x;
     vcxo_bw := vcxo_bw x; vcxo_gslope := vcxo_gslope x;
     vcxo_gexp := vcxo_gexp x; vcxo_gscale := v; oe_pol_en := oe_pol_en x;
     drv_type := drv_type x; gm := gm x; cap_x1 := cap_x1 x;
     ampslice := ampslice x; bypass := bypass x; cap_x2 := cap_x2 x;
     ot_dis := ot_dis x; ot_res := ot_res x |}.
Definition xo_set_oe_pol_en (v : bool) (x : clk_xo_setting) : clk_xo_setting :=
  {| hsp_i2c_en := hsp_i2c_en x; cmos_en := cmos_en x;
     dblr_dis := dblr_dis x; vdd_def := vdd_def x; vcxo_dis := vcxo_dis x;
     vcxo_bw := vcxo_bw x; vcxo_gslope := vcxo_gslope x;
     vcxo_gexp := vcxo_gexp x; vcxo_gscale := vcxo_gscale x;
     oe_pol_en := v; drv_type := drv_type x; gm := gm x;
     cap_x1 := cap_x1 x; ampslice := ampslice x; bypass := bypass x;
     cap_x2 := cap_x2 x; ot_dis := ot_dis x; ot_res := ot_res x |}.
Definition xo_set_drv_type (v : Z) (x : clk_xo_setting) : clk_xo_setting :=
  {| hsp_i2c_en := hsp_i2c_en x; cmos_en := cmos_en x;
     dblr_dis := dblr_dis x; vdd_def := vdd_def x; vcxo_dis := vcxo_dis x;
     vcxo_bw := vcxo_bw x; vcxo_gslope := vcxo_gslope x;
     vcxo_gexp := vcxo_gexp x; vcxo_gscale := vcxo_gscale x;
     oe_pol_en := oe_pol_en x; drv_type := v; gm := gm x;
     cap_x1 := cap_x1 x; ampslice := ampslice x; bypass := bypass x;
     cap_x2 := cap_x2 x; ot_dis := ot_dis x; ot_res := ot_res x |}.
Definition xo_set_gm (v : Z) (x : clk_xo_setting) : clk_xo_setting :=
  {| hsp_i2c_en := hsp_i2c_en x; cmos_en := cmos_en x;
     dblr_dis := dblr_dis x; vdd_def := vdd_def x; vcxo_dis := vcxo_dis x;
     vcxo_bw := vcxo_bw x; vcxo_gslope := vcxo_gslope x;
     vcxo_gexp := vcxo_gexp x; vcxo_gscale := vcxo_gscale x;
     oe_pol_en := oe_pol_en x; drv_type := drv_type x; gm := v;
     cap_x1 := cap_x1 x; ampslice := ampslice x; bypass := bypass x;
     cap_x2 := cap_x2 x; ot_dis := ot_dis x; ot_res := ot_res x |}.
Definition xo_set_cap_x1 (v : Z) (x : clk_xo_setting) : clk_xo_setting :=
  {| hsp_i2c_en := hsp_i2c_en x; cmos_en := cmos_en x;
     dblr_dis := dblr_dis x; vdd_def := vdd_def x; vcxo_dis := vcxo_dis x;
     vcxo_bw := vcxo_bw x; vcxo_gslope := vcxo_gslope x;
     vcxo_gexp := vcxo_gexp x; vcxo_gscale := vcxo_gscale x;
     oe_pol_en := oe_pol_en x; drv_type := drv_type x; gm := gm x;
     cap_x1 := v; ampslice := ampslice x; bypass := bypass x;
     cap_x2 := cap_x2 x; ot_dis := ot_dis x; ot_res := ot_res x |}.
Definition xo_set_ampslice (v : Z) (x : clk_xo_setting) : clk_xo_setting :=
  {| hsp_i2c_en := hsp_i2c_en x; cmos_en := cmos_en x;
     dblr_dis := dblr_dis x; vdd_def := vdd_def x; vcxo_dis := vcxo_dis x;
     vcxo_bw := vcxo_bw x; vcxo_gslope := vcxo_gslope x;
     vcxo_gexp := vcxo_gexp x; vcxo_gscale := vcxo_gscale x;
     oe_pol_en := oe_pol_en x; drv_type := drv_type x; gm := gm x;
     cap_x1 := cap_x1 x; ampslice := v; bypass := bypass x;
     cap_x2 := cap_x2 x; ot_dis := ot_dis x; ot_res := ot_res x |}.
Definition xo_set_bypass (v : bool) (x : clk_xo_setting) : clk_xo_setting :=
  {| hsp_i2c_en := hsp_i2c_en x; cmos_en := cmos_en x;
     dblr_dis := dblr_dis x; vdd_def := vdd_def x; vcxo_dis := vcxo_dis x;
     vcxo_bw := vcxo_bw x; vcxo_gslope := vcxo_gslope x;
     vcxo_gexp := vcxo_gexp x; vcxo_gscale := vcxo_gscale x;
     oe_pol_en := oe_pol_en x; drv_type := drv_type x; gm := gm x;
     cap_x1 := cap_x1 x; ampslice := ampslice x; bypass := v;
     cap_x2 := cap_x2 x; ot_dis := ot_dis x; ot_res := ot_res x |}.
Definition xo_set_cap_x2 (v : Z) (x : clk_xo_setting) : clk_xo_setting :=
  {| hsp_i2c_en := hsp_i2c_en x; cmos_en := cmos_en x;
     dblr_dis := dblr_dis x; vdd_def := vdd_def x; vcxo_dis := vcxo_dis x;
     vcxo_bw := vcxo_bw x; vcxo_gslope := vcxo_gslope x;
     vcxo_gexp := vcxo_gexp x; vcxo_gscale := vcxo_gscale x;
     oe_pol_en := oe_pol_en x; drv_type := drv_type x; gm := gm x;
     cap_x1 := cap_x1 x; ampslice := ampslice x; bypass := bypass x;
     cap_x2 := v; ot_dis := ot_dis x; ot_res := ot_res x |}.
Definition xo_set_ot_dis (v : bool) (x : clk_xo_setting) : clk_xo_setting :=
  {| hsp_i2c_en := hsp_i2c_en x; cmos_en := cmos_en x;
     dblr_dis := dblr_dis x; vdd_def := vdd_def x; vcxo_dis := vcxo_dis x;
     vcxo_bw := vcxo_bw x; vcxo_gslope := vcxo_gslope x;
     vcxo_gexp := vcxo_gexp x; vcxo_gscale := vcxo_gscale x;
     oe_pol_en := oe_pol_en x; drv_type := drv_type x; gm := gm x;
     cap_x1 := cap_x1 x; ampslice := ampslice x; bypass := bypass x;
     cap_x2 := cap_x2 x; ot_dis := v; ot_res := ot_res x |}.
Definition xo_set_ot_res (v : Z) (x : clk_xo_setting) : clk_xo_setting :=
  {| hsp_i2c_en := hsp_i2c_en x; cmos_en := cmos_en x;
     dblr_dis := dblr_dis x; vdd_def := vdd_def x; vcxo_dis := vcxo_dis x;
     vcxo_bw := vcxo_bw x; vcxo_gslope := vcxo_gslope x;
     vcxo_gexp := vcxo_gexp x; vcxo_gscale := vcxo_gscale x;
     oe_pol_en := oe_pol_en x; drv_type := drv_type x; gm := gm x;
     cap_x1 := cap_x1 x; ampslice := ampslice x; bypass := bypass x;
     cap_x2 := cap_x2 x; ot_dis := ot_dis x; ot_res := v |}.

Definition set_has_settings (v : bool) (d : clk_idtxp) : clk_idtxp :=
  {| has_settings := v; settings := settings d; min_freq := min_freq d;
     max_freq := max_freq d; xo := xo d; fxtal := fxtal d; fvco := fvco d;
     divo := divo d; divnint := divnint d; divnfrac := divnfrac d;
     req_freq := req_freq d; act_freq := act_freq d;
     icp_offst_en := icp_offst_en d; icp_value := icp_value d;
     pll_mode := pll_mode d; divo_8 := divo_8 d;
     divnint_8_7 := divnint_8_7 d; divnfrac_15_8 := divnfrac_15_8 d;
     divnfrac_23_16 := divnfrac_23_16 d |}.
Definition set_settings (v : list Z) (d : clk_idtxp) : clk_idtxp :=
  {| has_settings := has_settings d; settings := v;
     min_freq := min_freq d; max_freq := max_freq d; xo := xo d;
     fxtal := fxtal d; fvco := fvco d; divo := divo d;
     divnint := divnint d; divnfrac := divnfrac d; req_freq := req_freq d;
     act_freq := act_freq d; icp_offst_en := icp_offst_en d;
     icp_value := icp_value d; pll_mode := pll_mode d; divo_8 := divo_8 d;
     divnint_8_7 := divnint_8_7 d; divnfrac_15_8 := divnfrac_15_8 d;
     divnfrac_23_16 := divnfrac_23_16 d |}.
Definition set_min_freq (v : Z) (d : clk_idtxp) : clk_idtxp :=
  {| has_settings := has_settings d; settings := settings d;
     min_freq := v; max_freq := max_freq d; xo := xo d; fxtal := fxtal d;
     fvco := fvco d; divo := divo d; divnint := divnint d;
     divnfrac := divnfrac d; req_freq := req_freq d;
     act_freq := act_freq d; icp_offst_en := icp_offst_en d;
     icp_value := icp_value d; pll_mode := pll_mode d; divo_8 := divo_8 d;
     divnint_8_7 := divnint_8_7 d; divnfrac_15_8 := divnfrac_15_8 d;
     divnfrac_23_16 := divnfrac_23_16 d |}.
Definition set_max_freq (v : Z) (d : clk_idtxp) : clk_idtxp :=
  {| has_settings := has_settings d; settings := settings d;
     min_freq := min_freq d; max_freq := v; xo := xo d; fxtal := fxtal d;
     fvco := fvco d; divo := divo d; divnint := divnint d;
     divnfrac := divnfrac d; req_freq := req_freq d;
     act_freq := act_freq d; icp_offst_en := icp_offst_en d;
     icp_value := icp_value d; pll_mode := pll_mode d; divo_8 := divo_8 d;
     divnint_8_7 := divnint_8_7 d; divnfrac_15_8 := divnfrac_15_8 d;
     divnfrac_23_16 := divnfrac_23_16 d |}.
Definition set_xo (v : clk_xo_setting) (d : clk_idtxp) : clk_idtxp :=
  {| has_settings := has_settings d; settings := settings d;
     min_freq := min_freq d; max_freq := max_freq d; xo := v;
     fxtal := fxtal d; fvco := fvco d; divo := divo d;
     divnint := divnint d; divnfrac := divnfrac d; req_freq := req_freq d;
     act_freq := act_freq d; icp_offst_en := icp_offst_en d;
     icp_value := icp_value d; pll_mode := pll_mode d; divo_8 := divo_8 d;
     divnint_8_7 := divnint_8_7 d; divnfrac_15_8 := divnfrac_15_8 d;
     divnfrac_23_16 := divnfrac_23_16 d |}.
Definition set_fxtal (v : Z) (d : clk_idtxp) : clk_idtxp :=
  {| has_settings := has_settings d; settings := settings d;
     min_freq := min_freq d; max_freq := max_freq d; xo := xo d;
     fxtal := v; fvco := fvco d; divo := divo d; divnint := divnint d;
     divnfrac := divnfrac d; req_freq := req_freq d;
     act_freq := act_freq d; icp_offst_en := icp_offst_en d;
     icp_value := icp_value d; pll_mode := pll_mode d; divo_8 := divo_8 d;
     divnint_8_7 := divnint_8_7 d; divnfrac_15_8 := divnfrac_15_8 d;
     divnfrac_23_16 := divnfrac_23_16 d |}.
Definition set_fvco (v : Z) (d : clk_idtxp) : clk_idtxp :=
  {| has_settings := has_settings d; settings := settings d;
     min_freq := min_freq d; max_freq := max_freq d; xo := xo d;
     fxtal := fxtal d; fvco := v; divo := divo d; divnint := divnint d;
     divnfrac := divnfrac d; req_freq := req_freq d;
     act_freq := act_freq d; icp_offst_en := icp_offst_en d;
     icp_value := icp_value d; pll_mode := pll_mode d; divo_8 := divo_8 d;
     divnint_8_7 := divnint_8_7 d; divnfrac_15_8 := divnfrac_15_8 d;
     divnfrac_23_16 := divnfrac_23_16 d |}.
Definition set_divo (v : Z) (d : clk_idtxp) : clk_idtxp :=
  {| has_settings := has_settings d; settings := settings d;
     min_freq := min_freq d; max_freq := max_freq d; xo := xo d;
     fxtal := fxtal d; fvco := fvco d; divo := v; divnint := divnint d;
     divnfrac := divnfrac d; req_freq := req_freq d;
     act_freq := act_freq d; icp_offst_en := icp_offst_en d;
     icp_value := icp_value d; pll_mode := pll_mode d; divo_8 := divo_8 d;
     divnint_8_7 := divnint_8_7 d; divnfrac_15_8 := divnfrac_15_8 d;
     divnfrac_23_16 := divnfrac_23_16 d |}.
Definition set_divnint (v : Z) (d : clk_idtxp) : clk_idtxp :=
  {| has_settings := has_settings d; settings := settings d;
     min_freq := min_freq d; max_freq := max_freq d; xo := xo d;
     fxtal := fxtal d; fvco := fvco d; divo := divo d; divnint := v;
     divnfrac := divnfrac d; req_freq := req_freq d;
     act_freq := act_freq d; icp_offst_en := icp_offst_en d;
     icp_value := icp_value d; pll_mode := pll_mode d; divo_8 := divo_8 d;
     divnint_8_7 := divnint_8_7 d; divnfrac_15_8 := divnfrac_15_8 d;
     divnfrac_23_16 := divnfrac_23_16 d |}.
Definition set_divnfrac (v : Z) (d : clk_idtxp) : clk_idtxp :=
  {| has_settings := has_settings d; settings := settings d;
     min_freq := min_freq d; max_freq := max_freq d; xo := xo d;
     fxtal := fxtal d; fvco := fvco d; divo := divo d;
     divnint := divnint d; divnfrac := v; req_freq := req_freq d;
     act_freq := act_freq d; icp_offst_en := icp_offst_en d;
     icp_value := icp_value d; pll_mode := pll_mode d; divo_8 := divo_8 d;
     divnint_8_7 := divnint_8_7 d; divnfrac_15_8 := divnfrac_15_8 d;
     divnfrac_23_16 := divnfrac_23_16 d |}.
Definition set_req_freq (v : Z) (d : clk_idtxp) : clk_idtxp :=
  {| has_settings := has_settings d; settings := settings d;
     min_freq := min_freq d; max_freq := max_freq d; xo := xo d;
     fxtal := fxtal d; fvco := fvco d; divo := divo d;
     divnint := divnint d; divnfrac := divnfrac d; req_freq := v;
     act_freq := act_freq d; icp_offst_en := icp_offst_en d;
     icp_value := icp_value d; pll_mode := pll_mode d; divo_8 := divo_8 d;
     divnint_8_7 := divnint_8_7 d; divnfrac_15_8 := divnfrac_15_8 d;
     divnfrac_23_16 := divnfrac_23_16 d |}.
Definition set_act_freq (v : Z) (d : clk_idtxp) : clk_idtxp :=
  {| has_settings := has_settings d; settings := settings d;
     min_freq := min_freq d; max_freq := max_freq d; xo := xo d;
     fxtal := fxtal d; fvco := fvco d; divo := divo d;
     divnint := divnint d; divnfrac := divnfrac d; req_freq := req_freq d;
     act_freq := v; icp_offst_en := icp_offst_en d;
     icp_value := icp_value d; pll_mode := pll_mode d; divo_8 := divo_8 d;
     divnint_8_7 := divnint_8_7 d; divnfrac_15_8 := divnfrac_15_8 d;
     divnfrac_23_16 := divnfrac_23_16 d |}.
Definition set_icp_offst_en (v : bool) (d : clk_idtxp) : clk_idtxp :=
  {| has_settings := has_settings d; settings := settings d;
     min_freq := min_freq d; max_freq := max_freq d; xo := xo d;
     fxtal := fxtal d; fvco := fvco d; divo := divo d;
     divnint := divnint d; divnfrac := divnfrac d; req_freq := req_freq d;
     act_freq := act_freq d; icp_offst_en := v; icp_value := icp_value d;
     pll_mode := pll_mode d; divo_8 := divo_8 d;
     divnint_8_7 := divnint_8_7 d; divnfrac_15_8 := divnfrac_15_8 d;
     divnfrac_23_16 := divnfrac_23_16 d |}.
Definition set_icp_value (v : Z) (d : clk_idtxp) : clk_idtxp :=
  {| has_settings := has_settings d; settings := settings d;
     min_freq := min_freq d; max_freq := max_freq d; xo := xo d;
     fxtal := fxtal d; fvco := fvco d; divo := divo d;
     divnint := divnint d; divnfrac := divnfrac d; req_freq := req_freq d;
     act_freq := act_freq d; icp_offst_en := icp_offst_en d;
     icp_value := v; pll_mode := pll_mode d; divo_8 := divo_8 d;
     divnint_8_7 := divnint_8_7 d; divnfrac_15_8 := divnfrac_15_8 d;
     divnfrac_23_16 := divnfrac_23_16 d |}.
Definition set_pll_mode (v : bool) (d : clk_idtxp) : clk_idtxp :=
  {| has_settings := has_settings d; settings := settings d;
     min_freq := min_freq d; max_freq := max_freq d; xo := xo d;
     fxtal := fxtal d; fvco := fvco d; divo := divo d;
     divnint := divnint d; divnfrac := divnfrac d; req_freq := req_freq d;
     act_freq := act_freq d; icp_offst_en := icp_offst_en d;
     icp_value := icp_value d; pll_mode := v; divo_8 := divo_8 d;
     divnint_8_7 := divnint_8_7 d; divnfrac_15_8 := divnfrac_15_8 d;
     divnfrac_23_16 := divnfrac_23_16 d |}.
Definition set_divo_8 (v : Z) (d : clk_idtxp) : clk_idtxp :=
  {| has_settings := has_settings d; settings := settings d;
     min_freq := min_freq d; max_freq := max_freq d; xo := xo d;
     fxtal := fxtal d; fvco := fvco d; divo := divo d;
     divnint := divnint d; divnfrac := divnfrac d; req_freq := req_freq d;
     act_freq := act_freq d; icp_offst_en := icp_offst_en d;
     icp_value := icp_value d; pll_mode := pll_mode d; divo_8 := v;
     divnint_8_7 := divnint_8_7 d; divnfrac_15_8 := divnfrac_15_8 d;
     divnfrac_23_16 := divnfrac_23_16 d |}.
Definition set_divnint_8_7 (v : Z) (d : clk_idtxp) : clk_idtxp :=
  {| has_settings := has_settings d; settings := settings d;
     min_freq := min_freq d; max_freq := max_freq d; xo := xo d;
     fxtal := fxtal d; fvco := fvco d; divo := divo d;
     divnint := divnint d; divnfrac := divnfrac d; req_freq := req_freq d;
     act_freq := act_freq d; icp_offst_en := icp_offst_en d;
     icp_value := icp_value d; pll_mode := pll_mode d; divo_8 := divo_8 d;
     divnint_8_7 := v; divnfrac_15_8 := divnfrac_15_8 d;
     divnfrac_23_16 := divnfrac_23_16 d |}.
Definition set_divnfrac_15_8 (v : Z) (d : clk_idtxp) : clk_idtxp :=
  {| has_settings := has_settings d; settings := settings d;
     min_freq := min_freq d; max_freq := max_freq d; xo := xo d;
     fxtal := fxtal d; fvco := fvco d; divo := divo d;
     divnint := divnint d; divnfrac := divnfrac d; req_freq := req_freq d;
     act_freq := act_freq d; icp_offst_en := icp_offst_en d;
     icp_value := icp_value d; pll_mode := pll_mode d; divo_8 := divo_8 d;
     divnint_8_7 := divnint_8_7 d; divnfrac_15_8 := v;
     divnfrac_23_16 := divnfrac_23_16 d |}.
Definition set_divnfrac_23_16 (v : Z) (d : clk_idtxp) : clk_idtxp :=
  {| has_settings := has_settings d; settings := settings d;
     min_freq := min_freq d; max_freq := max_freq d; xo := xo d;
     fxtal := fxtal d; fvco := fvco d; divo := divo d;
     divnint := divnint d; divnfrac := divnfrac d; req_freq := req_freq d;
     act_freq := act_freq d; icp_offst_en := icp_offst_en d;
     icp_value := icp_value d; pll_mode := pll_mode d; divo_8 := divo_8 d;
     divnint_8_7 := divnint_8_7 d; divnfrac_15_8 := divnfrac_15_8 d;
     divnfrac_23_16 := v |}.

(** ** Pure computations *)

(** update_divis_regs(): the four sub-byte fields used by the register
    writer.  The second assignment reads [data->divo] under the mask
    [0x2 << 7], as the source does. *)
Definition update_divis_regs (data : clk_idtxp) : clk_idtxp :=
  let data :=
    set_divo_8 (u8 (Z.shiftr (Z.land (divo data) (Z.shiftl 0x1 8)) 8)) data in
  let data :=
    set_divnint_8_7
      (u8 (Z.shiftr (Z.land (divo data) (Z.shiftl 0x2 7)) 7)) data in
  let data :=
    set_divnfrac_15_8
      (u8 (Z.shiftr (Z.land (divnfrac data) (Z.shiftl 0xFF 8)) 8)) data in
  let data :=
    set_divnfrac_23_16
      (u8 (Z.shiftr (Z.land (divnfrac data) (Z.shiftl 0xFF 16)) 16)) data in
  data.

(** How one pass through the body of the [while] loop of
    idtxp_calc_divs() ends. *)
Inductive loop_exit : Type :=
  | Continue   (* falls to the loop test again: [continue] or end of body *)
  | Break.     (* leaves the loop *)

(** The variables the loop works on: the structure and the locals [rem]
    and [is_int]. *)
Record divs_vars : Type := {
  dv_data : clk_idtxp;
  dv_rem : Z;
  dv_is_int : bool
}.

(** [pfd = data->fxtal * (data->xo.dblr_dis ? 1 : 2)] in [u32]. *)
Definition calc_pfd (data : clk_idtxp) : Z :=
  u32 (fxtal data * (if dblr_dis (xo data) then 1 else 2)).

(** [1 + div_u64(FVCO_MIN, data->req_freq)] stored into the [u16] divo. *)
Definition initial_divo (data : clk_idtxp) : Z :=
  u16 (u64 (1 + FVCO_MIN / req_freq data)).

Definition calc_divs_body (pfd : Z) (st : divs_vars) : loop_exit * divs_vars :=
  let data := dv_data st in
  let data := set_fvco (u64 (req_freq data * divo data)) data in
  if FVCO_MAX <? fvco data then
    (Break, {| dv_data := data; dv_rem := dv_rem st;
               dv_is_int := dv_is_int st |})
  else
    let data := set_divnint (u16 (fvco data / pfd)) data in
    let rem := fvco data mod pfd in
    if divnint data <? DIVN_MIN then
      (* [continue]: data->divo is left as it is *)
      (Continue, {| dv_data := data; dv_rem := rem;
                    dv_is_int := dv_is_int st |})
    else if DIVN_MAX <? divnint data then
      (Break, {| dv_data := data; dv_rem := rem;
                 dv_is_int := dv_is_int st |})
    else if rem =? 0 then
      (Break, {| dv_data := data; dv_rem := rem; dv_is_int := true |})
    else
      (Continue, {| dv_data := set_divo (u16 (divo data + 1)) data;
                    dv_rem := rem; dv_is_int := dv_is_int st |}).

(** [while (data->divo < DIVO_MAX) { ... }].  The loop of the source has
    no bound of its own; [None] means that [fuel] passes did not reach
    its exit. *)
Fixpoint calc_divs_loop (fuel : nat) (pfd : Z) (st : divs_vars)
  : option divs_vars :=
  match fuel with
  | O => None
  | S fuel' =>
      if divo (dv_data st) <? DIVO_MAX then
        match calc_divs_body pfd st with
        | (Break, st') => Some st'
        | (Continue, st') => calc_divs_loop fuel' pfd st'
        end
      else Some st
  end.

(** The state in which the loop is entered ([rem] is not initialised by
    the source and is not read before its first assignment). *)
Definition calc_divs_enter (data : clk_idtxp) : divs_vars :=
  let data := set_divnfrac 0 data in
  {| dv_data := set_divo (initial_divo data) data;
     dv_rem := 0; dv_is_int := false |}.

(** The [if (!is_int)] block: fractional mode at the initial divider. *)
Definition calc_divs_frac (pfd : Z) (data : clk_idtxp) : clk_idtxp :=
  let data := set_divo (initial_divo data) data in
  let data := set_fvco (u64 (req_freq data * divo data)) data in
  let data := set_divnint (u16 (fvco data / pfd)) data in
  let rem := fvco data mod pfd in
  let data := set_divnfrac (u32 (u64 (Z.shiftl rem 24) / pfd)) data in
  let rem := u64 (Z.shiftl rem 24) mod pfd in
  let data :=
    if 5 <=? u64 (rem * 10) / pfd
    then set_divnfrac (u32 (divnfrac data + 1)) data else data in
  let data :=
    if 5 <=? Z.shiftr (u32 (divnfrac data * 10)) 24
    then set_divnint (u16 (divnint data + 1)) data else data in
  data.

(** idtxp_calc_divs(): the return code (always 0) and the updated
    structure, when the search loop exits within [fuel] passes. *)
Definition idtxp_calc_divs (fuel : nat) (data : clk_idtxp)
  : option (Z * clk_idtxp) :=
  let pfd := calc_pfd data in
  match calc_divs_loop fuel pfd (calc_divs_enter data) with
  | None => None
  | Some st =>
      let data := dv_data st in
      let data := if dv_is_int st then data else calc_divs_frac pfd data in
      Some (0, update_divis_regs data)
  end.

(** idtxp_calc_charge_pump(). *)
Definition idtxp_calc_charge_pump (data : clk_idtxp) : Z * clk_idtxp :=
  let data :=
    if fvco data <? 7000000000 then set_icp_value 5 data
    else if (7000000000 <=? fvco data) && (fvco data <? 7400000000)
    then set_icp_value 4 data
    else if (7400000000 <=? fvco data) && (fvco data <? 7800000000)
    then set_icp_value 3 data
    else set_icp_value 2 data in
  (0, data).

(** The seven assignments of one branch of idtxp_calc_xo_settings(). *)
Definition xo_trim (dblr : bool) (g c1 amp c2 : Z) (otd : bool) (otr : Z)
  (x : clk_xo_setting) : clk_xo_setting :=
  xo_set_ot_res otr (xo_set_ot_dis otd (xo_set_cap_x2 c2
    (xo_set_ampslice amp (xo_set_cap_x1 c1 (xo_set_gm g
      (xo_set_dblr_dis dblr x)))))).

(** idtxp_calc_xo_settings(). *)
Definition idtxp_calc_xo_settings (data : clk_idtxp) : Z * clk_idtxp :=
  if (40000000 <=? fxtal data) && (fxtal data <=? 80000000) then
    (0, set_xo (xo_trim false 0x2 0x3C 0x1 0x2 true 0x0 (xo data)) data)
  else if (100000000 <=? fxtal data) && (fxtal data <? 140000000) then
    (0, set_xo (xo_trim true 0x2 0x15 0x0C 0x5 false 0x5 (xo data)) data)
  else if (140000000 <=? fxtal data) && (fxtal data <=? 166000000) then
    (0, set_xo (xo_trim true 0x3 0x15 0x0C 0x5 false 0x3 (xo data)) data)
  else
    (- EINVAL, data).

(** A reference frequency inside one of the three XO-trim bands. *)
Definition supported_fxtal (f : Z) : Prop :=
  40000000 <= f <= 80000000 \/ 100000000 <= f < 140000000 \/
  140000000 <= f <= 166000000.

(** ** The register port

    The regmap of the driver is an external collaborator.  It is
    represented by the register file of the chip, a schedule telling for
    each coming bus transaction whether it fails, the bytes a read buffer
    on the stack happens to hold when a failed read leaves it unwritten,
    and the log of the writes that reached the chip. *)

Record regmap : Type := {
  regs : Z -> Z;
  faults : list bool;
  stale : list Z;
  wlog : list (Z * Z)
}.

(** The driver instance and its surroundings: the structure, the
    register port and whether a clock provider is registered for it. *)
Record world : Type := {
  w_data : clk_idtxp;
  w_port : regmap;
  w_provider : bool
}.

(** Computations of the driver: a state transformer on [world] that may
    fail to return ([None]), which only the divider search can cause. *)
Definition M (A : Type) : Type := world -> option (A * world).

Definition ret {A : Type} (a : A) : M A := fun w => Some (a, w).

Definition bind {A B : Type} (m : M A) (k : A -> M B) : M B :=
  fun w => match m w with
           | None => None
           | Some (a, w') => k a w'
           end.

Declare Scope drv_scope.
Delimit Scope drv_scope with drv.

Notation "x <- m ;; k" := (bind m (fun x => k))
  (at level 61, m at next level, right associativity) : drv_scope.
Notation "m ;; k" := (bind m (fun _ => k))
  (at level 61, right associativity) : drv_scope.

(** [err = m; if (err) return err; k] *)
Notation "'check' m ;; k" :=
  (bind m (fun err => if err =? 0 then k else ret err))
  (at level 61, m at next level, right associativity) : drv_scope.

Local Open Scope drv_scope.

Definition get_data : M clk_idtxp := fun w => Some (w_data w, w).

Definition modify_data (f : clk_idtxp -> clk_idtxp) : M unit :=
  fun w => Some (tt, {| w_data := f (w_data w); w_port := w_port w;
                        w_provider := w_provider w |}).

Definition set_provider (b : bool) : M unit :=
  fun w => Some (tt, {| w_data := w_data w; w_port := w_port w;
                        w_provider := b |}).

(** A pure function returning a code and the updated structure. *)
Definition lift_data (f : clk_idtxp -> Z * clk_idtxp) : M Z :=
  fun w => let '(err, d) := f (w_data w) in
           Some (err, {| w_data := d; w_port := w_port w;
                         w_provider := w_provider w |}).

(** One transaction on the port: [ok] when it succeeds, [ko] when the
    schedule makes it fail. *)
Definition transact {A : Type} (ok ko : regmap -> A * regmap) : M A :=
  fun w =>
    let p := w_port w in
    let '(failed, rest) :=
      match faults p with
      | [] => (false, [])
      | f :: fs => (f, fs)
      end in
    let p := {| regs := regs p; faults := rest; stale := stale p;
                wlog := wlog p |} in
    let '(a, p') := if failed then ko p else ok p in
    Some (a, {| w_data := w_data w; w_port := p';
                w_provider := w_provider w |}).

Definition poke (reg val : Z) (p : regmap) : regmap :=
  {| regs := fun r => if r =? reg then val else regs p r;
     faults := faults p; stale := stale p;
     wlog := wlog p ++ [(reg, val)] |}.

Definition regmap_write (reg val : Z) : M Z :=
  transact (fun p => (0, poke reg val p)) (fun p => (- EIO, p)).

(** [struct reg_sequence] entries are pairs (reg, def). *)
Definition regmap_multi_reg_write (seq : list (Z * Z)) : M Z :=
  transact
    (fun p => (0, fold_left (fun q e => poke (fst e) (snd e) q) seq p))
    (fun p => (- EIO, p)).

(** The addresses [reg], [reg+1], ..., [reg+n-1]. *)
Definition reg_range (reg : Z) (n : nat) : list Z :=
  map (fun i => reg + Z.of_nat i) (seq 0 n).

(** regmap_bulk_read(): the code and the content of the buffer after
    the call. *)
Definition regmap_bulk_read (reg : Z) (n : nat) : M (Z * list Z) :=
  transact
    (fun p => ((0, map (regs p) (reg_range reg n)), p))
    (fun p => ((- EIO, firstn n (stale p ++ repeat 0 n)), p)).

(** [reg[i]] and the update of [reg[i]] through set_to_reg(). *)
Definition byte_at (buf : list Z) (i : nat) : Z := nth i buf 0.

Fixpoint set_byte_at (i : nat) (v : Z) (buf : list Z) : list Z :=
  match buf, i with
  | [], _ => []
  | _ :: t, O => v :: t
  | h :: t, S j => h :: set_byte_at j v t
  end.

Definition set_to_reg_at (i : nat) (val mask : Z) (buf : list Z) : list Z :=
  set_byte_at i (set_to_reg (byte_at buf i) val mask) buf.

(** [reg_seq[i].reg = base + i; reg_seq[i].def = reg[i]] *)
Definition reg_sequence (base : Z) (buf : list Z) : list (Z * Z) :=
  combine (reg_range base (length buf)) buf.

(** ** Reading the registers back *)

(** The assignments of idtxp_get_divs_and_icp() after a successful
    read of the six bytes [reg] into the local buffer. *)
Definition unpack_divs (reg : list Z) (data : clk_idtxp) : clk_idtxp :=
  let data :=
    set_divo (store_low_byte (divo data)
                (get_from_reg (byte_at reg 0) 0xFF)) data in
  let data :=
    set_divo_8 (get_from_reg (byte_at reg 1) IDTXP_DIVO_8_MASK) data in
  let data :=
    set_divnint (store_low_byte (divnint data)
                   (get_from_reg (byte_at reg 1) IDTXP_DIVN_INT_6_0_MASK))
      data in
  let data :=
    set_icp_offst_en
      (to_bool (get_from_reg (byte_at reg 2) IDTXP_ICP_OFFSET_EN_MASK))
      data in
  let data :=
    set_divnint_8_7 (get_from_reg (byte_at reg 2) IDTXP_DIVN_INT_8_7_MASK)
      data in
  let data :=
    set_icp_value (get_from_reg (byte_at reg 2) IDTXP_ICP_VALUE_MASK) data in
  let data :=
    set_pll_mode (to_bool (get_from_reg (byte_at reg 2) IDTXP_PLL_MODE_MASK))
      data in
  let data :=
    set_divnfrac (store_low_byte (divnfrac data)
                    (get_from_reg (byte_at reg 3) 0xFF)) data in
  let data := set_divnfrac_15_8 (get_from_reg (byte_at reg 4) 0xFF) data in
  let data := set_divnfrac_23_16 (get_from_reg (byte_at reg 5) 0xFF) data in
  (* data->divo |= (data->divo_8 << 8) *)
  let data :=
    set_divo (u16 (Z.lor (divo data) (Z.shiftl (divo_8 data) 8))) data in
  (* data->divnint |= (data->divnint_8_7) *)
  let data := set_divnint (u16 (Z.lor (divnint data) (divnint_8_7 data))) data in
  let data :=
    set_divnfrac
      (u32 (Z.lor (divnfrac data)
              (Z.lor (Z.shiftl (divnfrac_15_8 data) 8)
                     (Z.shiftl (divnfrac_23_16 data) 16)))) data in
  data.

Definition idtxp_get_divs_and_icp : M Z :=
  r <- regmap_bulk_read IDTXP_REG_DIVO_7_0 6 ;;
  if fst r =? 0 then modify_data (unpack_divs (snd r)) ;; ret 0
  else ret (fst r).

(** The assignments of idtxp_get_xo_settings() ([vcxo_bw] is taken from
    [reg[1]] as in the source). *)
Definition unpack_xo (reg : list Z) (x : clk_xo_setting) : clk_xo_setting :=
  let g i m := get_from_reg (byte_at reg i) m in
  let x := xo_set_hsp_i2c_en (to_bool (g 0%nat IDTXP_HSPI2C_EN)) x in
  let x := xo_set_cmos_en (to_bool (g 0%nat IDTXP_CMOS_EN)) x in
  let x := xo_set_dblr_dis (to_bool (g 1%nat IDTXP_DBLR_DIS_MASK)) x in
  let x := xo_set_vdd_def (g 1%nat IDTXP_VDD_DEF_MASK) x in
  let x := xo_set_vcxo_bw (g 1%nat IDTXP_VCXO_BW_MASK) x in
  let x := xo_set_vcxo_gslope (to_bool (g 2%nat IDTXP_GSLOPE_MASK)) x in
  let x := xo_set_vcxo_gexp (g 2%nat IDTXP_GEXP_MASK) x in
  let x := xo_set_vcxo_gscale (g 2%nat IDTXP_GSCALE_MASK) x in
  let x := xo_set_oe_pol_en (to_bool (g 3%nat IDTXP_OE_POL_EN)) x in
  let x := xo_set_drv_type (g 3%nat IDTXP_DRV_TYPE) x in
  let x := xo_set_gm (g 5%nat IDTXP_OT_GM_MASK) x in
  let x := xo_set_cap_x1 (g 5%nat IDTXP_XO_CAP_MASK) x in
  let x := xo_set_ampslice (g 6%nat IDTXP_XO_AMPSLICE_MASK) x in
  let x := xo_set_bypass (to_bool (g 6%nat IDTXP_BYPASS_MASK)) x in
  let x := xo_set_cap_x2 (g 6%nat IDTXP_CAP_X2_MASK) x in
  let x := xo_set_ot_dis (to_bool (g 7%nat IDTXP_OT_DIS_MASK)) x in
  let x := xo_set_ot_res (g 7%nat IDTXP_OT_RES_MASK) x in
  x.

Definition idtxp_get_xo_settings : M Z :=
  r <- regmap_bulk_read IDTXP_REG_HSPI2C_CMOS 8 ;;
  if fst r =? 0 then
    modify_data (fun d => set_xo (unpack_xo (snd r) (xo d)) d) ;; ret 0
  else ret (fst r).

Definition idtxp_get_defaults : M Z :=
  check idtxp_get_divs_and_icp ;;
  check idtxp_get_xo_settings ;;
  ret 0.

(** ** Writing the registers *)

(** idtxp_setup(): the five writes to the control register. *)
Definition idtxp_setup : M Z :=
  check regmap_write IDTXP_REG_CONTROL 0x00 ;;
  check regmap_write IDTXP_REG_CONTROL 0x20 ;;
  check regmap_write IDTXP_REG_CONTROL 0x00 ;;
  check regmap_write IDTXP_REG_CONTROL 0x01 ;;
  check regmap_write IDTXP_REG_CONTROL 0x00 ;;
  ret 0.

(** The ten set_to_reg() calls of idtxp_write_divs_settings() on the
    buffer [reg]. *)
Definition pack_divs (data : clk_idtxp) (reg : list Z) : list Z :=
  let reg := set_to_reg_at 0 (u8 (divo data)) 0xFF reg in
  let reg := set_to_reg_at 1 (divo_8 data) IDTXP_DIVO_8_MASK reg in
  let reg := set_to_reg_at 1 (u8 (divnint data)) IDTXP_DIVN_INT_6_0_MASK reg in
  let reg :=
    set_to_reg_at 2 (of_bool (icp_offst_en data)) IDTXP_ICP_OFFSET_EN_MASK
      reg in
  let reg := set_to_reg_at 2 (divnint_8_7 data) IDTXP_DIVN_INT_8_7_MASK reg in
  let reg := set_to_reg_at 2 (icp_value data) IDTXP_ICP_VALUE_MASK reg in
  let reg := set_to_reg_at 2 (of_bool (pll_mode data)) IDTXP_PLL_MODE_MASK reg in
  let reg := set_to_reg_at 3 (u8 (divnfrac data)) 0xFF reg in
  let reg := set_to_reg_at 4 (divnfrac_15_8 data) 0xFF reg in
  let reg := set_to_reg_at 5 (divnfrac_23_16 data) 0xFF reg in
  reg.

(** idtxp_write_divs_settings().  The code of the bulk read is stored in
    [err] and overwritten by the batch write without being tested. *)
Definition idtxp_write_divs_settings : M Z :=
  r <- regmap_bulk_read IDTXP_REG_DIVO_7_0 6 ;;
  modify_data update_divis_regs ;;
  data <- get_data ;;
  let reg := pack_divs data (snd r) in
  check regmap_multi_reg_write (reg_sequence IDTXP_REG_DIVO_7_0 reg) ;;
  ret 0.

Definition pack_xo (x : clk_xo_setting) (reg : list Z) : list Z :=
  let reg := set_to_reg_at 0 (of_bool (hsp_i2c_en x)) IDTXP_HSPI2C_EN reg in
  let reg := set_to_reg_at 0 (of_bool (cmos_en x)) IDTXP_CMOS_EN reg in
  let reg := set_to_reg_at 1 (of_bool (dblr_dis x)) IDTXP_DBLR_DIS_MASK reg in
  let reg := set_to_reg_at 1 (vdd_def x) IDTXP_VDD_DEF_MASK reg in
  let reg := set_to_reg_at 1 (vcxo_bw x) IDTXP_VCXO_BW_MASK reg in
  let reg := set_to_reg_at 2 (of_bool (vcxo_gslope x)) IDTXP_GSLOPE_MASK reg in
  let reg := set_to_reg_at 2 (vcxo_gexp x) IDTXP_GEXP_MASK reg in
  let reg := set_to_reg_at 2 (vcxo_gscale x) IDTXP_GSCALE_MASK reg in
  let reg := set_to_reg_at 3 (of_bool (oe_pol_en x)) IDTXP_OE_POL_EN reg in
  let reg := set_to_reg_at 3 (drv_type x) IDTXP_DRV_TYPE reg in
  let reg := set_to_reg_at 5 (gm x) IDTXP_OT_GM_MASK reg in
  let reg := set_to_reg_at 5 (cap_x1 x) IDTXP_XO_CAP_MASK reg in
  let reg := set_to_reg_at 6 (ampslice x) IDTXP_XO_AMPSLICE_MASK reg in
  let reg := set_to_reg_at 6 (of_bool (bypass x)) IDTXP_BYPASS_MASK reg in
  let reg := set_to_reg_at 6 (cap_x2 x) IDTXP_CAP_X2_MASK reg in
  let reg := set_to_reg_at 7 (of_bool (ot_dis x)) IDTXP_OT_DIS_MASK reg in
  let reg := set_to_reg_at 7 (ot_res x) IDTXP_OT_RES_MASK reg in
  reg.

Definition idtxp_write_xo_settings : M Z :=
  r <- regmap_bulk_read IDTXP_REG_HSPI2C_CMOS 8 ;;
  data <- get_data ;;
  let reg := pack_xo (xo data) (snd r) in
  check regmap_multi_reg_write (reg_sequence IDTXP_REG_HSPI2C_CMOS reg) ;;
  ret 0.

Definition idtxp_write_all_settings : M Z :=
  data <- get_data ;;
  regmap_multi_reg_write
    (map (fun i => (Z.of_nat i, nth i (settings data) 0)) (seq 0 256)).

(** ** Clock operations *)

(** idtxp_recalc_rate(). *)
Definition idtxp_recalc_rate (output : clk_idtxp) (parent_rate : Z) : Z :=
  req_freq output.

(** idtxp_round_rate(). *)
Definition idtxp_round_rate (rate : Z) : Z := rate.

(** The divider search inside the monad: no result when the loop does
    not exit within [fuel] passes. *)
Definition calc_divs_m (fuel : nat) : M Z :=
  fun w => match idtxp_calc_divs fuel (w_data w) with
           | None => None
           | Some (err, d) =>
               Some (err, {| w_data := d; w_port := w_port w;
                             w_provider := w_provider w |})
           end.

(** idtxp_large_frequency_change(): the results of the two writes to the
    trigger register are not looked at. *)
Definition idtxp_large_frequency_change (fuel : nat) (frequency : Z) : M Z :=
  check calc_divs_m fuel ;;
  check lift_data idtxp_calc_charge_pump ;;
  check idtxp_write_divs_settings ;;
  check idtxp_setup ;;
  _ <- regmap_write IDTXP_REG_FREQ_CHG 0x01 ;;
  _ <- regmap_write IDTXP_REG_FREQ_CHG 0x00 ;;
  modify_data (fun data => set_act_freq (req_freq data) data) ;;
  ret 0.

(** idtxp_small_frequency_change(). *)
Definition idtxp_small_frequency_change (fuel : nat) (frequency : Z) : M Z :=
  check calc_divs_m fuel ;;
  check lift_data idtxp_calc_charge_pump ;;
  check idtxp_write_divs_settings ;;
  check idtxp_setup ;;
  _ <- regmap_write IDTXP_REG_FREQ_CHG 0x02 ;;
  _ <- regmap_write IDTXP_REG_FREQ_CHG 0x00 ;;
  modify_data (fun data => set_act_freq (req_freq data) data) ;;
  ret 0.

(** The kernel's [abs()] macro applied to an [unsigned long]: the
    argument is converted to [signed long] and negated when negative.
    (The macro lives in the kernel headers, not in the driver.) *)
Definition kernel_abs (x : Z) : Z :=
  let sx := s64 x in if sx <? 0 then - sx else sx.

(** The test of idtxp_set_rate():
    [div64_u64(abs(rate - data->act_freq) * 10000LL, data->act_freq) < 5]. *)
Definition is_small_change (rate act : Z) : bool :=
  u64 (kernel_abs (u64 (rate - act)) * 10000) / act <? 5.

(** idtxp_set_rate(). *)
Definition idtxp_set_rate (fuel : nat) (rate : Z) : M Z :=
  data <- get_data ;;
  if (rate <? min_freq data) || (max_freq data <? rate) then
    ret (- EINVAL)
  else
    modify_data (set_req_freq (u32 rate)) ;;
    data <- get_data ;;
    if is_small_change rate (act_freq data)
    then idtxp_small_frequency_change fuel rate
    else idtxp_large_frequency_change fuel rate.

(** ** Bring-up *)

Inductive clk_idtxp_variant : Type := idtxp_xo.

(** The structure returned by devm_kzalloc(). *)
Definition zeroed_xo : clk_xo_setting :=
  {| hsp_i2c_en := false; cmos_en := false; dblr_dis := false; vdd_def := 0;
     vcxo_dis := false; vcxo_bw := 0; vcxo_gslope := false; vcxo_gexp := 0;
     vcxo_gscale := 0; oe_pol_en := false; drv_type := 0; gm := 0;
     cap_x1 := 0; ampslice := 0; bypass := false; cap_x2 := 0;
     ot_dis := false; ot_res := 0 |}.

Definition zeroed : clk_idtxp :=
  {| has_settings := false; settings := repeat 0 256; min_freq := 0;
     max_freq := 0; xo := zeroed_xo; fxtal := 0; fvco := 0; divo := 0;
     divnint := 0; divnfrac := 0; req_freq := 0; act_freq := 0;
     icp_offst_en := false; icp_value := 0; pll_mode := false; divo_8 := 0;
     divnint_8_7 := 0; divnfrac_15_8 := 0; divnfrac_23_16 := 0 |}.

(** What the kernel services called by idtxp_probe() answer: for each
    device-tree property the code of the read and the value read, and the
    codes of the allocation, regmap and clock-registration calls. *)
Record platform : Type := {
  kzalloc_ok : bool;
  factory_fout : Z * Z;
  settings_prop : Z * list Z;
  regmap_init_err : Z;
  clk_hw_register_err : Z;
  add_hw_provider_err : Z;
  power_supply_voltage : Z * Z;
  clock_frequency : Z * Z
}.

Section Probe.

(** clk_set_rate() of the common clock framework, which reaches the
    driver through its [clk_ops]. *)
Variable clk_set_rate : Z -> M Z.

(** idtxp_probe().  The results of idtxp_calc_xo_settings() and
    idtxp_write_xo_settings() are dropped, as are those of the two
    register writes for the variant. *)
Definition idtxp_probe (pl : platform) (variant : clk_idtxp_variant)
  : M Z :=
  if negb (kzalloc_ok pl) then ret (- ENOMEM) else
  modify_data (fun _ => zeroed) ;;
  modify_data (fun data =>
    set_act_freq IDTXP_MIN_FREQ
      (set_min_freq IDTXP_MIN_FREQ (set_max_freq IDTXP_MAX_FREQ data))) ;;
  check (if fst (factory_fout pl) =? 0
         then modify_data (set_fxtal (u32 (snd (factory_fout pl)))) ;; ret 0
         else ret (fst (factory_fout pl))) ;;
  check (if fst (settings_prop pl) =? 0
         then modify_data (fun data =>
                set_has_settings true
                  (set_settings (snd (settings_prop pl)) data)) ;; ret 0
         else if fst (settings_prop pl) =? - EOVERFLOW
         then ret (fst (settings_prop pl))
         else modify_data (set_has_settings false) ;; ret 0) ;;
  check ret (regmap_init_err pl) ;;
  check idtxp_get_defaults ;;
  data <- get_data ;;
  check (if has_settings data then idtxp_write_all_settings else ret 0) ;;
  match variant with
  | idtxp_xo =>
      _ <- regmap_write IDTXP_REG_HSPI2C_CMOS 0x15 ;;
      _ <- regmap_write IDTXP_REG_VCXO 0x2A ;;
      ret tt
  end ;;
  check idtxp_get_defaults ;;
  check ret (clk_hw_register_err pl) ;;
  check (if add_hw_provider_err pl =? 0
         then set_provider true ;; ret 0
         else ret (add_hw_provider_err pl)) ;;
  (if fst (power_supply_voltage pl) =? 0
   then modify_data (fun data =>
          set_xo (xo_set_vdd_def (u8 (snd (power_supply_voltage pl)))
                    (xo data)) data)
   else ret tt) ;;
  _ <- lift_data idtxp_calc_xo_settings ;;
  _ <- idtxp_write_xo_settings ;;
  check (if fst (clock_frequency pl) =? 0
         then modify_data (set_req_freq (u32 (snd (clock_frequency pl)))) ;;
              data <- get_data ;;
              err <- clk_set_rate (req_freq data) ;;
              if err =? 0 then ret 0
              else set_provider false ;; ret err
         else ret 0) ;;
  ret 0.

End Probe.

(** ** Auxiliary definitions for the statements *)

(** All byte values, and the decidable facts about a byte mask that are
    checked over them. *)
Definition bytes : list Z := map Z.of_nat (seq 0 256).

Definition lowest_check (m : Z) : bool :=
  if m =? 0 then true
  else
    Z.testbit m (bit_to_shift m) &&
    (0 <=? bit_to_shift m) && (bit_to_shift m <? 8) &&
    forallb (fun j => (bit_to_shift m <=? j) || negb (Z.testbit m j))
      [0;1;2;3;4;5;6;7].

(** The mask of a field of [w] bits whose lowest bit is bit [s]. *)
Definition field_mask (s w : Z) : Z := Z.shiftl (Z.ones w) s.

Definition shape_check (m : Z) : bool :=
  if contiguous_mask m then
    (m =? field_mask (bit_to_shift m) (mask_width m)) &&
    (1 <=? mask_width m) && (bit_to_shift m + mask_width m <=? 8)
  else true.

(** The doubler setting of [data] is the one idtxp_calc_xo_settings()
    assigns to its reference frequency, which lies in a supported band. *)
Definition valid_reference (data : clk_idtxp) : Prop :=
  supported_fxtal (fxtal data) /\
  dblr_dis (xo data) = dblr_dis (xo (snd (idtxp_calc_xo_settings data))).

(** A register port whose registers read zero, with a given schedule of
    failures. *)
Definition port_with (fl : list bool) : regmap :=
  {| regs := fun _ => 0; faults := fl; stale := []; wlog := [] |}.

Definition world_with (data : clk_idtxp) (fl : list bool) : world :=
  {| w_data := data; w_port := port_with fl; w_provider := false |}.

(** A device tree that gives only the reference frequency [f]. *)
Definition platform_of_fxtal (f : Z) : platform :=
  {| kzalloc_ok := true; factory_fout := (0, f);
     settings_prop := (- EINVAL, []); regmap_init_err := 0;
     clk_hw_register_err := 0; add_hw_provider_err := 0;
     power_supply_voltage := (- EINVAL, 0);
     clock_frequency := (- EINVAL, 0) |}.

(** The structure with a divider set and charge-pump fields filled in. *)
Definition with_dividers (o n f : Z) (en : bool) (icp : Z) (mode : bool)
  : clk_idtxp :=
  set_pll_mode mode (set_icp_value icp (set_icp_offst_en en
    (set_divnfrac f (set_divnint n (set_divo o zeroed))))).

(** A structure with the limits of the part, [act_freq] at its initial
    value, the XO settings computed for reference [f], and request [r]. *)
Definition configured (f r : Z) : clk_idtxp :=
  set_req_freq r
    (snd (idtxp_calc_xo_settings
       (set_fxtal f (set_act_freq IDTXP_MIN_FREQ
          (set_min_freq IDTXP_MIN_FREQ
             (set_max_freq IDTXP_MAX_FREQ zeroed)))))).

(** What is known of the variables when the divider search that was
    entered with structure [d0] has left its loop. *)
Definition search_post (pfd : Z) (d0 : clk_idtxp) (st : divs_vars) : Prop :=
  let d := dv_data st in
  req_freq d = req_freq d0 /\ divnfrac d = divnfrac d0 /\
  divo d0 <= divo d <= DIVO_MAX /\
  (dv_is_int st = true ->
   divo d < DIVO_MAX /\ fvco d = req_freq d0 * divo d /\
   FVCO_MIN < fvco d <= FVCO_MAX /\ DIVN_MIN <= divnint d <= 108 /\
   dv_rem st = 0 /\ fvco d = divnint d * pfd) /\
  (dv_is_int st = false ->
   FVCO_MAX < fvco d /\ fvco d = req_freq d0 * divo d \/ divo d = DIVO_MAX).

(** Projections of updated structures. *)
Ltac fields :=
  cbn [has_settings settings min_freq max_freq xo fxtal fvco divo divnint
       divnfrac req_freq act_freq icp_offst_en icp_value pll_mode divo_8
       divnint_8_7 divnfrac_15_8 divnfrac_23_16
       set_fvco set_divo set_divnint set_divnfrac set_divo_8 set_divnint_8_7
       set_divnfrac_15_8 set_divnfrac_23_16 set_req_freq set_act_freq
       set_icp_value set_xo
       dv_data dv_rem dv_is_int fst snd] in *.




(** ** Definitions for further properties *)

(** The XO fields fit the register fields they are packed into. *)
Definition xo_fits (x : clk_xo_setting) : Prop :=
  0 <= vdd_def x < 4 /\ 0 <= vcxo_bw x < 4 /\ 0 <= vcxo_gexp x < 8 /\
  0 <= vcxo_gscale x < 16 /\ 0 <= drv_type x < 8 /\ 0 <= gm x < 4 /\
  0 <= cap_x1 x < 64 /\ 0 <= ampslice x < 16 /\ 0 <= cap_x2 x < 8 /\
  0 <= ot_res x < 8.

(** The port after one more transaction has been taken off its
    schedule. *)
Definition advance (p : regmap) : regmap :=
  {| regs := regs p; faults := tl (faults p); stale := stale p;
     wlog := wlog p |}.

Definition poke_all (seq : list (Z * Z)) (p : regmap) : regmap :=
  fold_left (fun q e => poke (fst e) (snd e) q) seq p.

Definition with_port (w : world) (p : regmap) : world :=
  {| w_data := w_data w; w_port := p; w_provider := w_provider w |}.

(** What a read of [n] bytes at [reg] leaves in the buffer: the
    registers, or on failure the bytes the buffer already held. *)
Definition read_buffer (p : regmap) (reg : Z) (n : nat) : list Z :=
  if hd false (faults p) then firstn n (stale p ++ repeat 0 n)
  else map (regs p) (reg_range reg n).

(** The bytes idtxp_setup() writes to the control register, in order. *)
Definition setup_bytes : list Z := [0x00; 0x20; 0x00; 0x01; 0x00].

(** How many of the next [n] transactions succeed before the first
    failure (an exhausted schedule never fails). *)
Fixpoint leading_ok (n : nat) (fl : list bool) : nat :=
  match n with
  | O => O
  | S n' =>
      match fl with
      | [] => n
      | true :: _ => O
      | false :: t => S (leading_ok n' t)
      end
  end.

(** The values idtxp_calc_xo_settings() assigns fit the register fields
    they go to. *)
Definition trim_fits (x : clk_xo_setting) : Prop :=
  0 <= gm x < 4 /\ 0 <= cap_x1 x < 64 /\ 0 <= ampslice x < 16 /\
  0 <= cap_x2 x < 8 /\ 0 <= ot_res x < 8.

(** The fields of the XO settings idtxp_calc_xo_settings() does not
    assign are the same in [x] and [y]. *)
Definition same_untrimmed (x y : clk_xo_setting) : Prop :=
  hsp_i2c_en y = hsp_i2c_en x /\ cmos_en y = cmos_en x /\
  vdd_def y = vdd_def x /\ vcxo_dis y = vcxo_dis x /\
  vcxo_bw y = vcxo_bw x /\ vcxo_gslope y = vcxo_gslope x /\
  vcxo_gexp y = vcxo_gexp x /\ vcxo_gscale y = vcxo_gscale x /\
  oe_pol_en y = oe_pol_en x /\ drv_type y = drv_type x /\
  bypass y = bypass x.



(** Total-correctness assertions: [m] returns from [w], and [Q] holds
    of its result. *)
Definition twp {A : Type} (m : M A) (Q : A -> world -> Prop) (w : world)
  : Prop :=
  exists a w', m w = Some (a, w') /\ Q a w'.

(** The registration state of the clock provider is that of [w0]. *)
Definition same_provider (w0 w : world) : Prop :=
  w_provider w = w_provider w0.

(** ** The register dump of the debugfs file *)

From Stdlib Require Ascii String.

Module Dump.

Import Ascii String.

(** The text written by the C string literal [s]. *)
Definition text (s : string) : list ascii := list_ascii_of_string s.

(** One lower-case hexadecimal digit, as printf()'s [%x] writes it. *)
Definition hex_digit (d : Z) : ascii :=
  ascii_of_nat (Z.to_nat (if d <? 10 then 48 + d else 87 + d)).

(** [sprintf(tmp, "%02x", v)] for [0 <= v < 256]: two digits.  The
    driver prints only the loop index, which stays below 256, and [u8]
    values. *)
Definition hex02 (v : Z) : list ascii :=
  [hex_digit (v / 16); hex_digit (v mod 16)].

(** The body of the loop of idtxp_read_all_settings() from index [i] on,
    over the bytes of [settings] not yet printed; every strcat() appends
    to [buf]. *)
Fixpoint dump_loop (i : Z) (settings : list Z) (buf : list ascii)
  : list ascii :=
  match settings with
  | [] => buf
  | v :: rest =>
      let buf := if i mod 16 =? 0 then buf ++ hex02 i ++ text "  "
                 else buf in
      let buf := buf ++ hex02 v ++ text " " in
      let buf := if (i + 1) mod 16 =? 0 then buf ++ text (String "010" "")
                 else buf in
      dump_loop (i + 1) rest buf
  end.

Definition dump_header : list ascii :=
  text "     0  1  2  3  4  5  6  7  8  9  a  b  c  d  e  f"
  ++ text (String "010" "").

(** idtxp_read_all_settings(): the code of the bulk read and the text
    left in [buf] (without its terminating NUL).  [settings] is an array
    of [u8]. *)
Definition idtxp_read_all_settings : M (Z * list ascii) :=
  r <- regmap_bulk_read 0 (Z.to_nat NUM_CONFIG_REGISTERS) ;;
  let settings := map u8 (snd r) in
  let buf := dump_header in
  let buf := if fst r =? 0 then dump_loop 0 settings buf else buf in
  ret (fst r, buf ++ text (String "010" "")).

(** The layout of the dump: row [r] starts with the address of its first
    register and shows the sixteen bytes of [vals]; [dump_rows n r vals]
    is [n] rows from row [r] on, sixteen bytes of [vals] each. *)
Definition nl : list ascii := text (String "010" "").

Definition cell (v : Z) : list ascii := hex02 v ++ text " ".

Definition dump_row (r : Z) (vals : list Z) : list ascii :=
  hex02 (16 * r) ++ text "  " ++ List.concat (map cell vals) ++ nl.

Fixpoint dump_rows (n : nat) (r : Z) (vals : list Z) : list ascii :=
  match n with
  | O => []
  | S n => dump_row r (firstn 16 vals) ++ dump_rows n (r + 1) (skipn 16 vals)
  end.

End Dump.

(** * Properties *)

(** ** Machine-integer facts *)

Lemma u8_small x : 0 <= x < 2 ^ 8 -> u8 x = x.
Proof. intros; unfold u8; apply Z.mod_small; assumption. Qed.

Lemma u16_small x : 0 <= x < 2 ^ 16 -> u16 x = x.
Proof. intros; unfold u16; apply Z.mod_small; assumption. Qed.

Lemma u32_small x : 0 <= x < 2 ^ 32 -> u32 x = x.
Proof. intros; unfold u32; apply Z.mod_small; assumption. Qed.

Lemma u64_small x : 0 <= x < 2 ^ 64 -> u64 x = x.
Proof. intros; unfold u64; apply Z.mod_small; assumption. Qed.

Lemma in_bytes b : 0 <= b < 256 -> In b bytes.
Proof.
  intros Hb. unfold bytes. apply in_map_iff.
  exists (Z.to_nat b). split; [lia|].
  apply in_seq. lia.
Qed.

Lemma forallb_bytes (f : Z -> bool) :
  forallb f bytes = true -> forall b, 0 <= b < 256 -> f b = true.
Proof.
  intros H b Hb. rewrite forallb_forall in H. apply H, in_bytes, Hb.
Qed.

(** ** The bit-field codec *)

Lemma lowest_checked : forallb lowest_check bytes = true.
Proof. vm_compute. reflexivity. Qed.

(** bit_to_shift() returns the position of the lowest set bit of every
    nonzero byte mask. *)
Lemma bit_to_shift_lowest m :
  0 < m < 256 -> lowest_set_bit m (bit_to_shift m) /\ bit_to_shift m < 8.
Proof.
  intros Hm.
  pose proof (forallb_bytes _ lowest_checked m ltac:(lia)) as H.
  unfold lowest_check in H.
  destruct (Z.eqb_spec m 0) as [E | _]; [lia|].
  apply andb_true_iff in H; destruct H as [H H3].
  apply andb_true_iff in H; destruct H as [H H2].
  apply andb_true_iff in H; destruct H as [H H1].
  rewrite forallb_forall in H3.
  apply Z.leb_le in H1. apply Z.ltb_lt in H2.
  split; [|assumption]. split; [assumption|]. split; [assumption|].
  intros j Hj.
  assert (In j [0;1;2;3;4;5;6;7]) as Hin by (cbn [In]; lia).
  specialize (H3 j Hin). apply orb_true_iff in H3.
  destruct H3 as [H0 | H0]; [apply Z.leb_le in H0; lia|].
  now apply negb_true_iff in H0.
Qed.

Lemma lowest_set_bit_unique m s t :
  lowest_set_bit m s -> lowest_set_bit m t -> s = t.
Proof.
  intros (Hs & Hbs & Hls) (Ht & Hbt & Hlt).
  destruct (Z.lt_trichotomy s t) as [Hlt' | [Heq | Hgt]]; [|assumption|].
  - rewrite (Hlt s) in Hbs by lia. discriminate.
  - rewrite (Hls t) in Hbt by lia. discriminate.
Qed.

Lemma shape_checked : forallb shape_check bytes = true.
Proof. vm_compute. reflexivity. Qed.

Lemma contiguous_mask_shape m :
  0 < m < 256 -> contiguous_mask m = true ->
  m = field_mask (bit_to_shift m) (mask_width m) /\
  1 <= mask_width m /\ bit_to_shift m + mask_width m <= 8.
Proof.
  intros Hm Hc.
  pose proof (forallb_bytes shape_check shape_checked m ltac:(lia)) as H.
  unfold shape_check in H. rewrite Hc in H.
  apply andb_true_iff in H; destruct H as [H H3].
  apply andb_true_iff in H; destruct H as [H1 H2].
  apply Z.eqb_eq in H1. apply Z.leb_le in H2, H3. auto.
Qed.

Section Field.

(** A field of [w] bits at position [s] of a byte, and a value that fits
    in it. *)
Variables b v s w : Z.
Hypothesis Hb : 0 <= b < 2 ^ 8.
Hypothesis Hs : 0 <= s.
Hypothesis Hw : 0 <= w.
Hypothesis Hsw : s + w <= 8.
Hypothesis Hv : 0 <= v < 2 ^ w.

Lemma field_value_in_mask :
  Z.land (Z.shiftl v s) (field_mask s w) = Z.shiftl v s.
Proof.
  unfold field_mask. rewrite <- Z.shiftl_land, Z.land_ones by assumption.
  rewrite Z.mod_small by assumption. reflexivity.
Qed.

Lemma field_value_byte : 0 <= Z.shiftl v s < 2 ^ 8.
Proof.
  rewrite Z.shiftl_mul_pow2 by assumption.
  assert (0 < 2 ^ s) by (apply Z.pow_pos_nonneg; lia).
  assert (2 ^ w * 2 ^ s <= 2 ^ 8).
  { rewrite <- Z.pow_add_r by assumption.
    apply Z.pow_le_mono_r; lia. }
  nia.
Qed.

Lemma land_not32 m : Z.land b (not32 m) = Z.land b (Z.lnot m).
Proof.
  unfold not32, u32. rewrite <- Z.land_ones by lia.
  rewrite (Z.land_comm (Z.lnot m)), Z.land_assoc.
  rewrite (Z.land_ones b) by lia.
  rewrite (Z.mod_small b) by (change (2 ^ 32) with 4294967296;
                              change (2 ^ 8) with 256 in Hb; lia).
  reflexivity.
Qed.

Lemma set_to_reg_field :
  bit_to_shift (field_mask s w) = s ->
  set_to_reg b v (field_mask s w)
  = Z.lor (Z.land b (Z.lnot (field_mask s w))) (Z.shiftl v s).
Proof.
  intros Hsh. unfold set_to_reg. rewrite Hsh, land_not32.
  unfold u8. rewrite <- Z.land_ones by lia.
  rewrite Z.land_lor_distr_l.
  rewrite <- Z.land_assoc, (Z.land_comm (Z.lnot (field_mask s w))),
    Z.land_assoc.
  rewrite !Z.land_ones by lia.
  rewrite (Z.mod_small b) by assumption.
  rewrite (Z.mod_small (Z.shiftl v s)) by apply field_value_byte.
  reflexivity.
Qed.

Lemma set_to_reg_outside :
  bit_to_shift (field_mask s w) = s ->
  Z.land (set_to_reg b v (field_mask s w)) (Z.lnot (field_mask s w))
  = Z.land b (Z.lnot (field_mask s w)).
Proof.
  intros Hsh. rewrite set_to_reg_field by assumption.
  rewrite Z.land_lor_distr_l.
  rewrite <- Z.land_assoc, Z.land_diag.
  rewrite <- field_value_in_mask at 1.
  rewrite <- Z.land_assoc, Z.land_lnot_diag, Z.land_0_r, Z.lor_0_r.
  reflexivity.
Qed.

Lemma set_to_reg_inside :
  bit_to_shift (field_mask s w) = s ->
  Z.land (set_to_reg b v (field_mask s w)) (field_mask s w) = Z.shiftl v s.
Proof.
  intros Hsh. rewrite set_to_reg_field by assumption.
  rewrite Z.land_lor_distr_l.
  rewrite <- Z.land_assoc, (Z.land_comm (Z.lnot (field_mask s w))),
    Z.land_lnot_diag.
  rewrite Z.land_0_r, Z.lor_0_l.
  apply field_value_in_mask.
Qed.

Lemma get_from_reg_field :
  bit_to_shift (field_mask s w) = s ->
  get_from_reg (set_to_reg b v (field_mask s w)) (field_mask s w) = v.
Proof.
  intros Hsh. unfold get_from_reg.
  rewrite set_to_reg_inside by assumption. rewrite Hsh.
  rewrite Z.shiftr_shiftl_l, Z.sub_diag, Z.shiftl_0_r by lia.
  apply u8_small.
  assert (2 ^ w <= 2 ^ 8) by (apply Z.pow_le_mono_r; lia). lia.
Qed.

End Field.

(** C9 (as amended): for every byte [b], every nonzero byte mask [m]
    whose selected bits are adjacent, and every value [v] that fits in the
    width of [m], set_to_reg() yields a byte that agrees with [b] outside
    [m] and holds [v] aligned to the lowest set bit of [m] inside it, and
    get_from_reg() of that byte returns [v]. *)
Theorem set_get_reg_contiguous b m v :
  0 <= b < 256 -> 0 < m < 256 -> contiguous_mask m = true ->
  0 <= v < 2 ^ mask_width m ->
  pack_unpack_ok b m v.
Proof.
  intros Hb Hm Hc Hv.
  destruct (contiguous_mask_shape m Hm Hc) as (Em & Hw & Hsw).
  destruct (bit_to_shift_lowest m Hm) as (Hlow & _).
  assert (0 <= bit_to_shift m) as Hs by apply Hlow.
  set (s := bit_to_shift m) in *. set (w := mask_width m) in *.
  fold (field_mask s w) in Em.
  assert (bit_to_shift (field_mask s w) = s) as Hsh
      by (rewrite <- Em; reflexivity).
  unfold pack_unpack_ok. rewrite Em.
  split; [|split].
  - apply set_to_reg_outside; try assumption; try lia.
  - intros t Ht. rewrite <- Em in Ht.
    rewrite (lowest_set_bit_unique m t s Ht Hlow).
    apply set_to_reg_inside; try assumption; lia.
  - apply get_from_reg_field; try assumption; lia.
Qed.

Lemma set_get_reg_contiguous_witness : pack_unpack_ok 0xC3 0x30 2.
Proof.
  apply (set_get_reg_contiguous 0xC3 0x30 2).
  - lia.
  - lia.
  - vm_compute. reflexivity.
  - vm_compute. split; [discriminate | reflexivity].
Defined.

(** C9 (as stated) fails on a mask whose bits are not adjacent: with
    mask 0x05 the value 2 fits in the two selected bits, yet set_to_reg()
    puts it on bit 1, outside the mask, and get_from_reg() reads 0. *)
Lemma set_get_reg_sparse_mask_cex :
  0 <= 0 < 256 /\ 0 < 0x05 < 256 /\ 0 <= 2 < 2 ^ mask_width 0x05 /\
  ~ pack_unpack_ok 0 0x05 2.
Proof.
  split; [lia|]. split; [lia|]. split; [vm_compute; split; [discriminate | reflexivity]|].
  intros (_ & _ & H). vm_compute in H. discriminate.
Qed.

(** ** update_divis_regs *)

Lemma land_pow2 x k :
  0 <= k -> Z.land x (2 ^ k) = Z.b2z (Z.testbit x k) * 2 ^ k.
Proof.
  intros Hk. apply Z.bits_inj'. intros i Hi.
  rewrite Z.land_spec, Z.pow2_bits_eqb by assumption.
  destruct (Z.testbit x k) eqn:E; cbn [Z.b2z].
  - rewrite Z.mul_1_l, Z.pow2_bits_eqb by assumption.
    destruct (Z.eqb_spec k i) as [-> | _].
    + rewrite E. reflexivity.
    + apply andb_false_r.
  - rewrite Z.mul_0_l, Z.bits_0.
    destruct (Z.eqb_spec k i) as [<- | _].
    + rewrite E. reflexivity.
    + apply andb_false_r.
Qed.

Lemma byte_field x k :
  0 <= k ->
  u8 (Z.shiftr (Z.land x (Z.shiftl 0xFF k)) k) = (x / 2 ^ k) mod 2 ^ 8.
Proof.
  intros Hk.
  rewrite Z.shiftr_land, Z.shiftr_shiftl_l, Z.sub_diag, Z.shiftl_0_r by lia.
  change 0xFF with (Z.ones 8).
  rewrite Z.land_ones, Z.shiftr_div_pow2 by lia.
  unfold u8. apply Z.mod_mod. lia.
Qed.

(** What update_divis_regs() computes, field by field. *)
Lemma update_divis_regs_fields data :
  let data' := update_divis_regs data in
  divo_8 data' = Z.b2z (Z.testbit (divo data) 8) /\
  divnint_8_7 data' = 2 * Z.b2z (Z.testbit (divo data) 8) /\
  divnfrac_15_8 data' = (divnfrac data / 2 ^ 8) mod 2 ^ 8 /\
  divnfrac_23_16 data' = (divnfrac data / 2 ^ 16) mod 2 ^ 8 /\
  divo data' = divo data /\ divnint data' = divnint data /\
  divnfrac data' = divnfrac data.
Proof.
  unfold update_divis_regs. cbn -[Z.shiftl Z.shiftr Z.land Z.pow u8 Z.testbit].
  repeat split.
  - change (Z.shiftl 1 8) with (2 ^ 8). rewrite land_pow2 by lia.
    destruct (Z.testbit (divo data) 8); reflexivity.
  - change (Z.shiftl 2 7) with (2 ^ 8). rewrite land_pow2 by lia.
    destruct (Z.testbit (divo data) 8); reflexivity.
  - apply byte_field. lia.
  - apply byte_field. lia.
Qed.

(** C4: update_divis_regs() does not derive [divnint_8_7] from the
    feedback integer.  For divo = 256 and divnint = 41 it stores 2, while
    bits 8-7 of divnint are 0; for divo = 4 and divnint = 128 it stores 0,
    while bits 8-7 of divnint are 1. *)
Theorem update_divis_regs_divnint_8_7_wrong :
  (let data := with_dividers 256 41 0 false 5 false in
   divnint_8_7 (update_divis_regs data) = 2 /\
   Z.land (Z.shiftr (divnint data) 7) 0x3 = 0) /\
  (let data := with_dividers 4 128 0 false 5 false in
   divnint_8_7 (update_divis_regs data) = 0 /\
   Z.land (Z.shiftr (divnint data) 7) 0x3 = 1).
Proof. vm_compute. repeat split. Qed.

(** ** Round trip through the divider registers *)

(** C3: a divider set written by idtxp_write_divs_settings() and read
    back by idtxp_get_divs_and_icp() is not recovered.  With divo = 256,
    divnint = 41 the registers receive 0x00 0xA9 0x2A and the feedback
    integer read back is 43, whether the read fills a zeroed structure or
    the one that was written; with divo = 4, divnint = 128 the read gives
    divo = 260 and divnint = 0. *)
Theorem divs_registers_round_trip_fails :
  (let data := with_dividers 256 41 0 false 5 false in
   let reg := pack_divs (update_divis_regs data) (repeat 0 6%nat) in
   reg = [0x00; 0xA9; 0x2A; 0; 0; 0] /\
   divo (unpack_divs reg zeroed) = 256 /\
   divnint (unpack_divs reg zeroed) = 43 /\
   divnint (unpack_divs reg (update_divis_regs data)) = 43 /\
   option_map (fun r => (fst r, divnint (w_data (snd r))))
     ((check idtxp_write_divs_settings ;; idtxp_get_divs_and_icp)%drv
        (world_with data [])) = Some (0, 43)) /\
  (let data := with_dividers 4 128 0 false 5 false in
   let reg := pack_divs (update_divis_regs data) (repeat 0 6%nat) in
   divo (unpack_divs reg zeroed) = 260 /\
   divnint (unpack_divs reg zeroed) = 0).
Proof. vm_compute. repeat split. Qed.

(** ** Charge pump *)

(** C8: idtxp_calc_charge_pump() maps the VCO frequency to the code by
    four ranges whose lower bounds are inclusive, in particular
    7_000_000_000 gives 4 and 7_800_000_000 gives 2. *)
Theorem idtxp_calc_charge_pump_ranges data :
  let data' := snd (idtxp_calc_charge_pump data) in
  fst (idtxp_calc_charge_pump data) = 0 /\
  (fvco data < 7000000000 -> icp_value data' = 5) /\
  (7000000000 <= fvco data < 7400000000 -> icp_value data' = 4) /\
  (7400000000 <= fvco data < 7800000000 -> icp_value data' = 3) /\
  (7800000000 <= fvco data -> icp_value data' = 2) /\
  icp_value (snd (idtxp_calc_charge_pump (set_fvco 7000000000 data))) = 4 /\
  icp_value (snd (idtxp_calc_charge_pump (set_fvco 7800000000 data))) = 2.
Proof.
  unfold idtxp_calc_charge_pump. cbn [fst snd].
  split; [reflexivity|].
  destruct (Z.ltb_spec (fvco data) 7000000000);
    destruct (Z.leb_spec 7000000000 (fvco data));
    destruct (Z.ltb_spec (fvco data) 7400000000);
    destruct (Z.leb_spec 7400000000 (fvco data));
    destruct (Z.ltb_spec (fvco data) 7800000000);
    cbn [andb icp_value set_icp_value];
    repeat split; intros; try reflexivity; try lia.
Qed.

Lemma idtxp_calc_charge_pump_ranges_witness :
  7000000000 <= fvco (set_fvco 7399999999 zeroed) < 7400000000 /\
  icp_value (snd (idtxp_calc_charge_pump (set_fvco 7399999999 zeroed))) = 4.
Proof.
  destruct (idtxp_calc_charge_pump_ranges (set_fvco 7399999999 zeroed))
    as (_ & _ & H & _).
  assert (7000000000 <= fvco (set_fvco 7399999999 zeroed) < 7400000000)
    as Hr by (cbn [fvco set_fvco]; lia).
  split; [exact Hr | exact (H Hr)].
Defined.
(** ** XO settings and bring-up *)

(** Outside the three bands idtxp_calc_xo_settings() returns -EINVAL
    and leaves the structure as it was. *)
Lemma idtxp_calc_xo_settings_unsupported data :
  ~ supported_fxtal (fxtal data) ->
  idtxp_calc_xo_settings data = (- EINVAL, data).
Proof.
  intros Hn. unfold supported_fxtal in Hn. unfold idtxp_calc_xo_settings.
  destruct (Z.leb_spec 40000000 (fxtal data));
    destruct (Z.leb_spec (fxtal data) 80000000);
    destruct (Z.leb_spec 100000000 (fxtal data));
    destruct (Z.ltb_spec (fxtal data) 140000000);
    destruct (Z.leb_spec 140000000 (fxtal data));
    destruct (Z.leb_spec (fxtal data) 166000000);
    cbn [andb]; try reflexivity; exfalso; apply Hn; lia.
Qed.

(** Inside a band it succeeds and sets the doubler: enabled up to
    80 MHz, disabled from 100 MHz. *)
Lemma idtxp_calc_xo_settings_supported data :
  supported_fxtal (fxtal data) ->
  fst (idtxp_calc_xo_settings data) = 0 /\
  dblr_dis (xo (snd (idtxp_calc_xo_settings data)))
  = (100000000 <=? fxtal data).
Proof.
  intros Hs. unfold supported_fxtal in Hs. unfold idtxp_calc_xo_settings.
  destruct (Z.leb_spec 40000000 (fxtal data));
    destruct (Z.leb_spec (fxtal data) 80000000);
    destruct (Z.leb_spec 100000000 (fxtal data));
    destruct (Z.ltb_spec (fxtal data) 140000000);
    destruct (Z.leb_spec 140000000 (fxtal data));
    destruct (Z.leb_spec (fxtal data) 166000000);
    cbn [andb fst snd]; try lia; split; reflexivity.
Qed.

(** A 60 MHz reference takes the trim values of the first band. *)
Example idtxp_calc_xo_settings_60MHz :
  let x := xo (snd (idtxp_calc_xo_settings (set_fxtal 60000000 zeroed))) in
  fst (idtxp_calc_xo_settings (set_fxtal 60000000 zeroed)) = 0 /\
  (dblr_dis x, gm x, cap_x1 x, ampslice x, cap_x2 x, ot_dis x, ot_res x)
  = (false, 2, 0x3C, 1, 2, true, 0).
Proof. vm_compute. split; reflexivity. Qed.

(** C10: for a 39 MHz reference idtxp_calc_xo_settings() returns -EINVAL
    and changes nothing, but idtxp_probe() drops that code: it returns 0
    with the clock provider registered, and the instance then accepts a
    rate request. *)
Theorem idtxp_probe_accepts_unsupported_fxtal (clk_set_rate : Z -> M Z) :
  let r := idtxp_probe clk_set_rate (platform_of_fxtal 39000000) idtxp_xo
             (world_with zeroed []) in
  idtxp_calc_xo_settings (set_fxtal 39000000 zeroed)
  = (- EINVAL, set_fxtal 39000000 zeroed) /\
  option_map fst r = Some 0 /\
  option_map (fun x => w_provider (snd x)) r = Some true /\
  option_map (fun x => fxtal (w_data (snd x))) r = Some 39000000 /\
  option_map (fun x => option_map (fun y => (fst y, act_freq (w_data (snd y))))
                         (idtxp_set_rate 512 100000000 (snd x))) r
  = Some (Some (0, 100000000)).
Proof. vm_compute. repeat split. Qed.

(** ** Rate reporting and failures of the register port *)

(** C5: idtxp_recalc_rate() returns [req_freq], not [act_freq].  After
    bring-up without a requested frequency it reports 0 while [act_freq]
    is 16 MHz; after a request for 100 MHz whose batch write fails
    (the tenth bus transaction since bring-up began) it reports 100 MHz
    while [act_freq] is still 16 MHz. *)
Theorem idtxp_recalc_rate_reports_req_freq :
  let boot := idtxp_probe (idtxp_set_rate 512) (platform_of_fxtal 50000000)
                idtxp_xo in
  let view (x : Z * world) :=
    (fst x, idtxp_recalc_rate (w_data (snd x)) 0, act_freq (w_data (snd x))) in
  option_map view (boot (world_with zeroed [])) = Some (0, 0, 16000000) /\
  option_map view
    ((check boot ;; idtxp_set_rate 512 100000000)
       (world_with zeroed (repeat false 9 ++ [true])))
  = Some (- EIO, 100000000, 16000000).
Proof. vm_compute. split; reflexivity. Qed.

(** C7: failures of the register port that a rate change does not
    report.  From [act_freq] = 16 MHz a request for 100 MHz returns 0 and
    sets [act_freq] to 100 MHz when the bulk read of
    idtxp_write_divs_settings() fails, and also when both writes to the
    trigger register 0x62 fail (no write to 0x62 reaches the chip); a
    failure of the batch write is reported and leaves [act_freq]. *)
Theorem rate_change_ignores_port_failures :
  let data := configured 50000000 0 in
  let view (x : Z * world) :=
    (fst x, act_freq (w_data (snd x)),
     existsb (fun e => fst e =? IDTXP_REG_FREQ_CHG) (wlog (w_port (snd x)))) in
  act_freq data = 16000000 /\
  option_map view (idtxp_set_rate 512 100000000 (world_with data [true]))
  = Some (0, 100000000, true) /\
  option_map view
    (idtxp_set_rate 512 100000000
       (world_with data (repeat false 7 ++ [true; true])))
  = Some (0, 100000000, false) /\
  option_map view
    (idtxp_set_rate 512 100000000 (world_with data [false; true]))
  = Some (- EIO, 16000000, false).
Proof. vm_compute. repeat split. Qed.
(** ** What a rate change does to the two frequencies *)




























(** ** Classification of a rate change *)

Lemma s64_u64 x : - 2 ^ 63 <= x < 2 ^ 63 -> s64 (u64 x) = x.
Proof.
  intros Hx. unfold s64, u64. rewrite Z.mod_mod by lia.
  change (2 ^ 63) with 9223372036854775808 in *.
  change (2 ^ 64) with 18446744073709551616 in *.
  destruct (Z.ltb_spec (x mod 18446744073709551616) 9223372036854775808);
    Z.div_mod_to_equations; lia.
Qed.

Lemma kernel_abs_difference rate act :
  - 2 ^ 63 <= rate - act < 2 ^ 63 ->
  kernel_abs (u64 (rate - act)) = Z.abs (rate - act).
Proof.
  intros H. unfold kernel_abs. cbv zeta. rewrite s64_u64 by assumption.
  destruct (Z.ltb_spec (rate - act) 0); lia.
Qed.

(** The test of idtxp_set_rate() computes the truncated relative change
    on the true difference, in either direction. *)
Lemma is_small_change_spec rate act :
  0 <= rate < 2 ^ 32 -> 0 < act < 2 ^ 32 ->
  is_small_change rate act = (Z.abs (rate - act) * 10000 / act <? 5).
Proof.
  intros Hr Ha. unfold is_small_change.
  change (2 ^ 32) with 4294967296 in *.
  rewrite kernel_abs_difference
    by (change (2 ^ 63) with 9223372036854775808; lia).
  rewrite u64_small; [reflexivity|].
  change (2 ^ 64) with 18446744073709551616. lia.
Qed.

(** C6: for an in-range request and a positive [act_freq],
    idtxp_set_rate() stores the request and runs
    idtxp_small_frequency_change() when |rate - act_freq| * 10000 /
    act_freq (truncated, on the true absolute difference) is below 5, and
    idtxp_large_frequency_change() otherwise, whether the request is
    below or above [act_freq]. *)
Theorem idtxp_set_rate_classification fuel rate (w : world) :
  let data := w_data w in
  let w' := {| w_data := set_req_freq (u32 rate) data; w_port := w_port w;
               w_provider := w_provider w |} in
  let relative := Z.abs (rate - act_freq data) * 10000 / act_freq data in
  min_freq data = IDTXP_MIN_FREQ -> max_freq data = IDTXP_MAX_FREQ ->
  min_freq data <= rate <= max_freq data ->
  0 < act_freq data < 2 ^ 32 ->
  (relative < 5 ->
   idtxp_set_rate fuel rate w = idtxp_small_frequency_change fuel rate w') /\
  (5 <= relative ->
   idtxp_set_rate fuel rate w = idtxp_large_frequency_change fuel rate w').
Proof.
  intros data w' relative Hmin Hmax Hr Ha.
  assert (idtxp_set_rate fuel rate w =
          if is_small_change rate (act_freq data)
          then idtxp_small_frequency_change fuel rate w'
          else idtxp_large_frequency_change fuel rate w') as E.
  { unfold idtxp_set_rate, bind, get_data, modify_data. fold data.
    destruct (Z.ltb_spec rate (min_freq data)); [lia|].
    destruct (Z.ltb_spec (max_freq data) rate); [lia|].
    cbn [orb w_data act_freq set_req_freq]. fold data.
    destruct (is_small_change rate (act_freq data)); reflexivity. }
  rewrite E, is_small_change_spec; [|unfold IDTXP_MIN_FREQ, IDTXP_MAX_FREQ in *;
    change (2 ^ 32) with 4294967296; lia | assumption].
  fold relative.
  destruct (Z.ltb_spec relative 5); split; intros; (reflexivity || lia).
Qed.

Lemma idtxp_set_rate_classification_witness :
  let w := world_with (set_act_freq 100000000 (configured 50000000 0)) [] in
  let w' := {| w_data := set_req_freq (u32 99950001) (w_data w);
               w_port := w_port w; w_provider := w_provider w |} in
  (min_freq (w_data w) = IDTXP_MIN_FREQ /\
   max_freq (w_data w) = IDTXP_MAX_FREQ /\
   min_freq (w_data w) <= 99950001 <= max_freq (w_data w) /\
   0 < act_freq (w_data w) < 2 ^ 32 /\
   Z.abs (99950001 - act_freq (w_data w)) * 10000 / act_freq (w_data w) < 5)
  /\ idtxp_set_rate 512 99950001 w
     = idtxp_small_frequency_change 512 99950001 w'.
Proof.
  intros w w'.
  assert (min_freq (w_data w) = IDTXP_MIN_FREQ) as H1 by reflexivity.
  assert (max_freq (w_data w) = IDTXP_MAX_FREQ) as H2 by reflexivity.
  assert (min_freq (w_data w) <= 99950001 <= max_freq (w_data w)) as H3
      by (vm_compute; split; discriminate).
  assert (0 < act_freq (w_data w) < 2 ^ 32) as H4
      by (vm_compute; split; reflexivity).
  assert (Z.abs (99950001 - act_freq (w_data w)) * 10000
          / act_freq (w_data w) < 5) as H5 by (vm_compute; reflexivity).
  split; [auto|].
  exact (proj1 (idtxp_set_rate_classification 512 99950001 w H1 H2 H3 H4) H5).
Defined.

(** Around [act_freq] = 100 MHz the boundary of the two classes lies
    between a difference of 49_999 Hz and one of 50_001 Hz on either
    side, and the class shows in the byte written to the trigger
    register: 0x02 for a small change, 0x01 for a large one. *)
Example idtxp_set_rate_trigger_bytes :
  let w := world_with (set_act_freq 100000000 (configured 50000000 0)) [] in
  let trigger rate :=
    option_map (fun x => (fst x, filter (fun e => fst e =? IDTXP_REG_FREQ_CHG)
                                   (wlog (w_port (snd x)))))
      (idtxp_set_rate 512 rate w) in
  trigger 100049999 = Some (0, [(0x62, 0x02); (0x62, 0x00)]) /\
  trigger 100050001 = Some (0, [(0x62, 0x01); (0x62, 0x00)]) /\
  trigger 99950001 = Some (0, [(0x62, 0x02); (0x62, 0x00)]) /\
  trigger 99949999 = Some (0, [(0x62, 0x01); (0x62, 0x00)]).
Proof. vm_compute. repeat split. Qed.

(** ** The divider search *)

Lemma valid_reference_pfd data :
  valid_reference data -> 80000000 <= calc_pfd data <= 166000000.
Proof.
  intros [Hs Hd].
  destruct (idtxp_calc_xo_settings_supported data Hs) as [_ E].
  rewrite E in Hd. unfold calc_pfd. rewrite Hd.
  unfold supported_fxtal in Hs.
  destruct (Z.leb_spec 100000000 (fxtal data));
    rewrite u32_small; change (2 ^ 32) with 4294967296; lia.
Qed.

(** The initial guess [1 + FVCO_MIN / req_freq] over the supported
    range of requests. *)
Lemma initial_divo_bounds data :
  IDTXP_MIN_FREQ <= req_freq data <= IDTXP_MAX_FREQ ->
  DIVO_MIN <= initial_divo data <= 429 /\
  FVCO_MIN < req_freq data * initial_divo data <= FVCO_MAX.
Proof.
  unfold initial_divo.
  unfold IDTXP_MIN_FREQ, IDTXP_MAX_FREQ, DIVO_MIN, FVCO_MIN, FVCO_MAX.
  intros Hr. set (r := req_freq data) in *.
  pose proof (Z.div_mod 6860000000 r ltac:(lia)) as E.
  pose proof (Z.mod_pos_bound 6860000000 r ltac:(lia)) as B.
  set (q := 6860000000 / r) in *.
  assert (3 <= q <= 428) as Hq by nia.
  rewrite u64_small, u16_small
    by (change (2 ^ 16) with 65536; change (2 ^ 64) with 18446744073709551616;
        lia).
  split; [lia|]. split; [lia|].
  destruct (Z.eq_dec q 3) as [E3 | Hn].
  - rewrite E3 in *. lia.
  - assert (4 * r <= r * q) by nia. lia.
Qed.

(** The feedback integer of a VCO frequency above FVCO_MIN lies between
    DIVN_MIN and 108 for every supported phase-detector frequency. *)
Lemma divnint_bounds f pfd :
  80000000 <= pfd <= 166000000 -> FVCO_MIN < f <= FVCO_MAX ->
  DIVN_MIN <= f / pfd <= 108 /\ 0 <= f mod pfd < pfd.
Proof.
  unfold FVCO_MIN, FVCO_MAX, DIVN_MIN. intros Hp Hf.
  pose proof (Z.div_mod f pfd ltac:(lia)) as E.
  pose proof (Z.mod_pos_bound f pfd ltac:(lia)) as B.
  split; [|assumption]. nia.
Qed.

(** One pass of the loop for a supported reference: the [continue] of
    the [divnint < DIVN_MIN] test is never taken, so a pass either leaves
    the loop or increments divo. *)
Lemma calc_divs_body_supported pfd st :
  let d := dv_data st in
  let f := req_freq d * divo d in
  80000000 <= pfd <= 166000000 ->
  IDTXP_MIN_FREQ <= req_freq d <= IDTXP_MAX_FREQ ->
  0 <= divo d < DIVO_MAX -> FVCO_MIN < f ->
  calc_divs_body pfd st =
  if FVCO_MAX <? f then
    (Break, {| dv_data := set_fvco f d; dv_rem := dv_rem st;
               dv_is_int := dv_is_int st |})
  else if f mod pfd =? 0 then
    (Break, {| dv_data := set_divnint (f / pfd) (set_fvco f d);
               dv_rem := f mod pfd; dv_is_int := true |})
  else
    (Continue, {| dv_data := set_divo (divo d + 1)
                               (set_divnint (f / pfd) (set_fvco f d));
                  dv_rem := f mod pfd; dv_is_int := dv_is_int st |}).
Proof.
  intros d f Hp Hr Hd Hf. unfold calc_divs_body. fold d. fields. fold f.
  unfold IDTXP_MIN_FREQ, IDTXP_MAX_FREQ, DIVO_MAX in *.
  rewrite u64_small
    by (change (2 ^ 64) with 18446744073709551616; unfold FVCO_MIN in *; nia).
  destruct (Z.ltb_spec FVCO_MAX f) as [Hgt | Hle]; [reflexivity|].
  destruct (divnint_bounds f pfd Hp (conj Hf Hle)) as [Hq Hm].
  unfold DIVN_MIN, DIVN_MAX in *.
  rewrite u16_small by (change (2 ^ 16) with 65536; lia).
  destruct (Z.ltb_spec (f / pfd) 41); [lia|].
  destruct (Z.ltb_spec 216 (f / pfd)); [lia|].
  destruct (Z.eqb_spec (f mod pfd) 0); [reflexivity|].
  rewrite u16_small by (change (2 ^ 16) with 65536; lia).
  reflexivity.
Qed.

(** The search loop exits for every supported reference, within
    [DIVO_MAX - divo + 1] tests of its condition. *)
Lemma calc_divs_loop_exits pfd :
  80000000 <= pfd <= 166000000 ->
  forall n st,
    let d := dv_data st in
    IDTXP_MIN_FREQ <= req_freq d <= IDTXP_MAX_FREQ ->
    0 <= divo d <= DIVO_MAX -> FVCO_MIN < req_freq d * divo d ->
    dv_is_int st = false ->
    (Z.to_nat (DIVO_MAX - divo d) < n)%nat ->
    exists st', calc_divs_loop n pfd st = Some st' /\ search_post pfd d st'.
Proof.
  intros Hp. induction n as [|n IH]; intros st d Hr Hd Hf Hi Hn; [lia|].
  cbn [calc_divs_loop]. fold d.
  destruct (Z.ltb_spec (divo d) DIVO_MAX) as [Hlt | Hge].
  - rewrite calc_divs_body_supported by (fold d; auto; lia). fold d.
    set (f := req_freq d * divo d) in *.
    destruct (Z.ltb_spec FVCO_MAX f) as [Hgt | Hle].
    + eexists. split; [reflexivity|].
      unfold search_post. fields.
      repeat split; try lia; try congruence.
    + destruct (divnint_bounds f pfd Hp (conj Hf Hle)) as [Hq Hm].
      destruct (Z.eqb_spec (f mod pfd) 0) as [E0 | Hne].
      * eexists. split; [reflexivity|].
        unfold search_post. fields.
        repeat split; try lia; try congruence.
        pose proof (Z.div_mod f pfd ltac:(lia)). lia.
      * match goal with
        | |- context [calc_divs_loop n pfd ?s] => set (st1 := s)
        end.
        assert (0 <= req_freq d) by (unfold IDTXP_MIN_FREQ in Hr; lia).
        destruct (IH st1) as (st' & E & Hpost).
        { exact Hr. }
        { subst st1. fields. unfold DIVO_MAX in *. lia. }
        { subst st1 f. fields. lia. }
        { exact Hi. }
        { subst st1. fields. unfold DIVO_MAX in *. lia. }
        exists st'. split; [assumption|].
        unfold search_post in *. subst st1. fields.
        destruct Hpost as (P1 & P2 & P3 & P4 & P5).
        split; [lia|]. split; [lia|]. split; [lia|]. split.
        -- intros Ht. specialize (P4 Ht). lia.
        -- intros Ht. specialize (P5 Ht). lia.
  - exists st. split; [reflexivity|].
    unfold search_post. fold d.
    repeat split; try lia; try congruence.
Qed.

(** More fuel does not change the outcome of a search that exits. *)
Lemma calc_divs_loop_fuel_mono pfd n :
  forall st r m,
    calc_divs_loop n pfd st = Some r -> (n <= m)%nat ->
    calc_divs_loop m pfd st = Some r.
Proof.
  induction n as [|n IH]; intros st r m E Hm; [discriminate|].
  destruct m as [|m]; [lia|].
  cbn [calc_divs_loop] in *.
  destruct (divo (dv_data st) <? DIVO_MAX); [|assumption].
  destruct (calc_divs_body pfd st) as [[|] st1]; [|assumption].
  apply IH; [assumption | lia].
Qed.

(** The stall the loop is open to: once a pass finds the feedback
    integer below DIVN_MIN it repeats that pass for ever, because divo is
    not incremented on that path. *)
Lemma calc_divs_loop_stalls pfd :
  forall n st,
    let d := dv_data st in
    divo d < DIVO_MAX ->
    u64 (req_freq d * divo d) <= FVCO_MAX ->
    u16 (u64 (req_freq d * divo d) / pfd) < DIVN_MIN ->
    calc_divs_loop n pfd st = None.
Proof.
  induction n as [|n IH]; intros st d Hd Hf Hq; [reflexivity|].
  cbn [calc_divs_loop]. fold d.
  destruct (Z.ltb_spec (divo d) DIVO_MAX); [|lia].
  unfold calc_divs_body. fold d. fields.
  destruct (Z.ltb_spec FVCO_MAX (u64 (req_freq d * divo d))); [lia|].
  destruct (Z.ltb_spec (u16 (u64 (req_freq d * divo d) / pfd)) DIVN_MIN);
    [|lia].
  apply IH; fields; assumption.
Qed.

(** With a 200 MHz reference, which idtxp_calc_xo_settings() rejects,
    and the doubler disabled, a request for 100 MHz never leaves the
    loop. *)
Example calc_divs_stalls_200MHz :
  forall fuel,
    idtxp_calc_divs fuel
      (set_xo (xo_set_dblr_dis true zeroed_xo)
         (set_fxtal 200000000 (set_req_freq 100000000 zeroed))) = None.
Proof.
  intros fuel. unfold idtxp_calc_divs.
  rewrite calc_divs_loop_stalls; [reflexivity | | |]; vm_compute; congruence.
Qed.

(** C1: for every request in [16 MHz, 2.1 GHz] and every reference in a
    supported XO-trim band with its doubler setting, the search loop of
    idtxp_calc_divs() exits: DIVO_MAX tests of its condition (and any
    larger number) suffice, and it stops on an exact integer solution, on
    a VCO frequency above FVCO_MAX, or with divo at DIVO_MAX. *)
Theorem calc_divs_loop_terminates data :
  IDTXP_MIN_FREQ <= req_freq data <= IDTXP_MAX_FREQ ->
  valid_reference data ->
  exists st,
    (forall fuel, (Z.to_nat DIVO_MAX <= fuel)%nat ->
       calc_divs_loop fuel (calc_pfd data) (calc_divs_enter data) = Some st) /\
    (dv_is_int st = true /\ dv_rem st = 0 \/
     dv_is_int st = false /\ FVCO_MAX < fvco (dv_data st) \/
     dv_is_int st = false /\ divo (dv_data st) = DIVO_MAX).
Proof.
  intros Hr Hv.
  pose proof (valid_reference_pfd data Hv) as Hp.
  destruct (initial_divo_bounds (set_divnfrac 0 data) Hr) as [Hd Hf].
  destruct (calc_divs_loop_exits (calc_pfd data) Hp (Z.to_nat DIVO_MAX)
              (calc_divs_enter data)) as (st & E & Hpost);
    unfold calc_divs_enter; fields; try assumption;
    unfold DIVO_MIN, DIVO_MAX in *; try lia; try reflexivity.
  exists st. split.
  - intros fuel Hfuel. eapply calc_divs_loop_fuel_mono; eassumption.
  - destruct Hpost as (_ & _ & _ & P4 & P5).
    destruct (dv_is_int st).
    + left. specialize (P4 eq_refl). intuition.
    + specialize (P5 eq_refl). right. destruct P5 as [[? _] | ?]; auto.
Qed.

Lemma calc_divs_loop_terminates_witness :
  IDTXP_MIN_FREQ <= req_freq (configured 49152000 156250000)
                 <= IDTXP_MAX_FREQ /\
  valid_reference (configured 49152000 156250000) /\
  exists st,
    (forall fuel, (Z.to_nat DIVO_MAX <= fuel)%nat ->
       calc_divs_loop fuel (calc_pfd (configured 49152000 156250000))
         (calc_divs_enter (configured 49152000 156250000)) = Some st) /\
    (dv_is_int st = true /\ dv_rem st = 0 \/
     dv_is_int st = false /\ FVCO_MAX < fvco (dv_data st) \/
     dv_is_int st = false /\ divo (dv_data st) = DIVO_MAX).
Proof.
  assert (IDTXP_MIN_FREQ <= req_freq (configured 49152000 156250000)
          <= IDTXP_MAX_FREQ) as Hr by (vm_compute; split; discriminate).
  assert (valid_reference (configured 49152000 156250000)) as Hv.
  { split; [left; vm_compute; split; discriminate | reflexivity]. }
  split; [exact Hr|]. split; [exact Hv|].
  exact (calc_divs_loop_terminates _ Hr Hv).
Defined.

(** Reference 49.152 MHz, request 156.25 MHz: no divider up to FVCO_MAX
    gives an integer feedback ratio, and the fractional mode at divo = 44
    yields divnint = 70 (69 rounded up) and divnfrac = 15_705_429. *)
Example idtxp_calc_divs_156_25MHz :
  option_map (fun r => (fst r, divo (snd r), fvco (snd r), divnint (snd r),
                        divnfrac (snd r)))
    (idtxp_calc_divs 512 (configured 49152000 156250000))
  = Some (0, 44, 6875000000, 70, 15705429).
Proof. vm_compute. reflexivity. Qed.

(** Reference 50 MHz, request 16 MHz: the search finds the integer
    solution divo = 450, divnint = 72. *)
Example idtxp_calc_divs_16MHz :
  option_map (fun r => (fst r, divo (snd r), fvco (snd r), divnint (snd r),
                        divnfrac (snd r)))
    (idtxp_calc_divs 512 (configured 50000000 16000000))
  = Some (0, 450, 7200000000, 72, 0).
Proof. vm_compute. reflexivity. Qed.

(** The fractional mode at the initial divider: the feedback integer
    stays within [DIVN_MIN, 109]; the fractional part is below 2^24 before
    rounding and at most 2^24 after it. *)
Lemma calc_divs_frac_spec pfd d :
  80000000 <= pfd <= 166000000 ->
  IDTXP_MIN_FREQ <= req_freq d <= IDTXP_MAX_FREQ ->
  let d' := calc_divs_frac pfd d in
  req_freq d' = req_freq d /\ divo d' = initial_divo d /\
  fvco d' = req_freq d * divo d' /\
  DIVN_MIN <= divnint d' <= 109 /\ 0 <= divnfrac d' <= 2 ^ 24.
Proof.
  intros Hp Hr.
  destruct (initial_divo_bounds d Hr) as [Hd Hf].
  unfold calc_divs_frac. cbv zeta. fields.
  change (initial_divo (set_divo (initial_divo d) d)) with (initial_divo d).
  set (d0 := initial_divo d) in *.
  assert (u64 (req_freq d * d0) = req_freq d * d0) as Ef.
  { apply u64_small. change (2 ^ 64) with 18446744073709551616.
    unfold FVCO_MIN, FVCO_MAX in Hf. lia. }
  rewrite !Ef. set (f := req_freq d * d0) in *.
  destruct (divnint_bounds f pfd Hp Hf) as [Hq Hm].
  unfold DIVN_MIN in *.
  assert (u16 (f / pfd) = f / pfd) as Eq
      by (apply u16_small; change (2 ^ 16) with 65536; lia).
  rewrite !Eq. rewrite !Z.shiftl_mul_pow2 by lia.
  change (2 ^ 24) with 16777216.
  assert (u64 (f mod pfd * 16777216) = f mod pfd * 16777216) as Es.
  { apply u64_small. change (2 ^ 64) with 18446744073709551616. lia. }
  rewrite !Es. set (x := f mod pfd * 16777216) in *.
  assert (0 <= x / pfd < 16777216) as Hx.
  { split; [apply Z.div_pos; lia|].
    apply Z.div_lt_upper_bound; lia. }
  assert (u32 (x / pfd) = x / pfd) as Ex
      by (apply u32_small; change (2 ^ 32) with 4294967296; lia).
  rewrite !Ex.
  destruct (5 <=? u64 (x mod pfd * 10) / pfd); fields.
  - rewrite !(u32_small (x / pfd + 1))
      by (change (2 ^ 32) with 4294967296; lia).
    destruct (5 <=? Z.shiftr (u32 ((x / pfd + 1) * 10)) 24); fields;
      rewrite ?u16_small by (change (2 ^ 16) with 65536; lia);
      repeat split; try reflexivity; lia.
  - destruct (5 <=? Z.shiftr (u32 (x / pfd * 10)) 24); fields;
      rewrite ?u16_small by (change (2 ^ 16) with 65536; lia);
      repeat split; try reflexivity; lia.
Qed.

(** update_divis_regs() leaves the dividers and the frequencies. *)
Lemma update_divis_regs_keeps data :
  let data' := update_divis_regs data in
  divo data' = divo data /\ divnint data' = divnint data /\
  divnfrac data' = divnfrac data /\ fvco data' = fvco data /\
  req_freq data' = req_freq data.
Proof. unfold update_divis_regs. fields. repeat split. Qed.

(** C2 (as amended): for every request in [16 MHz, 2.1 GHz] and every
    supported reference with its doubler setting, idtxp_calc_divs()
    returns 0 with DIVO_MIN <= divo <= DIVO_MAX, DIVN_MIN <= divnint <=
    DIVN_MAX, FVCO_MIN <= fvco <= FVCO_MAX, fvco = req_freq * divo, and
    0 <= divnfrac <= 2^24 (the upper bound included). *)
Theorem idtxp_calc_divs_invariants data :
  IDTXP_MIN_FREQ <= req_freq data <= IDTXP_MAX_FREQ ->
  valid_reference data ->
  exists data',
    (forall fuel, (Z.to_nat DIVO_MAX <= fuel)%nat ->
       idtxp_calc_divs fuel data = Some (0, data')) /\
    DIVO_MIN <= divo data' <= DIVO_MAX /\
    DIVN_MIN <= divnint data' <= DIVN_MAX /\
    FVCO_MIN <= fvco data' <= FVCO_MAX /\
    fvco data' = req_freq data * divo data' /\
    0 <= divnfrac data' <= 2 ^ 24.
Proof.
  intros Hr Hv.
  pose proof (valid_reference_pfd data Hv) as Hp.
  destruct (initial_divo_bounds (set_divnfrac 0 data) Hr) as [Hd Hf].
  destruct (calc_divs_loop_exits (calc_pfd data) Hp (Z.to_nat DIVO_MAX)
              (calc_divs_enter data)) as (st & E & Hpost);
    unfold calc_divs_enter; fields; try assumption;
    unfold DIVO_MIN, DIVO_MAX in *; try lia; try reflexivity.
  destruct Hpost as (P1 & P2 & P3 & P4 & P5).
  unfold calc_divs_enter, DIVO_MAX in *. fields.
  change (initial_divo (set_divnfrac 0 data)) with (initial_divo data) in *.
  set (data' := if dv_is_int st then dv_data st
                else calc_divs_frac (calc_pfd data) (dv_data st)).
  exists (update_divis_regs data'). split.
  - intros fuel Hfuel. unfold idtxp_calc_divs, calc_divs_enter.
    change (initial_divo (set_divnfrac 0 data)) with (initial_divo data).
    rewrite (calc_divs_loop_fuel_mono _ _ _ _ fuel E Hfuel).
    reflexivity.
  - destruct (update_divis_regs_keeps data') as (-> & -> & -> & -> & _).
    subst data'. unfold DIVN_MIN, DIVN_MAX, FVCO_MIN, FVCO_MAX in *.
    destruct (dv_is_int st).
    + specialize (P4 eq_refl). change (2 ^ 24) with 16777216. lia.
    + assert (IDTXP_MIN_FREQ <= req_freq (dv_data st) <= IDTXP_MAX_FREQ)
        as Hr' by (rewrite P1; exact Hr).
      destruct (calc_divs_frac_spec (calc_pfd data) (dv_data st) Hp Hr')
        as (F1 & F2 & F3 & F4 & F5).
      assert (initial_divo (dv_data st) = initial_divo data) as Ei
          by (unfold initial_divo; rewrite P1; reflexivity).
      rewrite Ei in F2. rewrite P1 in F3. rewrite F2 in F3.
      unfold DIVN_MIN in F4. rewrite F3, F2. lia.
Qed.

Lemma idtxp_calc_divs_invariants_witness :
  IDTXP_MIN_FREQ <= req_freq (configured 49152000 156250000)
                 <= IDTXP_MAX_FREQ /\
  valid_reference (configured 49152000 156250000) /\
  exists data',
    (forall fuel, (Z.to_nat DIVO_MAX <= fuel)%nat ->
       idtxp_calc_divs fuel (configured 49152000 156250000)
       = Some (0, data')) /\
    DIVO_MIN <= divo data' <= DIVO_MAX /\
    DIVN_MIN <= divnint data' <= DIVN_MAX /\
    FVCO_MIN <= fvco data' <= FVCO_MAX /\
    fvco data' = req_freq (configured 49152000 156250000) * divo data' /\
    0 <= divnfrac data' <= 2 ^ 24.
Proof.
  assert (IDTXP_MIN_FREQ <= req_freq (configured 49152000 156250000)
          <= IDTXP_MAX_FREQ) as Hr by (vm_compute; split; discriminate).
  assert (valid_reference (configured 49152000 156250000)) as Hv.
  { split; [left; vm_compute; split; discriminate | reflexivity]. }
  split; [exact Hr|]. split; [exact Hv|].
  exact (idtxp_calc_divs_invariants _ Hr Hv).
Defined.

(** C2 (as stated) fails on the bound of the fractional part: for a
    160_000_001 Hz reference (doubler disabled) and a request of
    1_800_000_011 Hz the remainder is one below the phase-detector
    frequency, the truncated fraction 2^24 - 1 is rounded up, and
    idtxp_calc_divs() leaves divnfrac = 2^24 with divnint = 45. *)
Lemma idtxp_calc_divs_divnfrac_cex :
  let data := configured 160000001 1800000011 in
  IDTXP_MIN_FREQ <= req_freq data <= IDTXP_MAX_FREQ /\
  valid_reference data /\
  option_map (fun r => (fst r, divo (snd r), divnint (snd r),
                        divnfrac (snd r)))
    (idtxp_calc_divs 512 data) = Some (0, 4, 45, 2 ^ 24) /\
  ~ (0 <= 2 ^ 24 < 2 ^ 24).
Proof.
  split; [vm_compute; split; discriminate|].
  split; [split; [right; right; vm_compute; split; discriminate
                 | reflexivity]|].
  split; [vm_compute; reflexivity | lia].
Qed.

(** * Further properties of the driver *)

(** ** bit_to_shift on 32-bit masks *)

(** A number whose lowest set bit is bit [k] is an odd multiple of 2^k. *)
Lemma lowest_set_bit_odd_multiple mask k :
  lowest_set_bit mask k -> exists h, mask = (1 + 2 * h) * 2 ^ k.
Proof.
  intros (Hk & Hbit & Hlow).
  destruct (Z.testbit_spec mask k Hk) as (l & h & Hl & E).
  rewrite Hbit in E. cbn [Z.b2z] in E.
  assert (mask mod 2 ^ k = 0) as Hm.
  { apply Z.bits_inj'. intros i Hi.
    rewrite Z.testbit_mod_pow2, Z.bits_0 by assumption.
    destruct (Z.ltb_spec i k); [|reflexivity].
    rewrite Hlow by lia. reflexivity. }
  assert (0 < 2 ^ k) by (apply Z.pow_pos_nonneg; lia).
  assert (mask mod 2 ^ k = l) as Hl'.
  { rewrite E, Z.mod_add by lia. apply Z.mod_small; assumption. }
  exists h. lia.
Qed.

(** The bits of [mask - 1]: ones below the lowest set bit of [mask], a
    zero at it, and the bits of [mask] above it. *)
Lemma pred_bits mask k i :
  lowest_set_bit mask k -> 0 <= i ->
  Z.testbit (mask - 1) i =
  if i <? k then true else if i =? k then false else Z.testbit mask i.
Proof.
  intros Hlow Hi.
  destruct (lowest_set_bit_odd_multiple mask k Hlow) as (h & E).
  destruct Hlow as (Hk & _ & _).
  assert (0 < 2 ^ k) by (apply Z.pow_pos_nonneg; lia).
  destruct (Z.ltb_spec i k) as [Hlt | Hge].
  - rewrite <- (Z.mod_pow2_bits_low (mask - 1) k i) by assumption.
    replace (mask - 1) with (Z.ones k + 2 * h * 2 ^ k)
      by (rewrite Z.ones_equiv; lia).
    rewrite Z.mod_add by lia.
    rewrite Z.mod_small by (rewrite Z.ones_equiv; lia).
    apply Z.ones_spec_low. lia.
  - replace i with ((i - k) + k) by lia.
    rewrite <- !Z.div_pow2_bits by lia.
    replace (mask - 1) with (Z.ones k + 2 * h * 2 ^ k)
      by (rewrite Z.ones_equiv; lia).
    rewrite Z.div_add by lia.
    rewrite (Z.div_small (Z.ones k)) by (rewrite Z.ones_equiv; lia).
    rewrite E, Z.div_mul by lia.
    replace (i - k + k) with i by lia.
    destruct (Z.eqb_spec i k) as [-> | Hne].
    + rewrite Z.sub_diag. apply Z.testbit_even_0.
    + replace (i - k) with (Z.succ (i - k - 1)) by lia.
      rewrite Z.add_0_l, Z.add_comm.
      rewrite Z.testbit_even_succ, Z.testbit_odd_succ by lia. reflexivity.
Qed.

(** [mask & (~mask + 1)] in 32 bits keeps the lowest set bit alone. *)
Lemma isolate_lowest_bit mask k :
  0 < mask < 2 ^ 32 -> k < 32 -> lowest_set_bit mask k ->
  Z.land mask (u32 (not32 mask + 1)) = 2 ^ k.
Proof.
  intros Hm Hk32 Hlow.
  assert (u32 (not32 mask + 1) = (- mask) mod 2 ^ 32) as ->.
  { unfold u32, not32, u32, Z.lnot.
    rewrite Z.add_mod_idemp_l by lia. f_equal. lia. }
  pose proof Hlow as (Hk & Hbit & Hbelow).
  apply Z.bits_inj'. intros i Hi.
  rewrite Z.land_spec, Z.testbit_mod_pow2, Z.bits_opp by lia.
  rewrite Z.pow2_bits_eqb by assumption.
  replace (Z.pred mask) with (mask - 1) by lia.
  rewrite (pred_bits mask k i Hlow Hi).
  destruct (Z.ltb_spec i k).
  - rewrite Hbelow by lia. destruct (Z.eqb_spec k i); [lia | reflexivity].
  - destruct (Z.eqb_spec i k) as [-> | Hne].
    + rewrite Hbit, Z.eqb_refl. destruct (Z.ltb_spec k 32); [reflexivity | lia].
    + destruct (Z.eqb_spec k i); [lia|].
      destruct (Z.testbit mask i), (i <? 32); reflexivity.
Qed.

(** X1: for every nonzero 32-bit mask bit_to_shift() returns the
    position of its lowest set bit (the number of zero bits on the
    right); for the mask 0 it returns 32. *)
Theorem bit_to_shift_counts_trailing_zeros mask k :
  0 < mask < 2 ^ 32 -> lowest_set_bit mask k ->
  bit_to_shift mask = k /\ 0 <= k < 32 /\ bit_to_shift 0 = 32.
Proof.
  intros Hm Hlow.
  assert (k < 32) as Hk32.
  { destruct Hlow as (Hk & Hbit & _).
    destruct (Z.ltb_spec k 32) as [|Hge]; [assumption|].
    rewrite Z.bits_above_log2 in Hbit; [discriminate | lia |].
    apply Z.log2_lt_pow2; [lia|].
    apply Z.lt_le_trans with (2 ^ 32); [lia|].
    apply Z.pow_le_mono_r; lia. }
  pose proof (isolate_lowest_bit mask k Hm Hk32 Hlow) as Hiso.
  destruct Hlow as (Hk & _ & _).
  split; [|split; [lia | reflexivity]].
  unfold bit_to_shift. cbv zeta. rewrite Hiso.
  assert (In k (map Z.of_nat (seq 0 32))) as Hin.
  { apply in_map_iff. exists (Z.to_nat k). split; [lia|].
    apply in_seq. lia. }
  cbn [seq map] in Hin. cbn [In] in Hin.
  repeat (destruct Hin as [<- | Hin]; [reflexivity|]).
  contradiction.
Qed.

Lemma bit_to_shift_counts_trailing_zeros_witness :
  bit_to_shift 0x00F00000 = 20.
Proof.
  apply (bit_to_shift_counts_trailing_zeros 0x00F00000 20).
  - lia.
  - split; [lia|]. split; [reflexivity|].
    intros j Hj.
    assert (In j (map Z.of_nat (seq 0 20))) as Hin.
    { apply in_map_iff. exists (Z.to_nat j). split; [lia|].
      apply in_seq. lia. }
    cbn [seq map In] in Hin.
    repeat (destruct Hin as [<- | Hin]; [reflexivity|]).
    contradiction.
Defined.

(** ** Laws of the bit-field codec *)

(** A contiguous byte mask is the mask of a field whose position is what
    bit_to_shift() returns and whose width is the number of its bits. *)
Lemma contiguous_mask_field m :
  0 < m < 256 -> contiguous_mask m = true ->
  let s := bit_to_shift m in
  let w := mask_width m in
  m = field_mask s w /\ 0 <= s /\ 1 <= w /\ s + w <= 8 /\
  bit_to_shift (field_mask s w) = s.
Proof.
  intros Hm Hc s w.
  destruct (contiguous_mask_shape m Hm Hc) as (Em & Hw & Hsw).
  destruct (bit_to_shift_lowest m Hm) as ((Hs & _) & _).
  fold s w in Em, Hw, Hsw, Hs.
  repeat split; try assumption. rewrite <- Em. reflexivity.
Qed.

Lemma set_to_reg_byte b v m : 0 <= set_to_reg b v m < 2 ^ 8.
Proof. unfold set_to_reg, u8. apply Z.mod_pos_bound. lia. Qed.

Lemma get_from_reg_byte b m : 0 <= get_from_reg b m < 2 ^ 8.
Proof. unfold get_from_reg, u8. apply Z.mod_pos_bound. lia. Qed.

Section FieldLaws.

Variables b s w : Z.
Hypothesis Hb : 0 <= b < 2 ^ 8.
Hypothesis Hs : 0 <= s.
Hypothesis Hw : 0 <= w.
Hypothesis Hsw : s + w <= 8.
Hypothesis Hsh : bit_to_shift (field_mask s w) = s.

(** get_from_reg() extracts the field and right-aligns it. *)
Lemma get_from_reg_extract :
  get_from_reg b (field_mask s w) = (b / 2 ^ s) mod 2 ^ w.
Proof.
  unfold get_from_reg. rewrite Hsh. unfold field_mask.
  rewrite Z.shiftr_land, Z.shiftr_shiftl_l, Z.sub_diag, Z.shiftl_0_r by lia.
  rewrite Z.land_ones, Z.shiftr_div_pow2 by assumption.
  apply u8_small.
  assert (0 < 2 ^ w) by (apply Z.pow_pos_nonneg; lia).
  assert (2 ^ w <= 2 ^ 8) by (apply Z.pow_le_mono_r; lia).
  pose proof (Z.mod_pos_bound (b / 2 ^ s) (2 ^ w) ltac:(lia)). lia.
Qed.

Lemma get_from_reg_fits : 0 <= get_from_reg b (field_mask s w) < 2 ^ w.
Proof.
  rewrite get_from_reg_extract. apply Z.mod_pos_bound.
  apply Z.pow_pos_nonneg; lia.
Qed.

(** The field read by get_from_reg(), shifted back, is the masked part
    of the byte. *)
Lemma get_from_reg_shifted :
  Z.shiftl (get_from_reg b (field_mask s w)) s = Z.land b (field_mask s w).
Proof.
  rewrite get_from_reg_extract.
  rewrite <- Z.land_ones, <- Z.shiftr_div_pow2 by assumption.
  unfold field_mask. apply Z.bits_inj'. intros i Hi.
  rewrite Z.shiftl_spec, !Z.land_spec, Z.shiftl_spec by assumption.
  destruct (Z.ltb_spec i s).
  - rewrite (Z.testbit_neg_r (Z.ones w)) by lia.
    rewrite !andb_false_r. reflexivity.
  - rewrite Z.shiftr_spec by lia.
    replace (i - s + s) with i by lia. reflexivity.
Qed.

(** Bits outside the field do not matter to get_from_reg(). *)
Lemma get_from_reg_masked x :
  get_from_reg x (field_mask s w)
  = u8 (Z.shiftr (Z.land x (field_mask s w)) s).
Proof. unfold get_from_reg. rewrite Hsh. reflexivity. Qed.

End FieldLaws.

Lemma get_set_same_mask b v m :
  0 <= b < 256 -> 0 < m < 256 -> contiguous_mask m = true ->
  0 <= v < 2 ^ mask_width m ->
  get_from_reg (set_to_reg b v m) m = v.
Proof.
  intros Hb Hm Hc Hv.
  destruct (contiguous_mask_field m Hm Hc) as (Em & Hs & Hw & Hsw & Hsh).
  rewrite Em. apply get_from_reg_field; try assumption; lia.
Qed.

Lemma get_set_other_mask b v m m' :
  0 <= b < 256 -> 0 < m < 256 -> contiguous_mask m = true ->
  0 <= v < 2 ^ mask_width m -> Z.land m' m = 0 ->
  get_from_reg (set_to_reg b v m) m' = get_from_reg b m'.
Proof.
  intros Hb Hm Hc Hv Hd.
  destruct (contiguous_mask_field m Hm Hc) as (Em & Hs & Hw & Hsw & Hsh).
  set (s := bit_to_shift m) in *. set (w := mask_width m) in *.
  unfold get_from_reg. f_equal. f_equal.
  assert (forall x, Z.land x m' = Z.land (Z.land x (Z.lnot m)) m') as Hout.
  { intros x. rewrite <- Z.land_assoc. f_equal.
    apply Z.bits_inj'. intros i Hi.
    rewrite Z.land_spec, Z.lnot_spec by assumption.
    assert (Z.testbit (Z.land m' m) i = false) as Hbit
        by (rewrite Hd; apply Z.bits_0).
    rewrite Z.land_spec in Hbit.
    destruct (Z.testbit m' i), (Z.testbit m i); try reflexivity.
    discriminate. }
  rewrite (Hout (set_to_reg b v m)), (Hout b). f_equal.
  rewrite Em. apply set_to_reg_outside; try assumption; lia.
Qed.

(** X2: writing one field with set_to_reg() does not change what
    get_from_reg() reads through any mask that shares no bit with it. *)
Theorem set_to_reg_other_field b v m m' :
  0 <= b < 256 -> 0 < m < 256 -> contiguous_mask m = true ->
  0 <= v < 2 ^ mask_width m -> Z.land m' m = 0 ->
  get_from_reg (set_to_reg b v m) m' = get_from_reg b m'.
Proof. exact (get_set_other_mask b v m m'). Qed.

Lemma set_to_reg_other_field_witness :
  get_from_reg (set_to_reg 0xA5 3 IDTXP_DIVN_INT_8_7_MASK)
    IDTXP_ICP_VALUE_MASK
  = get_from_reg 0xA5 IDTXP_ICP_VALUE_MASK.
Proof.
  apply (set_to_reg_other_field 0xA5 3 IDTXP_DIVN_INT_8_7_MASK
           IDTXP_ICP_VALUE_MASK).
  - lia.
  - unfold IDTXP_DIVN_INT_8_7_MASK. lia.
  - reflexivity.
  - vm_compute. split; [discriminate | reflexivity].
  - reflexivity.
Defined.

(** X3: on one field the last set_to_reg() wins, and writing back the
    value get_from_reg() read leaves the byte as it was. *)
Theorem set_to_reg_overwrite b v1 v2 m :
  0 <= b < 256 -> 0 < m < 256 -> contiguous_mask m = true ->
  0 <= v1 < 2 ^ mask_width m -> 0 <= v2 < 2 ^ mask_width m ->
  set_to_reg (set_to_reg b v1 m) v2 m = set_to_reg b v2 m /\
  set_to_reg b (get_from_reg b m) m = b.
Proof.
  intros Hb Hm Hc Hv1 Hv2.
  destruct (contiguous_mask_field m Hm Hc) as (Em & Hs & Hw & Hsw & Hsh).
  set (s := bit_to_shift m) in *. set (w := mask_width m) in *.
  assert (0 <= b < 2 ^ 8) as Hb' by (change (2 ^ 8) with 256; lia).
  assert (0 <= w) as Hw0 by lia.
  rewrite Em. split.
  - rewrite (set_to_reg_field (set_to_reg b v1 (field_mask s w)) v2 s w)
      by (try apply set_to_reg_byte; assumption).
    rewrite set_to_reg_outside by assumption.
    symmetry. apply set_to_reg_field; assumption.
  - rewrite set_to_reg_field
      by (try apply get_from_reg_fits; assumption).
    rewrite get_from_reg_shifted by assumption.
    rewrite <- Z.land_lor_distr_r, Z.lor_comm, Z.lor_lnot_diag.
    apply Z.land_m1_r.
Qed.

Lemma set_to_reg_overwrite_witness :
  set_to_reg (set_to_reg 0xA5 1 IDTXP_ICP_VALUE_MASK) 5 IDTXP_ICP_VALUE_MASK
  = set_to_reg 0xA5 5 IDTXP_ICP_VALUE_MASK /\
  set_to_reg 0xA5 (get_from_reg 0xA5 IDTXP_ICP_VALUE_MASK)
    IDTXP_ICP_VALUE_MASK = 0xA5.
Proof.
  apply (set_to_reg_overwrite 0xA5 1 5 IDTXP_ICP_VALUE_MASK).
  - lia.
  - unfold IDTXP_ICP_VALUE_MASK. lia.
  - reflexivity.
  - vm_compute. split; [discriminate | reflexivity].
  - vm_compute. split; [discriminate | reflexivity].
Defined.

(** X4: through a contiguous byte mask get_from_reg() returns the field
    right-aligned: the byte divided by 2^shift, modulo 2^width, which
    fits in the width of the mask. *)
Theorem get_from_reg_value b m :
  0 <= b < 256 -> 0 < m < 256 -> contiguous_mask m = true ->
  get_from_reg b m = (b / 2 ^ bit_to_shift m) mod 2 ^ mask_width m /\
  0 <= get_from_reg b m < 2 ^ mask_width m.
Proof.
  intros Hb Hm Hc.
  destruct (contiguous_mask_field m Hm Hc) as (Em & Hs & Hw & Hsw & Hsh).
  set (s := bit_to_shift m) in *. set (w := mask_width m) in *.
  assert (0 <= b < 2 ^ 8) as Hb' by (change (2 ^ 8) with 256; lia).
  rewrite Em. split.
  - apply get_from_reg_extract; try assumption; lia.
  - apply get_from_reg_fits; try assumption; lia.
Qed.

Lemma get_from_reg_value_witness :
  get_from_reg 0xB7 IDTXP_DRV_TYPE
  = (0xB7 / 2 ^ bit_to_shift IDTXP_DRV_TYPE)
      mod 2 ^ mask_width IDTXP_DRV_TYPE /\
  0 <= get_from_reg 0xB7 IDTXP_DRV_TYPE < 2 ^ mask_width IDTXP_DRV_TYPE.
Proof.
  apply (get_from_reg_value 0xB7 IDTXP_DRV_TYPE).
  - lia.
  - unfold IDTXP_DRV_TYPE. lia.
  - reflexivity.
Defined.

(** ** Round trip of the XO settings through registers 0x50-0x57 *)

Lemma set_to_reg_is_byte b v m : 0 <= set_to_reg b v m < 256.
Proof. exact (set_to_reg_byte b v m). Qed.

Lemma of_bool_range b : 0 <= of_bool b < 2.
Proof. destruct b; cbn; lia. Qed.

Lemma to_bool_of_bool b : to_bool (of_bool b) = b.
Proof. destruct b; reflexivity. Qed.

(** Side conditions of the two rewriting lemmas for the masks of the
    driver. *)
Ltac codec_side :=
  first
    [ apply set_to_reg_is_byte
    | assumption
    | reflexivity
    | match goal with
      | |- 0 < ?m < 256 => vm_compute; split; reflexivity
      | |- 0 <= of_bool ?b < 2 ^ mask_width ?m =>
          let n := eval vm_compute in (2 ^ mask_width m) in
          change (2 ^ mask_width m) with n; apply of_bool_range
      | |- 0 <= _ < 2 ^ mask_width ?m =>
          let n := eval vm_compute in (2 ^ mask_width m) in
          change (2 ^ mask_width m) with n; lia
      end ].

Ltac codec :=
  repeat first
    [ rewrite get_set_same_mask by codec_side
    | rewrite get_set_other_mask by codec_side ].

(** Two structures with the same fields are equal. *)
Lemma clk_xo_setting_ext (x y : clk_xo_setting) :
  hsp_i2c_en x = hsp_i2c_en y ->
  cmos_en x = cmos_en y ->
  dblr_dis x = dblr_dis y ->
  vdd_def x = vdd_def y ->
  vcxo_dis x = vcxo_dis y ->
  vcxo_bw x = vcxo_bw y ->
  vcxo_gslope x = vcxo_gslope y ->
  vcxo_gexp x = vcxo_gexp y ->
  vcxo_gscale x = vcxo_gscale y ->
  oe_pol_en x = oe_pol_en y ->
  drv_type x = drv_type y ->
  gm x = gm y ->
  cap_x1 x = cap_x1 y ->
  ampslice x = ampslice y ->
  bypass x = bypass y ->
  cap_x2 x = cap_x2 y ->
  ot_dis x = ot_dis y ->
  ot_res x = ot_res y ->
  x = y.
Proof.
  destruct x, y. cbn. intros. subst. reflexivity.
Qed.

(** The bytes pack_xo() produces from a buffer of eight. *)
Lemma pack_xo_bytes x r0 r1 r2 r3 r4 r5 r6 r7 :
  pack_xo x [r0; r1; r2; r3; r4; r5; r6; r7] =
  [ set_to_reg (set_to_reg r0 (of_bool (hsp_i2c_en x)) IDTXP_HSPI2C_EN)
      (of_bool (cmos_en x)) IDTXP_CMOS_EN;
    set_to_reg
      (set_to_reg (set_to_reg r1 (of_bool (dblr_dis x)) IDTXP_DBLR_DIS_MASK)
         (vdd_def x) IDTXP_VDD_DEF_MASK) (vcxo_bw x) IDTXP_VCXO_BW_MASK;
    set_to_reg
      (set_to_reg (set_to_reg r2 (of_bool (vcxo_gslope x)) IDTXP_GSLOPE_MASK)
         (vcxo_gexp x) IDTXP_GEXP_MASK) (vcxo_gscale x) IDTXP_GSCALE_MASK;
    set_to_reg (set_to_reg r3 (of_bool (oe_pol_en x)) IDTXP_OE_POL_EN)
      (drv_type x) IDTXP_DRV_TYPE;
    r4;
    set_to_reg (set_to_reg r5 (gm x) IDTXP_OT_GM_MASK) (cap_x1 x)
      IDTXP_XO_CAP_MASK;
    set_to_reg
      (set_to_reg (set_to_reg r6 (ampslice x) IDTXP_XO_AMPSLICE_MASK)
         (of_bool (bypass x)) IDTXP_BYPASS_MASK) (cap_x2 x) IDTXP_CAP_X2_MASK;
    set_to_reg (set_to_reg r7 (of_bool (ot_dis x)) IDTXP_OT_DIS_MASK)
      (ot_res x) IDTXP_OT_RES_MASK ].
Proof. reflexivity. Qed.

(** Projections of updated XO settings. *)
Ltac xo_fields :=
  cbn [hsp_i2c_en cmos_en dblr_dis vdd_def vcxo_dis vcxo_bw vcxo_gslope
       vcxo_gexp vcxo_gscale oe_pol_en drv_type gm cap_x1 ampslice bypass
       cap_x2 ot_dis ot_res
       xo_set_hsp_i2c_en xo_set_cmos_en xo_set_dblr_dis xo_set_vdd_def
       xo_set_vcxo_dis xo_set_vcxo_bw xo_set_vcxo_gslope xo_set_vcxo_gexp
       xo_set_vcxo_gscale xo_set_oe_pol_en xo_set_drv_type xo_set_gm
       xo_set_cap_x1 xo_set_ampslice xo_set_bypass xo_set_cap_x2
       xo_set_ot_dis xo_set_ot_res byte_at nth].

Lemma xo_pack_unpack x x0 r0 r1 r2 r3 r4 r5 r6 r7 :
  xo_fits x ->
  0 <= r0 < 256 -> 0 <= r1 < 256 -> 0 <= r2 < 256 -> 0 <= r3 < 256 ->
  0 <= r5 < 256 -> 0 <= r6 < 256 -> 0 <= r7 < 256 ->
  unpack_xo (pack_xo x [r0; r1; r2; r3; r4; r5; r6; r7]) x0
  = xo_set_vcxo_dis (vcxo_dis x0) x.
Proof.
  intros (F1 & F2 & F3 & F4 & F5 & F6 & F7 & F8 & F9 & F10)
         H0 H1 H2 H3 H5 H6 H7.
  rewrite pack_xo_bytes. unfold unpack_xo. cbv zeta.
  apply clk_xo_setting_ext; xo_fields; codec;
    rewrite ?to_bool_of_bool; reflexivity.
Qed.

(** ** The register port: reading back what was written *)

Lemma transact_run {A} (ok ko : regmap -> A * regmap) w :
  transact ok ko w =
  let r := if hd false (faults (w_port w))
           then ko (advance (w_port w)) else ok (advance (w_port w)) in
  Some (fst r, with_port w (snd r)).
Proof.
  unfold transact, advance, with_port.
  destruct (faults (w_port w)) as [|[|] fs]; cbn [hd tl];
    match goal with
    | |- context [let '(_, _) := ?e in _] => destruct e
    end; reflexivity.
Qed.

Lemma reg_range_cons base n :
  reg_range base (S n) = base :: reg_range (base + 1) n.
Proof.
  unfold reg_range. cbn [seq map]. rewrite Z.add_0_r. f_equal.
  rewrite <- seq_shift, map_map. apply map_ext. intros i. lia.
Qed.

Lemma reg_sequence_cons base v buf :
  reg_sequence base (v :: buf) = (base, v) :: reg_sequence (base + 1) buf.
Proof.
  unfold reg_sequence. cbn [length]. rewrite reg_range_cons. reflexivity.
Qed.

Lemma regs_poke reg val p a :
  regs (poke reg val p) a = if a =? reg then val else regs p a.
Proof. reflexivity. Qed.

(** A batch write leaves the registers below its base address. *)
Lemma poke_all_below buf :
  forall base p a,
    a < base -> regs (poke_all (reg_sequence base buf) p) a = regs p a.
Proof.
  induction buf as [|v buf IH]; intros base p a Ha; [reflexivity|].
  rewrite reg_sequence_cons. unfold poke_all in *. cbn [fold_left fst snd].
  rewrite IH by lia. rewrite regs_poke.
  destruct (Z.eqb_spec a base); [lia | reflexivity].
Qed.


(** Reading the range a batch write covered gives the bytes written. *)
Lemma poke_all_read_back buf :
  forall base p,
    map (regs (poke_all (reg_sequence base buf) p))
      (reg_range base (length buf)) = buf.
Proof.
  induction buf as [|v buf IH]; intros base p; [reflexivity|].
  cbn [length]. rewrite reg_range_cons, reg_sequence_cons. cbn [map].
  f_equal.
  - change (poke_all ((base, v) :: reg_sequence (base + 1) buf) p)
      with (poke_all (reg_sequence (base + 1) buf) (poke base v p)).
    rewrite poke_all_below by lia. rewrite regs_poke, Z.eqb_refl.
    reflexivity.
  - apply (IH (base + 1) (poke base v p)).
Qed.

Lemma poke_all_faults seq : forall p, faults (poke_all seq p) = faults p.
Proof.
  induction seq as [|e seq IH]; intros p; [reflexivity|].
  unfold poke_all in *. cbn [fold_left]. rewrite IH. reflexivity.
Qed.

Lemma set_byte_at_length i v buf : length (set_byte_at i v buf) = length buf.
Proof.
  revert i. induction buf as [|h t IH]; intros [|i]; cbn [set_byte_at length];
    try reflexivity. rewrite IH. reflexivity.
Qed.

Lemma set_to_reg_at_length i val mask buf :
  length (set_to_reg_at i val mask buf) = length buf.
Proof. apply set_byte_at_length. Qed.

Lemma pack_xo_length x buf : length (pack_xo x buf) = length buf.
Proof. unfold pack_xo. rewrite !set_to_reg_at_length. reflexivity. Qed.

Lemma pack_divs_length d buf : length (pack_divs d buf) = length buf.
Proof. unfold pack_divs. rewrite !set_to_reg_at_length. reflexivity. Qed.

Lemma regmap_bulk_read_run reg n w :
  regmap_bulk_read reg n w =
  Some ((if hd false (faults (w_port w)) then - EIO else 0,
         read_buffer (w_port w) reg n),
        with_port w (advance (w_port w))).
Proof.
  unfold regmap_bulk_read. rewrite transact_run. unfold read_buffer.
  destruct (hd false (faults (w_port w))); reflexivity.
Qed.

Lemma regmap_multi_reg_write_run seq w :
  regmap_multi_reg_write seq w =
  if hd false (faults (w_port w))
  then Some (- EIO, with_port w (advance (w_port w)))
  else Some (0, with_port w (poke_all seq (advance (w_port w)))).
Proof.
  unfold regmap_multi_reg_write. rewrite transact_run.
  destruct (hd false (faults (w_port w))); reflexivity.
Qed.


(** idtxp_write_xo_settings() step by step. *)
Lemma idtxp_write_xo_settings_run w :
  idtxp_write_xo_settings w =
  let p := w_port w in
  let reg := pack_xo (xo (w_data w)) (read_buffer p IDTXP_REG_HSPI2C_CMOS 8) in
  if hd false (faults (advance p))
  then Some (- EIO, with_port w (advance (advance p)))
  else Some (0, with_port w
                  (poke_all (reg_sequence IDTXP_REG_HSPI2C_CMOS reg)
                     (advance (advance p)))).
Proof.
  unfold idtxp_write_xo_settings, bind, get_data.
  rewrite regmap_bulk_read_run. cbn [fst snd w_data with_port].
  rewrite regmap_multi_reg_write_run. cbn [w_port with_port w_data w_provider].
  destruct (hd false (faults (advance (w_port w)))); reflexivity.
Qed.

Lemma idtxp_get_xo_settings_run w :
  idtxp_get_xo_settings w =
  let p := w_port w in
  if hd false (faults p)
  then Some (- EIO, with_port w (advance p))
  else Some (0, {| w_data :=
                     set_xo (unpack_xo (map (regs p)
                                          (reg_range IDTXP_REG_HSPI2C_CMOS 8))
                               (xo (w_data w))) (w_data w);
                   w_port := advance p; w_provider := w_provider w |}).
Proof.
  unfold idtxp_get_xo_settings, bind, modify_data, ret.
  rewrite regmap_bulk_read_run. unfold read_buffer.
  destruct (hd false (faults (w_port w))); reflexivity.
Qed.

Lemma xo_set_vcxo_dis_same x : xo_set_vcxo_dis (vcxo_dis x) x = x.
Proof. destruct x; reflexivity. Qed.

Lemma set_xo_same d : set_xo (xo d) d = d.
Proof. destruct d; reflexivity. Qed.

(** X5: on a port whose next three transactions succeed and whose
    registers hold bytes, idtxp_write_xo_settings() followed by
    idtxp_get_xo_settings() returns 0 and gives back the structure it
    started from, whenever the XO fields fit their register fields. *)
Theorem xo_settings_round_trip w :
  xo_fits (xo (w_data w)) ->
  (forall a, 0 <= regs (w_port w) a < 256) ->
  forallb negb (firstn 3 (faults (w_port w))) = true ->
  exists w',
    (check idtxp_write_xo_settings ;; idtxp_get_xo_settings) w = Some (0, w')
    /\ w_data w' = w_data w.
Proof.
  intros Hfit Hregs Hok.
  assert (hd false (faults (w_port w)) = false /\
          hd false (faults (advance (w_port w))) = false /\
          hd false (faults (advance (advance (w_port w)))) = false)
    as (F1 & F2 & F3).
  { unfold advance. cbn [faults].
    destruct (faults (w_port w)) as [|[|] [|[|] [|[|] fl]]];
      cbn in Hok; try discriminate; repeat split. }
  unfold bind. rewrite idtxp_write_xo_settings_run. cbv zeta.
  rewrite F2. cbn [Z.eqb]. rewrite idtxp_get_xo_settings_run. cbv zeta.
  cbn [w_port with_port w_data w_provider].
  rewrite poke_all_faults, F3.
  eexists. split; [reflexivity|]. cbn [w_data].
  unfold read_buffer. rewrite F1.
  set (buf := map (regs (w_port w)) (reg_range IDTXP_REG_HSPI2C_CMOS 8)).
  replace 8%nat with (length (pack_xo (xo (w_data w)) buf))
    by (rewrite pack_xo_length; reflexivity).
  rewrite poke_all_read_back.
  subst buf. cbn [reg_range seq map].
  rewrite xo_pack_unpack by (try assumption; apply Hregs).
  rewrite xo_set_vcxo_dis_same. apply set_xo_same.
Qed.

(** ** Round trip of the dividers where the high bits are clear *)

Lemma store_low_byte_same x : 0 <= x -> store_low_byte x (u8 x) = x.
Proof.
  intros Hx. unfold store_low_byte, u8. rewrite Z.mod_mod by lia.
  change 0xFF with (Z.ones 8). rewrite <- Z.land_ones by lia.
  rewrite <- Z.land_lor_distr_r, Z.lor_comm, Z.lor_lnot_diag.
  apply Z.land_m1_r.
Qed.

Lemma store_low_byte_small x : 0 <= x < 256 -> store_low_byte x x = x.
Proof.
  intros Hx. rewrite <- (u8_small x) at 2 by (change (2 ^ 8) with 256; lia).
  apply store_low_byte_same. lia.
Qed.

(** Putting a byte of [x] back at its place adds nothing to [x]. *)
Lemma lor_byte_of x k :
  0 <= k -> Z.lor x (Z.shiftl ((x / 2 ^ k) mod 2 ^ 8) k) = x.
Proof.
  intros Hk. rewrite <- Z.land_ones, <- Z.shiftr_div_pow2 by lia.
  apply Z.bits_inj'. intros i Hi.
  rewrite Z.lor_spec, Z.shiftl_spec by assumption.
  destruct (Z.ltb_spec i k).
  - rewrite (Z.testbit_neg_r _ (i - k)) by lia. apply orb_false_r.
  - rewrite Z.land_spec, Z.shiftr_spec by lia.
    replace (i - k + k) with i by lia.
    destruct (Z.testbit x i); reflexivity.
Qed.

Lemma clk_idtxp_ext (d e : clk_idtxp) :
  has_settings d = has_settings e ->
  settings d = settings e ->
  min_freq d = min_freq e ->
  max_freq d = max_freq e ->
  xo d = xo e ->
  fxtal d = fxtal e ->
  fvco d = fvco e ->
  divo d = divo e ->
  divnint d = divnint e ->
  divnfrac d = divnfrac e ->
  req_freq d = req_freq e ->
  act_freq d = act_freq e ->
  icp_offst_en d = icp_offst_en e ->
  icp_value d = icp_value e ->
  pll_mode d = pll_mode e ->
  divo_8 d = divo_8 e ->
  divnint_8_7 d = divnint_8_7 e ->
  divnfrac_15_8 d = divnfrac_15_8 e ->
  divnfrac_23_16 d = divnfrac_23_16 e ->
  d = e.
Proof.
  destruct d, e. cbn. intros. subst. reflexivity.
Qed.

(** The bytes pack_divs() produces from a buffer of six. *)
Lemma pack_divs_bytes d r0 r1 r2 r3 r4 r5 :
  pack_divs d [r0; r1; r2; r3; r4; r5] =
  [ set_to_reg r0 (u8 (divo d)) 0xFF;
    set_to_reg (set_to_reg r1 (divo_8 d) IDTXP_DIVO_8_MASK)
      (u8 (divnint d)) IDTXP_DIVN_INT_6_0_MASK;
    set_to_reg
      (set_to_reg
         (set_to_reg
            (set_to_reg r2 (of_bool (icp_offst_en d))
               IDTXP_ICP_OFFSET_EN_MASK)
            (divnint_8_7 d) IDTXP_DIVN_INT_8_7_MASK)
         (icp_value d) IDTXP_ICP_VALUE_MASK)
      (of_bool (pll_mode d)) IDTXP_PLL_MODE_MASK;
    set_to_reg r3 (u8 (divnfrac d)) 0xFF;
    set_to_reg r4 (divnfrac_15_8 d) 0xFF;
    set_to_reg r5 (divnfrac_23_16 d) 0xFF ].
Proof. reflexivity. Qed.

Ltac all_fields :=
  cbn [has_settings settings min_freq max_freq xo fxtal fvco divo divnint
       divnfrac req_freq act_freq icp_offst_en icp_value pll_mode divo_8
       divnint_8_7 divnfrac_15_8 divnfrac_23_16
       set_has_settings set_settings set_min_freq set_max_freq set_xo
       set_fxtal set_fvco set_divo set_divnint set_divnfrac set_req_freq
       set_act_freq set_icp_offst_en set_icp_value set_pll_mode set_divo_8
       set_divnint_8_7 set_divnfrac_15_8 set_divnfrac_23_16 byte_at nth].

Lemma divs_pack_unpack d r0 r1 r2 r3 r4 r5 :
  0 <= divo d < 256 -> 0 <= divnint d < 128 ->
  0 <= divnfrac d < 2 ^ 24 -> 0 <= icp_value d < 8 ->
  0 <= r0 < 256 -> 0 <= r1 < 256 -> 0 <= r2 < 256 -> 0 <= r3 < 256 ->
  0 <= r4 < 256 -> 0 <= r5 < 256 ->
  let d' := update_divis_regs d in
  unpack_divs (pack_divs d' [r0; r1; r2; r3; r4; r5]) d' = d'.
Proof.
  intros Ho Hn Hf Hi H0 H1 H2 H3 H4 H5 d'.
  destruct (update_divis_regs_fields d) as (E8 & E87 & E15 & E23 & Eo & En & Ef).
  fold d' in E8, E87, E15, E23, Eo, En, Ef.
  assert (Z.testbit (divo d) 8 = false) as Hb8.
  { destruct (Z.eq_dec (divo d) 0) as [-> | Hnz]; [reflexivity|].
    apply Z.bits_above_log2; [lia|].
    apply Z.log2_lt_pow2; [lia|]. change (2 ^ 8) with 256. lia. }
  rewrite Hb8 in E8, E87. cbn [Z.b2z] in E8, E87.
  assert (icp_value d' = icp_value d) as Ei by reflexivity.
  rewrite <- Eo in Ho. rewrite <- En in Hn. rewrite <- Ef in Hf, E15, E23.
  rewrite <- Ei in Hi.
  clearbody d'. clear Eo En Ef Ei Hb8 d.
  assert (0 <= divnfrac_15_8 d' < 256) as H15
      by (rewrite E15; apply Z.mod_pos_bound; reflexivity).
  assert (0 <= divnfrac_23_16 d' < 256) as H23
      by (rewrite E23; apply Z.mod_pos_bound; reflexivity).
  assert (0 <= u8 (divo d') < 256) by (apply Z.mod_pos_bound; reflexivity).
  assert (0 <= u8 (divnfrac d') < 256)
    by (apply Z.mod_pos_bound; reflexivity).
  assert (u8 (divnint d') = divnint d') as En
      by (apply u8_small; change (2 ^ 8) with 256; lia).
  assert (0 <= divo_8 d' < 2) by lia.
  assert (0 <= divnint_8_7 d' < 4) by lia.
  rewrite pack_divs_bytes, En. unfold unpack_divs. cbv zeta.
  apply clk_idtxp_ext; all_fields; codec; rewrite ?to_bool_of_bool;
    try reflexivity.
  - (* divo *)
    rewrite store_low_byte_same, E8, Z.shiftl_0_l, Z.lor_0_r by lia.
    apply u16_small. change (2 ^ 16) with 65536. lia.
  - (* divnint *)
    rewrite store_low_byte_small by lia.
    rewrite E87, Z.lor_0_r.
    apply u16_small. change (2 ^ 16) with 65536. lia.
  - (* divnfrac *)
    rewrite store_low_byte_same by lia.
    rewrite E15 at 1. rewrite E23 at 1.
    rewrite Z.lor_assoc, !lor_byte_of by lia.
    apply u32_small.
    change (2 ^ 32) with 4294967296. change (2 ^ 24) with 16777216 in Hf.
    lia.
Qed.

(** idtxp_write_divs_settings() step by step. *)
Lemma idtxp_write_divs_settings_run w :
  idtxp_write_divs_settings w =
  let p := w_port w in
  let d := update_divis_regs (w_data w) in
  let reg := pack_divs d (read_buffer p IDTXP_REG_DIVO_7_0 6) in
  let w1 := {| w_data := d; w_port := advance (advance p);
               w_provider := w_provider w |} in
  if hd false (faults (advance p))
  then Some (- EIO, w1)
  else Some (0, with_port w1
                  (poke_all (reg_sequence IDTXP_REG_DIVO_7_0 reg)
                     (advance (advance p)))).
Proof.
  unfold idtxp_write_divs_settings, bind, get_data, modify_data.
  rewrite regmap_bulk_read_run. cbn [fst snd w_data w_port with_port].
  rewrite regmap_multi_reg_write_run.
  cbn [w_port with_port w_data w_provider].
  destruct (hd false (faults (advance (w_port w)))); reflexivity.
Qed.

Lemma idtxp_get_divs_and_icp_run w :
  idtxp_get_divs_and_icp w =
  let p := w_port w in
  if hd false (faults p)
  then Some (- EIO, with_port w (advance p))
  else Some (0, {| w_data :=
                     unpack_divs (map (regs p)
                                    (reg_range IDTXP_REG_DIVO_7_0 6))
                       (w_data w);
                   w_port := advance p; w_provider := w_provider w |}).
Proof.
  unfold idtxp_get_divs_and_icp, bind, modify_data, ret.
  rewrite regmap_bulk_read_run. unfold read_buffer.
  destruct (hd false (faults (w_port w))); reflexivity.
Qed.

(** X6: where output divider, feedback integer, fraction and charge
    pump code fit the low register fields (divo < 256, divnint < 128,
    divnfrac < 2^24, icp_value < 8), idtxp_write_divs_settings() followed
    by idtxp_get_divs_and_icp() on a port whose next three transactions
    succeed returns 0 and reads back exactly the structure that was
    written. *)
Theorem divs_settings_round_trip_low w :
  0 <= divo (w_data w) < 256 -> 0 <= divnint (w_data w) < 128 ->
  0 <= divnfrac (w_data w) < 2 ^ 24 -> 0 <= icp_value (w_data w) < 8 ->
  (forall a, 0 <= regs (w_port w) a < 256) ->
  forallb negb (firstn 3 (faults (w_port w))) = true ->
  exists w',
    (check idtxp_write_divs_settings ;; idtxp_get_divs_and_icp) w
    = Some (0, w') /\
    w_data w' = update_divis_regs (w_data w) /\
    divo (w_data w') = divo (w_data w) /\
    divnint (w_data w') = divnint (w_data w) /\
    divnfrac (w_data w') = divnfrac (w_data w) /\
    icp_offst_en (w_data w') = icp_offst_en (w_data w) /\
    icp_value (w_data w') = icp_value (w_data w) /\
    pll_mode (w_data w') = pll_mode (w_data w).
Proof.
  intros Ho Hn Hf Hi Hregs Hok.
  assert (hd false (faults (w_port w)) = false /\
          hd false (faults (advance (w_port w))) = false /\
          hd false (faults (advance (advance (w_port w)))) = false)
    as (F1 & F2 & F3).
  { unfold advance. cbn [faults].
    destruct (faults (w_port w)) as [|[|] [|[|] [|[|] fl]]];
      cbn in Hok; try discriminate; repeat split. }
  unfold bind. rewrite idtxp_write_divs_settings_run. cbv zeta.
  rewrite F2. cbn [Z.eqb]. rewrite idtxp_get_divs_and_icp_run. cbv zeta.
  cbn [w_port with_port w_data w_provider].
  rewrite poke_all_faults, F3.
  eexists. split; [reflexivity|]. cbn [w_data].
  unfold read_buffer. rewrite F1.
  set (buf := map (regs (w_port w)) (reg_range IDTXP_REG_DIVO_7_0 6)).
  replace 6%nat
    with (length (pack_divs (update_divis_regs (w_data w)) buf))
    by (rewrite pack_divs_length; reflexivity).
  rewrite poke_all_read_back.
  subst buf. cbn [reg_range seq map].
  rewrite divs_pack_unpack by (try assumption; apply Hregs).
  split; [reflexivity|].
  unfold update_divis_regs. fields. repeat split.
Qed.



(** ** Witnesses of the round trips *)

Lemma xo_settings_round_trip_witness :
  exists w',
    (check idtxp_write_xo_settings ;; idtxp_get_xo_settings)
      (world_with (configured 50000000 0) []) = Some (0, w') /\
    w_data w' = w_data (world_with (configured 50000000 0) []).
Proof.
  apply (xo_settings_round_trip (world_with (configured 50000000 0) [])).
  - repeat split; vm_compute; congruence.
  - intros a. cbn. lia.
  - reflexivity.
Defined.

Lemma divs_settings_round_trip_low_witness :
  exists w',
    (check idtxp_write_divs_settings ;; idtxp_get_divs_and_icp)
      (world_with (with_dividers 69 69 0x123456 true 5 true) [])
    = Some (0, w') /\
    divnfrac (w_data w') = 0x123456.
Proof.
  destruct (divs_settings_round_trip_low
              (world_with (with_dividers 69 69 0x123456 true 5 true) []))
    as (w' & E & _ & _ & _ & Hf & _).
  - vm_compute; split; congruence.
  - vm_compute; split; congruence.
  - vm_compute; split; congruence.
  - vm_compute; split; congruence.
  - intros a. cbn. lia.
  - reflexivity.
  - exists w'. split; [exact E | exact Hf].
Defined.


(** ** idtxp_calc_xo_settings *)

(** X8: idtxp_calc_xo_settings() returns 0 exactly for a reference in
    one of the three bands and -EINVAL otherwise.  On -EINVAL the
    structure is unchanged; on 0 only the XO settings change, the seven
    assigned values fit their register fields, the doubler is disabled
    exactly from 100 MHz on, and all other XO fields are kept. *)
Theorem idtxp_calc_xo_settings_result data :
  let err := fst (idtxp_calc_xo_settings data) in
  let data' := snd (idtxp_calc_xo_settings data) in
  (err = 0 \/ err = - EINVAL) /\
  (err = 0 <-> supported_fxtal (fxtal data)) /\
  (err <> 0 -> data' = data) /\
  (err = 0 ->
   data' = set_xo (xo data') data /\
   trim_fits (xo data') /\
   dblr_dis (xo data') = (100000000 <=? fxtal data) /\
   same_untrimmed (xo data) (xo data')).
Proof.
  unfold idtxp_calc_xo_settings, supported_fxtal, trim_fits, same_untrimmed,
    EINVAL.
  destruct (Z.leb_spec 40000000 (fxtal data));
    destruct (Z.leb_spec (fxtal data) 80000000);
    destruct (Z.leb_spec 100000000 (fxtal data));
    destruct (Z.ltb_spec (fxtal data) 140000000);
    destruct (Z.leb_spec 140000000 (fxtal data));
    destruct (Z.leb_spec (fxtal data) 166000000);
    cbn [andb fst snd]; try lia;
    (split; [auto|]); (split; [split; intros; (lia || auto)|]);
    (split; [intros; (reflexivity || congruence)|]);
    intros; try discriminate;
    repeat split; try reflexivity; try lia; cbn; lia.
Qed.

Lemma idtxp_calc_xo_settings_result_witness :
  supported_fxtal (fxtal (set_fxtal 114285000 zeroed)) /\
  fst (idtxp_calc_xo_settings (set_fxtal 114285000 zeroed)) = 0.
Proof.
  assert (supported_fxtal (fxtal (set_fxtal 114285000 zeroed))) as H
      by (right; left; vm_compute; split; congruence).
  split; [exact H|].
  exact (proj2 (proj1 (proj2 (idtxp_calc_xo_settings_result
                                (set_fxtal 114285000 zeroed)))) H).
Defined.

(** ** idtxp_setup, idtxp_get_defaults, idtxp_write_all_settings *)

Lemma idtxp_setup_run w :
  let fl := faults (w_port w) in
  let k := leading_ok 5 fl in
  exists w',
    idtxp_setup w = Some (if Nat.eqb k 5 then 0 else - EIO, w') /\
    w_data w' = w_data w /\
    wlog (w_port w') =
      wlog (w_port w)
      ++ map (fun v => (IDTXP_REG_CONTROL, v)) (firstn k setup_bytes) /\
    faults (w_port w') = skipn (Nat.min 5 (S k)) fl.
Proof.
  destruct w as [d [rg fl st lg] pv]. cbn [faults w_port].
  destruct fl as [|[|] [|[|] [|[|] [|[|] [|[|] fl]]]]];
    (eexists; split; [reflexivity|]; cbn; rewrite <- ?app_assoc;
     repeat split; try reflexivity).
  all: rewrite ?app_nil_r; reflexivity.
Qed.

(** X9: idtxp_setup() writes 0x00, 0x20, 0x00, 0x01, 0x00 to the
    control register in this order and stops at the first write that
    fails: it returns 0 when all five succeed and -EIO otherwise, the
    writes before the failure have reached the chip, none after it is
    attempted, and the structure is not touched. *)
Theorem idtxp_setup_writes w :
  let fl := faults (w_port w) in
  let k := leading_ok 5 fl in
  exists w',
    idtxp_setup w = Some (if Nat.eqb k 5 then 0 else - EIO, w') /\
    w_data w' = w_data w /\
    wlog (w_port w') =
      wlog (w_port w)
      ++ map (fun v => (IDTXP_REG_CONTROL, v)) (firstn k setup_bytes) /\
    faults (w_port w') = skipn (Nat.min 5 (S k)) fl.
Proof. exact (idtxp_setup_run w). Qed.

(** X10: idtxp_get_defaults() reads the divider block and then the XO
    block and returns -EIO at the first read that fails, 0 when both
    succeed.  When the first read fails the structure is unchanged and the
    second read is not attempted; when the second fails the XO settings
    are unchanged.  It never writes a register. *)
Theorem idtxp_get_defaults_codes w :
  let fl := faults (w_port w) in
  exists w',
    idtxp_get_defaults w
    = Some (if hd false fl then - EIO
            else if hd false (tl fl) then - EIO else 0, w') /\
    regs (w_port w') = regs (w_port w) /\
    wlog (w_port w') = wlog (w_port w) /\
    (hd false fl = true ->
     w_data w' = w_data w /\ faults (w_port w') = tl fl) /\
    (hd false fl = false ->
     faults (w_port w') = tl (tl fl) /\
     (hd false (tl fl) = true -> xo (w_data w') = xo (w_data w))).
Proof.
  intros fl. unfold idtxp_get_defaults, bind.
  rewrite idtxp_get_divs_and_icp_run. cbv zeta. subst fl.
  destruct (hd false (faults (w_port w))) eqn:F1.
  - eexists. split; [reflexivity|]. cbn [w_port with_port w_data advance regs
      wlog faults]. repeat split; intros; congruence.
  - cbn [Z.eqb]. rewrite idtxp_get_xo_settings_run. cbv zeta.
    cbn [w_port w_data w_provider advance faults].
    destruct (hd false (tl (faults (w_port w)))) eqn:F2.
    + change (- EIO =? 0) with false. cbv iota. unfold ret.
      eexists. split; [reflexivity|].
      cbn [w_port with_port w_data advance regs wlog faults].
      repeat split; intros; congruence.
    + cbn [Z.eqb]. unfold ret.
      eexists. split; [reflexivity|].
      cbn [w_port with_port w_data advance regs wlog faults].
      repeat split; intros; congruence.
Qed.





(** ** Return codes of a rate change *)







(** X12: a request outside [min_freq, max_freq] is rejected with
    -EINVAL before anything happens: the structure, the registers and the
    schedule of the port are exactly as before. *)
Theorem idtxp_set_rate_out_of_range fuel rate w :
  rate < min_freq (w_data w) \/ max_freq (w_data w) < rate ->
  idtxp_set_rate fuel rate w = Some (- EINVAL, w).
Proof.
  intros Hr. unfold idtxp_set_rate, bind, get_data.
  destruct (Z.ltb_spec rate (min_freq (w_data w)));
    destruct (Z.ltb_spec (max_freq (w_data w)) rate);
    cbn [orb]; try reflexivity; lia.
Qed.

Lemma idtxp_set_rate_out_of_range_witness :
  idtxp_set_rate 0 15999999 (world_with (configured 50000000 0) [])
  = Some (- EINVAL, world_with (configured 50000000 0) []).
Proof.
  apply (idtxp_set_rate_out_of_range 0 15999999
           (world_with (configured 50000000 0) [])).
  left. vm_compute. reflexivity.
Defined.




(** ** What the divider search finds *)

(** Every divider the loop has passed left a remainder, and a search
    that ends without an integer solution has passed every divider whose
    VCO frequency is within FVCO_MAX. *)
Lemma calc_divs_loop_tried pfd :
  80000000 <= pfd <= 166000000 ->
  forall n st st',
    let d := dv_data st in
    IDTXP_MIN_FREQ <= req_freq d <= IDTXP_MAX_FREQ ->
    0 <= divo d <= DIVO_MAX -> FVCO_MIN < req_freq d * divo d ->
    dv_is_int st = false ->
    calc_divs_loop n pfd st = Some st' ->
    (forall x, divo d <= x < divo (dv_data st') ->
       (req_freq d * x) mod pfd <> 0) /\
    (dv_is_int st' = false ->
     forall x, divo d <= x < DIVO_MAX -> req_freq d * x <= FVCO_MAX ->
       (req_freq d * x) mod pfd <> 0).
Proof.
  intros Hp. induction n as [|n IH]; intros st st' d Hr Hd Hf Hi E;
    [discriminate|].
  cbn [calc_divs_loop] in E. fold d in E.
  destruct (Z.ltb_spec (divo d) DIVO_MAX) as [Hlt | Hge].
  - rewrite calc_divs_body_supported in E by (fold d; auto; lia).
    fold d in E. set (f := req_freq d * divo d) in *.
    assert (0 < req_freq d) as Hpos by (unfold IDTXP_MIN_FREQ in Hr; lia).
    destruct (Z.ltb_spec FVCO_MAX f) as [Hgt | Hle].
    + injection E as <-. fields. split; [intros x Hx; lia|].
      intros _ x Hx Hxf. subst f. nia.
    + destruct (Z.eqb_spec (f mod pfd) 0) as [E0 | Hne].
      * injection E as <-. fields. split; [intros x Hx; lia|].
        intros Hc. discriminate.
      * apply IH in E; fields; try assumption;
          [| unfold DIVO_MAX in *; lia | subst f; lia].
        destruct E as [T1 T2]. split.
        -- intros x Hx. destruct (Z.eq_dec x (divo d)) as [-> | Hnx];
             [exact Hne | apply T1; lia].
        -- intros Hc x Hx Hxf. destruct (Z.eq_dec x (divo d)) as [-> | Hnx];
             [exact Hne | apply T2; try assumption; lia].
  - injection E as <-. fold d. split; [intros x Hx; lia|].
    intros _ x Hx. lia.
Qed.

(** X14: for a request in [16 MHz, 2.1 GHz] on a supported reference,
    idtxp_calc_divs() returns the first output divider from the initial
    guess on whose VCO frequency is a multiple of the phase-detector
    frequency, with a zero fraction and an exact feedback integer; when
    no divider with a VCO frequency up to FVCO_MAX is exact it returns
    the initial guess (and goes on in fractional mode). *)
Theorem idtxp_calc_divs_first_exact data :
  IDTXP_MIN_FREQ <= req_freq data <= IDTXP_MAX_FREQ ->
  valid_reference data ->
  let pfd := calc_pfd data in
  let req := req_freq data in
  exists data',
    (forall fuel, (Z.to_nat DIVO_MAX <= fuel)%nat ->
       idtxp_calc_divs fuel data = Some (0, data')) /\
    (forall x, initial_divo data <= x < divo data' ->
       (req * x) mod pfd <> 0) /\
    ((req * divo data') mod pfd = 0 ->
     divnfrac data' = 0 /\ req * divo data' = divnint data' * pfd) /\
    ((req * divo data') mod pfd <> 0 ->
     divo data' = initial_divo data /\
     forall x, initial_divo data <= x < DIVO_MAX -> req * x <= FVCO_MAX ->
       (req * x) mod pfd <> 0).
Proof.
  intros Hr Hv pfd req. subst req.
  pose proof (valid_reference_pfd data Hv) as Hp. fold pfd in Hp.
  destruct (initial_divo_bounds data Hr) as [Hd Hf].
  assert (initial_divo (set_divnfrac 0 data) = initial_divo data) as Ed
      by reflexivity.
  assert (IDTXP_MIN_FREQ <= req_freq (dv_data (calc_divs_enter data))
          <= IDTXP_MAX_FREQ) as H1 by exact Hr.
  assert (0 <= divo (dv_data (calc_divs_enter data)) <= DIVO_MAX) as H2
      by (unfold calc_divs_enter; fields; rewrite Ed;
          unfold DIVO_MIN, DIVO_MAX in *; lia).
  assert (FVCO_MIN < req_freq (dv_data (calc_divs_enter data))
                     * divo (dv_data (calc_divs_enter data))) as H3
      by (unfold calc_divs_enter; fields; rewrite Ed; lia).
  assert (dv_is_int (calc_divs_enter data) = false) as H4 by reflexivity.
  assert (Z.to_nat (DIVO_MAX - divo (dv_data (calc_divs_enter data)))
          < Z.to_nat DIVO_MAX)%nat as H5
      by (unfold calc_divs_enter; fields; rewrite Ed;
          unfold DIVO_MIN, DIVO_MAX in *; lia).
  destruct (calc_divs_loop_exits pfd Hp (Z.to_nat DIVO_MAX)
              (calc_divs_enter data) H1 H2 H3 H4 H5) as (st & E & Hpost).
  destruct (calc_divs_loop_tried pfd Hp (Z.to_nat DIVO_MAX)
              (calc_divs_enter data) st H1 H2 H3 H4 E) as (T1 & T2).
  destruct Hpost as (P1 & P2 & P3 & P4 & P5).
  unfold calc_divs_enter in P1, P2, P3, P4, P5, T1, T2. fields.
  rewrite Ed in P3, T1, T2. clear H1 H2 H3 H4 H5.
  set (data' := if dv_is_int st then dv_data st
                else calc_divs_frac pfd (dv_data st)).
  exists (update_divis_regs data'). split.
  - intros fuel Hfuel. unfold idtxp_calc_divs. fold pfd.
    rewrite (calc_divs_loop_fuel_mono _ _ _ _ fuel E Hfuel). reflexivity.
  - destruct (update_divis_regs_keeps data') as (-> & -> & -> & _ & _).
    subst data'. destruct (dv_is_int st).
    + specialize (P4 eq_refl). destruct P4 as (Q1 & Q2 & Q3 & Q4 & Q5 & Q6).
      assert ((req_freq data * divo (dv_data st)) mod pfd = 0) as Hex
          by (rewrite <- Q2, Q6; apply Z.mod_mul; lia).
      split; [exact T1|]. split.
      * intros _. split; [exact P2 | rewrite <- Q2; exact Q6].
      * intros Hn. contradiction.
    + assert (IDTXP_MIN_FREQ <= req_freq (dv_data st) <= IDTXP_MAX_FREQ)
        as Hr' by (rewrite P1; exact Hr).
      destruct (calc_divs_frac_spec pfd (dv_data st) Hp Hr')
        as (F1 & F2 & F3 & F4 & F5).
      assert (initial_divo (dv_data st) = initial_divo data) as Ei
          by (unfold initial_divo; rewrite P1; reflexivity).
      rewrite Ei in F2. rewrite F2.
      specialize (T2 eq_refl).
      assert ((req_freq data * initial_divo data) mod pfd <> 0) as Hn0
          by (apply T2; unfold DIVO_MAX; lia).
      split; [intros x Hx; lia|]. split; [intros Hz; contradiction|].
      intros _. split; [reflexivity | exact T2].
Qed.

Lemma idtxp_calc_divs_first_exact_witness :
  exists data',
    (forall fuel, (Z.to_nat DIVO_MAX <= fuel)%nat ->
       idtxp_calc_divs fuel (configured 50000000 16000000)
       = Some (0, data')) /\
    (forall x, initial_divo (configured 50000000 16000000) <= x < divo data' ->
       (16000000 * x) mod 100000000 <> 0).
Proof.
  destruct (idtxp_calc_divs_first_exact (configured 50000000 16000000))
    as (data' & E & T & _).
  - vm_compute. split; congruence.
  - split; [left; vm_compute; split; congruence | reflexivity].
  - exists data'. split; [exact E | exact T].
Defined.

(** The fractional mode rounds the fraction to the nearest multiple of
    2^-24 and increments the feedback integer when the fraction is one
    half or more. *)
Lemma calc_divs_frac_accuracy pfd d :
  80000000 <= pfd <= 166000000 ->
  IDTXP_MIN_FREQ <= req_freq d <= IDTXP_MAX_FREQ ->
  let d' := calc_divs_frac pfd d in
  let f := req_freq d * initial_divo d in
  2 * Z.abs (divnfrac d' * pfd - (f mod pfd) * 2 ^ 24) <= pfd /\
  divnint d' = f / pfd + (if 2 ^ 23 <=? divnfrac d' then 1 else 0).
Proof.
  intros Hp Hr.
  destruct (initial_divo_bounds d Hr) as [Hd Hf].
  unfold calc_divs_frac. cbv zeta. fields.
  change (initial_divo (set_divo (initial_divo d) d)) with (initial_divo d).
  set (d0 := initial_divo d) in *.
  assert (u64 (req_freq d * d0) = req_freq d * d0) as Ef.
  { apply u64_small. change (2 ^ 64) with 18446744073709551616.
    unfold FVCO_MIN, FVCO_MAX in Hf. lia. }
  rewrite !Ef. set (f := req_freq d * d0) in *.
  destruct (divnint_bounds f pfd Hp Hf) as [Hq Hm].
  unfold DIVN_MIN in *.
  assert (u16 (f / pfd) = f / pfd) as Eq
      by (apply u16_small; change (2 ^ 16) with 65536; lia).
  rewrite !Eq. rewrite !Z.shiftl_mul_pow2 by lia.
  change (2 ^ 24) with 16777216. change (2 ^ 23) with 8388608.
  assert (u64 (f mod pfd * 16777216) = f mod pfd * 16777216) as Es.
  { apply u64_small. change (2 ^ 64) with 18446744073709551616. lia. }
  rewrite !Es. set (x := f mod pfd * 16777216) in *.
  assert (0 <= x / pfd < 16777216) as Hx.
  { split; [apply Z.div_pos; lia|].
    apply Z.div_lt_upper_bound; lia. }
  pose proof (Z.div_mod x pfd ltac:(lia)) as Dx.
  pose proof (Z.mod_pos_bound x pfd ltac:(lia)) as Bx.
  assert (u32 (x / pfd) = x / pfd) as Ex
      by (apply u32_small; change (2 ^ 32) with 4294967296; lia).
  rewrite !Ex.
  assert (u64 (x mod pfd * 10) = x mod pfd * 10) as E10
      by (apply u64_small; change (2 ^ 64) with 18446744073709551616; lia).
  rewrite E10.
  pose proof (Z.div_mod (x mod pfd * 10) pfd ltac:(lia)) as D1.
  pose proof (Z.mod_pos_bound (x mod pfd * 10) pfd ltac:(lia)) as B1.
  assert (forall F, 0 <= F <= 16777216 ->
            (5 <=? Z.shiftr (u32 (F * 10)) 24) = (8388608 <=? F)) as Hc2.
  { intros F HF.
    rewrite u32_small by (change (2 ^ 32) with 4294967296; lia).
    rewrite Z.shiftr_div_pow2 by lia. change (2 ^ 24) with 16777216.
    pose proof (Z.div_mod (F * 10) 16777216 ltac:(lia)) as D2.
    pose proof (Z.mod_pos_bound (F * 10) 16777216 ltac:(lia)) as B2.
    destruct (Z.leb_spec 5 (F * 10 / 16777216));
      destruct (Z.leb_spec 8388608 F); try reflexivity; lia. }
  destruct (Z.leb_spec 5 (x mod pfd * 10 / pfd)) as [H5 | H5]; fields.
  - rewrite !(u32_small (x / pfd + 1))
      by (change (2 ^ 32) with 4294967296; lia).
    rewrite Hc2 by lia.
    assert (pfd <= 2 * (x mod pfd)) as Hhalf by nia.
    split.
    + destruct (8388608 <=? x / pfd + 1) eqn:Ec; fields; rewrite ?Ec; lia.
    + destruct (8388608 <=? x / pfd + 1) eqn:Ec; fields; rewrite ?Ec;
        rewrite ?u16_small by (change (2 ^ 16) with 65536; lia); lia.
  - rewrite Hc2 by lia.
    assert (2 * (x mod pfd) < pfd) as Hhalf by nia.
    split.
    + destruct (8388608 <=? x / pfd) eqn:Ec; fields; rewrite ?Ec; lia.
    + destruct (8388608 <=? x / pfd) eqn:Ec; fields; rewrite ?Ec;
        rewrite ?u16_small by (change (2 ^ 16) with 65536; lia); lia.
Qed.

(** X15: when no output divider with a VCO frequency up to FVCO_MAX
    makes that frequency a multiple of the phase-detector frequency,
    idtxp_calc_divs() keeps the initial divider and programs the
    fraction nearest to the true one: divnfrac * pfd differs from
    (fvco mod pfd) * 2^24 by at most pfd / 2, and divnint is fvco / pfd,
    plus one when divnfrac is 2^23 or more. *)
Theorem idtxp_calc_divs_fraction data :
  IDTXP_MIN_FREQ <= req_freq data <= IDTXP_MAX_FREQ ->
  valid_reference data ->
  (forall x, initial_divo data <= x < DIVO_MAX ->
     req_freq data * x <= FVCO_MAX ->
     (req_freq data * x) mod calc_pfd data <> 0) ->
  exists data',
    (forall fuel, (Z.to_nat DIVO_MAX <= fuel)%nat ->
       idtxp_calc_divs fuel data = Some (0, data')) /\
    divo data' = initial_divo data /\
    fvco data' = req_freq data * initial_divo data /\
    2 * Z.abs (divnfrac data' * calc_pfd data
               - (fvco data' mod calc_pfd data) * 2 ^ 24) <= calc_pfd data /\
    divnint data'
    = fvco data' / calc_pfd data
      + (if 2 ^ 23 <=? divnfrac data' then 1 else 0).
Proof.
  intros Hr Hv Hnone.
  pose proof (valid_reference_pfd data Hv) as Hp.
  set (pfd := calc_pfd data) in *.
  destruct (initial_divo_bounds data Hr) as [Hd Hf].
  assert (initial_divo (set_divnfrac 0 data) = initial_divo data) as Ed
      by reflexivity.
  assert (IDTXP_MIN_FREQ <= req_freq (dv_data (calc_divs_enter data))
          <= IDTXP_MAX_FREQ) as H1 by exact Hr.
  assert (0 <= divo (dv_data (calc_divs_enter data)) <= DIVO_MAX) as H2
      by (unfold calc_divs_enter; fields; rewrite Ed;
          unfold DIVO_MIN, DIVO_MAX in *; lia).
  assert (FVCO_MIN < req_freq (dv_data (calc_divs_enter data))
                     * divo (dv_data (calc_divs_enter data))) as H3
      by (unfold calc_divs_enter; fields; rewrite Ed; lia).
  assert (dv_is_int (calc_divs_enter data) = false) as H4 by reflexivity.
  assert (Z.to_nat (DIVO_MAX - divo (dv_data (calc_divs_enter data)))
          < Z.to_nat DIVO_MAX)%nat as H5
      by (unfold calc_divs_enter; fields; rewrite Ed;
          unfold DIVO_MIN, DIVO_MAX in *; lia).
  destruct (calc_divs_loop_exits pfd Hp (Z.to_nat DIVO_MAX)
              (calc_divs_enter data) H1 H2 H3 H4 H5) as (st & E & Hpost).
  destruct Hpost as (P1 & P2 & P3 & P4 & P5).
  unfold calc_divs_enter in P1, P2, P3, P4, P5. fields.
  rewrite Ed in P3. clear H1 H2 H3 H4 H5.
  assert (dv_is_int st = false) as Hfrac.
  { destruct (dv_is_int st); [|reflexivity]. exfalso.
    destruct (P4 eq_refl) as (Q1 & Q2 & Q3 & Q4 & Q5 & Q6).
    apply (Hnone (divo (dv_data st))); [lia | lia |].
    rewrite <- Q2, Q6. apply Z.mod_mul. lia. }
  exists (update_divis_regs (calc_divs_frac pfd (dv_data st))). split.
  - intros fuel Hfuel. unfold idtxp_calc_divs. fold pfd.
    rewrite (calc_divs_loop_fuel_mono _ _ _ _ fuel E Hfuel), Hfrac.
    reflexivity.
  - destruct (update_divis_regs_keeps (calc_divs_frac pfd (dv_data st)))
      as (-> & -> & -> & -> & _).
    assert (IDTXP_MIN_FREQ <= req_freq (dv_data st) <= IDTXP_MAX_FREQ)
      as Hr' by (rewrite P1; exact Hr).
    destruct (calc_divs_frac_spec pfd (dv_data st) Hp Hr')
      as (F1 & F2 & F3 & F4 & F5).
    destruct (calc_divs_frac_accuracy pfd (dv_data st) Hp Hr') as (A1 & A2).
    assert (initial_divo (dv_data st) = initial_divo data) as Ei
        by (unfold initial_divo; rewrite P1; reflexivity).
    rewrite Ei, P1 in *. rewrite F2 in F3.
    split; [exact F2|]. split; [exact F3|]. rewrite F3.
    split; [exact A1 | exact A2].
Qed.

Lemma idtxp_calc_divs_fraction_witness :
  exists data',
    (forall fuel, (Z.to_nat DIVO_MAX <= fuel)%nat ->
       idtxp_calc_divs fuel (configured 49152000 156250000)
       = Some (0, data')) /\
    divo data' = 44.
Proof.
  destruct (idtxp_calc_divs_fraction (configured 49152000 156250000))
    as (data' & E & Ho & _).
  - vm_compute. split; congruence.
  - split; [left; vm_compute; split; congruence | reflexivity].
  - intros x Hx Hf.
    change (initial_divo (configured 49152000 156250000)) with 44 in Hx.
    change (req_freq (configured 49152000 156250000)) with 156250000 in *.
    change (calc_pfd (configured 49152000 156250000)) with 98304000.
    unfold FVCO_MAX in Hf.
    assert (In x (map Z.of_nat (seq 44 12))) as Hin.
    { apply in_map_iff. exists (Z.to_nat x). split; [lia|].
      apply in_seq. lia. }
    cbn [seq map In] in Hin.
    repeat (destruct Hin as [<- | Hin]; [vm_compute; congruence|]).
    contradiction.
  - exists data'. split; [exact E | exact Ho].
Defined.


(** ** Bring-up: when a clock provider is left registered *)




Lemma transact_provider {A} (ok ko : regmap -> A * regmap) w :
  twp (transact ok ko) (fun _ w' => same_provider w w') w.
Proof.
  unfold twp. rewrite transact_run. eexists. eexists.
  split; [reflexivity|]. reflexivity.
Qed.









Lemma regmap_multi_reg_write_provider seq w :
  twp (regmap_multi_reg_write seq) (fun _ w' => same_provider w w') w.
Proof. apply transact_provider. Qed.








Section ProbeProvider.

Variable clk_set_rate : Z -> M Z.

(** clk_set_rate() returns, and leaves the provider registration
    alone. *)
Hypothesis clk_set_rate_returns :
  forall rate w, twp (clk_set_rate rate) (fun _ w' => same_provider w w') w.


End ProbeProvider.



(** X17: the failures idtxp_probe() meets before it has a register map
    end it at once: a failed allocation with -ENOMEM, a missing
    'factory-fout' with the code of the property read, an oversized
    'settings' property with -EOVERFLOW (any other failure of that read is
    ignored), a failed register-map allocation with its code.  In each
    case no transaction has been issued on the register port and no
    provider has been registered. *)
Theorem idtxp_probe_early_exits (clk_set_rate : Z -> M Z) pl variant w :
  (kzalloc_ok pl = false ->
   idtxp_probe clk_set_rate pl variant w = Some (- ENOMEM, w)) /\
  (kzalloc_ok pl = true ->
   forall err, err <> 0 ->
     fst (factory_fout pl) = err \/
     fst (factory_fout pl) = 0 /\
       fst (settings_prop pl) = - EOVERFLOW /\ err = - EOVERFLOW \/
     fst (factory_fout pl) = 0 /\
       fst (settings_prop pl) <> - EOVERFLOW /\ regmap_init_err pl = err ->
     exists w',
       idtxp_probe clk_set_rate pl variant w = Some (err, w') /\
       w_port w' = w_port w /\ w_provider w' = w_provider w).
Proof.
  split.
  - intros Hk. unfold idtxp_probe. rewrite Hk. reflexivity.
  - intros Hk err Herr Hcase. unfold idtxp_probe. rewrite Hk.
    cbn [negb]. unfold bind at 1 2. cbn [modify_data].
    destruct Hcase as [Hf | [(Hf & Hs & ->) | (Hf & Hs & Hr)]].
    + unfold bind at 1. rewrite Hf, (proj2 (Z.eqb_neq _ _) Herr).
      cbn [ret]. rewrite (proj2 (Z.eqb_neq _ _) Herr).
      eexists. split; [reflexivity|]. split; reflexivity.
    + unfold bind at 1. rewrite Hf. change (0 =? 0) with true. cbv iota.
      unfold bind at 1. cbn [modify_data ret].
      change (0 =? 0) with true. cbv iota.
      unfold bind at 1. rewrite Hs.
      change (- EOVERFLOW =? 0) with false.
      rewrite Z.eqb_refl. cbn [ret].
      change (- EOVERFLOW =? 0) with false. cbv iota.
      eexists. split; [reflexivity|]. split; reflexivity.
    + unfold bind at 1. rewrite Hf. change (0 =? 0) with true. cbv iota.
      unfold bind at 1. cbn [modify_data ret].
      change (0 =? 0) with true. cbv iota.
      unfold bind at 1.
      rewrite (proj2 (Z.eqb_neq _ _) Hs).
      destruct (fst (settings_prop pl) =? 0);
        unfold bind at 1; cbn [modify_data ret];
        change (0 =? 0) with true; cbv iota;
        unfold bind at 1; cbn [ret]; rewrite Hr;
        rewrite (proj2 (Z.eqb_neq _ _) Herr);
        (eexists; split; [reflexivity|]; split; reflexivity).
Qed.

(** ** The register dump *)

Lemma dump_loop_app i l buf :
  Dump.dump_loop i l buf = buf ++ Dump.dump_loop i l [].
Proof.
  revert i buf. induction l as [|v l IH]; intros i buf.
  - cbn. rewrite app_nil_r. reflexivity.
  - cbn [Dump.dump_loop]. cbv zeta.
    destruct (i mod 16 =? 0); destruct ((i + 1) mod 16 =? 0);
      match goal with
      | |- Dump.dump_loop ?j l ?X = _ ++ Dump.dump_loop ?j l ?Y =>
          rewrite (IH j X), (IH j Y)
      end;
      cbn [app]; rewrite <- ?app_assoc; reflexivity.
Qed.

Lemma row_offset r k : 0 <= k < 16 -> (16 * r + k) mod 16 = k.
Proof.
  intros Hk. rewrite Z.add_comm, Z.mul_comm, Z_mod_plus_full.
  apply Z.mod_small. exact Hk.
Qed.

Lemma row_end r : (16 * r + 15 + 1) mod 16 = 0.
Proof.
  replace (16 * r + 15 + 1) with (16 * (r + 1) + 0) by lia.
  apply row_offset. lia.
Qed.

Lemma row_start r : (16 * r) mod 16 = 0.
Proof. rewrite Z.mul_comm. apply Z_mod_mult. Qed.

(** Inside a row: from column [k] on. *)
Lemma dump_loop_in_row l : forall r k rest,
  0 < k < 16 -> k + Z.of_nat (length l) = 16 ->
  Dump.dump_loop (16 * r + k) (l ++ rest) []
  = concat (map Dump.cell l) ++ Dump.nl
    ++ Dump.dump_loop (16 * (r + 1)) rest [].
Proof.
  induction l as [|v l IH]; intros r k rest Hk Hlen.
  - cbn [length] in Hlen. lia.
  - cbn [length] in Hlen. cbn [app Dump.dump_loop map concat]. cbv zeta.
    rewrite (row_offset r k) by lia.
    destruct (Z.eqb_spec k 0) as [|_]; [lia|].
    destruct l as [|v' l].
    + cbn [length] in Hlen. assert (k = 15) by lia. subst k.
      rewrite row_end. cbn [Z.eqb app map concat].
      rewrite dump_loop_app.
      replace (16 * r + 15 + 1) with (16 * (r + 1)) by lia.
      rewrite app_nil_r, <- !app_assoc. reflexivity.
    + replace (16 * r + k + 1) with (16 * r + (k + 1)) by lia.
      rewrite (row_offset r (k + 1)) by (cbn [length] in Hlen; lia).
      destruct (Z.eqb_spec (k + 1) 0) as [|_]; [lia|].
      rewrite dump_loop_app.
      rewrite (IH r (k + 1) rest) by (cbn [length] in *; lia).
      cbn [app]. rewrite <- !app_assoc. reflexivity.
Qed.

Lemma dump_loop_row r l rest :
  length l = 16%nat ->
  Dump.dump_loop (16 * r) (l ++ rest) []
  = Dump.dump_row r l ++ Dump.dump_loop (16 * (r + 1)) rest [].
Proof.
  intros Hlen. destruct l as [|v l]; [discriminate|].
  cbn [app Dump.dump_loop]. cbv zeta.
  rewrite row_start, (row_offset r 1) by lia. cbn [Z.eqb].
  rewrite dump_loop_app.
  rewrite (dump_loop_in_row l r 1 rest)
    by (cbn [length] in Hlen; lia).
  unfold Dump.dump_row. cbn [map concat app].
  rewrite <- !app_assoc. reflexivity.
Qed.

Lemma dump_loop_rows n : forall r vals,
  length vals = (16 * n)%nat ->
  Dump.dump_loop (16 * r) vals [] = Dump.dump_rows n r vals.
Proof.
  induction n as [|n IH]; intros r vals Hlen.
  - destruct vals; [reflexivity | discriminate].
  - cbn [Dump.dump_rows].
    rewrite <- (firstn_skipn 16 vals) at 1.
    rewrite dump_loop_row by (rewrite length_firstn; lia).
    rewrite IH by (rewrite length_skipn; lia).
    reflexivity.
Qed.

Lemma dump_cells_length l :
  length (concat (map Dump.cell l)) = (3 * length l)%nat.
Proof.
  induction l as [|v l IH]; [reflexivity|].
  cbn [map concat]. rewrite length_app, IH. cbn [length Dump.cell
    Dump.hex02 Dump.text String.list_ascii_of_string app]. lia.
Qed.

Lemma dump_row_length r l :
  length (Dump.dump_row r l) = (5 + 3 * length l)%nat.
Proof.
  unfold Dump.dump_row. rewrite !length_app, dump_cells_length.
  cbn [Dump.hex02 Dump.text Dump.nl length String.list_ascii_of_string].
  lia.
Qed.

Lemma dump_rows_length n : forall r vals,
  length vals = (16 * n)%nat ->
  length (Dump.dump_rows n r vals) = (53 * n)%nat.
Proof.
  induction n as [|n IH]; intros r vals Hlen; [reflexivity|].
  cbn [Dump.dump_rows]. rewrite length_app, dump_row_length.
  rewrite length_firstn, IH by (rewrite length_skipn; lia). lia.
Qed.

(** X18: idtxp_read_all_settings() is one bulk read of the 256
    registers and never writes.  When the read succeeds it returns 0 and
    the text is the header line, sixteen rows (row [r]: the address
    16*r in two hex digits, two spaces, then registers 16*r .. 16*r+15
    in two hex digits and a space each, newline) and a final newline:
    901 characters whatever the registers hold.  When the read fails it
    returns -EIO and the text is the header and a newline, 53 characters.
    Either way the text and its terminating NUL fit the 5000-byte buffer
    of debugfs_i2c_read(). *)
Theorem idtxp_read_all_settings_layout w :
  let p := w_port w in
  let vals := map (fun a => u8 (regs p a)) (reg_range 0 256) in
  exists buf,
    Dump.idtxp_read_all_settings w
    = Some ((if hd false (faults p) then - EIO else 0, buf),
            with_port w (advance p)) /\
    buf = (if hd false (faults p) then Dump.dump_header ++ Dump.nl
           else Dump.dump_header ++ Dump.dump_rows 16 0 vals ++ Dump.nl) /\
    length buf = (if hd false (faults p) then 53 else 901)%nat /\
    (length buf + 1 <= 5000)%nat.
Proof.
  cbv zeta. unfold Dump.idtxp_read_all_settings, bind.
  rewrite regmap_bulk_read_run. cbv zeta. unfold read_buffer.
  destruct (hd false (faults (w_port w))).
  - cbn [fst snd ret]. change (- EIO =? 0) with false. cbv iota.
    eexists. split; [reflexivity|]. split; [reflexivity|].
    split; [reflexivity | cbn; lia].
  - cbn [fst snd ret]. change (0 =? 0) with true. cbv iota.
    change (Z.to_nat NUM_CONFIG_REGISTERS) with 256%nat.
    rewrite map_map.
    set (vals := map (fun a => u8 (regs (w_port w) a)) (reg_range 0 256)).
    assert (Hlen : length vals = (16 * 16)%nat).
    { unfold vals, reg_range. rewrite !length_map, length_seq.
      reflexivity. }
    rewrite dump_loop_app.
    change (Dump.dump_loop 0 vals [])
      with (Dump.dump_loop (16 * 0) vals []).
    rewrite (dump_loop_rows 16 0 vals Hlen), <- app_assoc.
    eexists. split; [reflexivity|]. split; [reflexivity|].
    rewrite !length_app, (dump_rows_length 16 0 _ Hlen).
    split; [reflexivity | cbn; lia].
Qed.

Module DumpExamples.

Import Ascii String.

(** Row 1 of the dump for registers 0x10 .. 0x1f. *)
Example dump_row_0x10 :
  Dump.dump_row 1 [69; 69; 10; 0; 0; 0; 255; 16; 1; 2; 3; 4; 5; 6; 171; 9]
  = Dump.text "10  45 45 0a 00 00 00 ff 10 01 02 03 04 05 06 ab 09 "
    ++ Dump.nl.
Proof. reflexivity. Qed.

End DumpExamples.

(** ** The bus traffic of a rate change *)










